(** * Windows fault and signal delivery of the Julia runtime (src/signals-win.c)

    A shallow embedding of the exception injector [jl_throw_in_ctx], the
    console-interrupt delivery [jl_try_deliver_sigint], the stack-walk
    suspend/resume pair and the sampling profiler, with the theorems that
    settle the properties stated about them.

    The C code runs against the Win32 API and against other parts of the
    runtime.  Their answers are taken as parameters (classes [Win32] and
    [Runtime]); every call that matters to a property is recorded in a trace
    of events carried by the state.  Threads are not interleaved: a function
    runs to its end on the state, and the locks it takes are events of the
    trace. *)

From stdpp Require Import base list gmap strings.
From Stdlib Require Import ZArith.

Local Open Scope Z_scope.

(** ** Machine-level data *)

(** Pointers and handles are addresses; [NULL] is 0. *)
Definition ptr := Z.
Definition HANDLE := Z.
Definition NULL : ptr := 0.

(** C truth value of an integer. *)
Definition truthy (z : Z) : bool := negb (z =? 0).

(** [DWORD] and [size_t]/[uintptr_t] arithmetic wraps around. *)
Definition DWORD_wrap (z : Z) : Z := z mod 2 ^ 32.
Definition size_wrap (z : Z) : Z := z mod 2 ^ 64.

(** [(DWORD)-1], the failure value of [SuspendThread] and [ResumeThread]. *)
Definition DWORD_minus1 : Z := DWORD_wrap (-1).

(** The saved registers of a [jl_jmp_buf], as raw words. *)
Definition jl_jmp_buf := list Z.

(** The Win32 [CONTEXT] structure: the flags word the code sets, and the rest
    of the register snapshot as raw words. *)
Record CONTEXT := mkCONTEXT {
  ContextFlags : Z;
  Regs : list Z
}.

(** [jl_handler_t]: the saved resume context of one protected region; the
    [prev] link is the tail of the list holding the chain. *)
Record jl_handler_t := mkHandler {
  eh_ctx : jl_jmp_buf
}.

(** The fields of [jl_task_t] this file reads.  [eh] is the handler chain,
    innermost frame first; the C pointer [ct->eh] is [NULL] when it is empty. *)
Record jl_task_t := mkTask {
  ptls : ptr;
  eh : list jl_handler_t;
  gcstack : ptr
}.

(** The fields of [jl_tls_states_t] this file reads or writes. *)
Record jl_tls_states_t := mkTls {
  tid : Z;
  system_id : HANDLE;
  current_task : ptr;
  defer_signal : Z;
  io_wait : Z;
  sleep_check_state : Z;
  bt_size : Z;
  bt_data : list Z;
  sig_exception : ptr
}.

Definition set_bt_size (n : Z) (s : jl_tls_states_t) : jl_tls_states_t :=
  mkTls (tid s) (system_id s) (current_task s) (defer_signal s) (io_wait s)
        (sleep_check_state s) n (bt_data s) (sig_exception s).
Definition set_bt_data (d : list Z) (s : jl_tls_states_t) : jl_tls_states_t :=
  mkTls (tid s) (system_id s) (current_task s) (defer_signal s) (io_wait s)
        (sleep_check_state s) (bt_size s) d (sig_exception s).
Definition set_sig_exception (e : ptr) (s : jl_tls_states_t) : jl_tls_states_t :=
  mkTls (tid s) (system_id s) (current_task s) (defer_signal s) (io_wait s)
        (sleep_check_state s) (bt_size s) (bt_data s) e.
Definition set_io_wait (v : Z) (s : jl_tls_states_t) : jl_tls_states_t :=
  mkTls (tid s) (system_id s) (current_task s) (defer_signal s) v
        (sleep_check_state s) (bt_size s) (bt_data s) (sig_exception s).

(** The mutexes the file takes. *)
Inductive mutex :=
| backtrace_lock
| jl_in_stackwalk
| profile_lock          (* jl_lock_profile / jl_unlock_profile *)
| bt_data_prof_lock.

(** ** Events: the calls into the operating system and the rest of the runtime *)
Inductive event :=
| EvSuspendThread (h : HANDLE) (ret : Z)
| EvResumeThread (h : HANDLE) (ret : Z)
| EvGetThreadContext (h : HANDLE) (ret : Z)
| EvSetThreadContext (h : HANDLE) (c : CONTEXT) (ret : Z)
| EvPrint (msg : string)
| EvLock (m : mutex)
| EvUnlock (m : mutex)
| EvSafepointEnableSigint
| EvSafepointConsumeSigint
| EvClearForceSigint
| EvWakeLibuv
| EvNoExcHandler (excpt : ptr) (ct : ptr)
| EvStackOverflowWarning
| EvSwapContext
| EvSetContext
| EvSleep (ms : Z)
| EvProfileTask
| EvCheckProfileAutostop
| EvTimeGetDevCaps (ret : Z)
| EvCreateThread (h : HANDLE)
| EvSetThreadPriority (h : HANDLE)
| EvTimeBeginPeriod (period : Z) (ret : Z)
| EvTimeEndPeriod (period : Z)
| EvMallocStack (stk : ptr)
| EvMakeContext
| EvMutexInit (m : mutex).

(** ** The process state *)

(** The SafepointFlag as far as the interrupt path uses it. *)
Record Safepoint := mkSafepoint {
  sigint_pending : bool;
  force_sigint : bool
}.

(** The statics of the backtrace fiber. *)
Record Fiber := mkFiber {
  have_backtrace_fiber : Z;
  stkerror_ctx : option CONTEXT;
  stkerror_ptls : ptr
}.

(** [TIMECAPS]. *)
Record TIMECAPS := mkTIMECAPS {
  wPeriodMin : Z;
  wPeriodMax : Z
}.

(** The profiler's globals: those of this file ([hBtThread], [timecaps]) and
    those of the including file that this file reads and writes. *)
Record Profiler := mkProfiler {
  hBtThread : HANDLE;
  timecaps : TIMECAPS;
  profile_running : Z;
  profile_all_tasks : Z;
  nsecprof : Z;
  profile_bt_data_prof : list Z;
  profile_bt_size_cur : Z;
  profile_bt_size_max : Z
}.

Record World := mkWorld {
  jl_all_tls_states : list ptr;            (* the array, indexed by tid *)
  tls_heap : gmap Z jl_tls_states_t;       (* what each ptls points to *)
  task_heap : gmap Z jl_task_t;            (* what each jl_task_t* points to *)
  safe_restore : option jl_jmp_buf;        (* jl_get_safe_restore() *)
  safepoint : Safepoint;
  fiber : Fiber;
  prof : Profiler;
  hMainThread : HANDLE;
  cycles : Z;                              (* what cycleclock() reads *)
  trace : list event
}.

Definition with_tls_heap (h : gmap Z jl_tls_states_t) (w : World) : World :=
  mkWorld (jl_all_tls_states w) h (task_heap w) (safe_restore w) (safepoint w)
          (fiber w) (prof w) (hMainThread w) (cycles w) (trace w).
Definition with_safepoint (s : Safepoint) (w : World) : World :=
  mkWorld (jl_all_tls_states w) (tls_heap w) (task_heap w) (safe_restore w) s
          (fiber w) (prof w) (hMainThread w) (cycles w) (trace w).
Definition with_fiber (f : Fiber) (w : World) : World :=
  mkWorld (jl_all_tls_states w) (tls_heap w) (task_heap w) (safe_restore w)
          (safepoint w) f (prof w) (hMainThread w) (cycles w) (trace w).
Definition with_prof (p : Profiler) (w : World) : World :=
  mkWorld (jl_all_tls_states w) (tls_heap w) (task_heap w) (safe_restore w)
          (safepoint w) (fiber w) p (hMainThread w) (cycles w) (trace w).
Definition with_trace (t : list event) (w : World) : World :=
  mkWorld (jl_all_tls_states w) (tls_heap w) (task_heap w) (safe_restore w)
          (safepoint w) (fiber w) (prof w) (hMainThread w) (cycles w) t.

(** ** The monad of the embedding

    A C function is a state transformer that returns normally, ends the
    process through [abort()], does not come back from a collaborator that
    ends the process, leaves through a Julia error raised with [jl_errorf],
    or leaves the behaviour the C standard defines (a null or dangling
    dereference, a write past a buffer, a failed [assert]). *)
Inductive outcome (A : Type) :=
| Ret (a : A) (w : World)
| Aborted (w : World)
| Exited (w : World)
| Raised (msg : string) (w : World)
| Stuck.
Arguments Ret {A} a w.
Arguments Aborted {A} w.
Arguments Exited {A} w.
Arguments Raised {A} msg w.
Arguments Stuck {A}.

Definition M (A : Type) : Type := World -> outcome A.

Definition ret {A} (a : A) : M A := fun w => Ret a w.
Definition bind {A B} (m : M A) (k : A -> M B) : M B :=
  fun w => match m w with
           | Ret a w' => k a w'
           | Aborted w' => Aborted w'
           | Exited w' => Exited w'
           | Raised msg w' => Raised msg w'
           | Stuck => Stuck
           end.

Declare Scope M_scope.
Notation "x <- m ;; k" := (bind m (fun x => k))
  (at level 100, m at next level, right associativity) : M_scope.
Notation "m ;;; k" := (bind m (fun _ => k))
  (at level 100, right associativity) : M_scope.
Delimit Scope M_scope with M.
Local Open Scope M_scope.

Definition get {A} (f : World -> A) : M A := fun w => Ret (f w) w.
Definition modify (f : World -> World) : M unit := fun w => Ret tt (f w).
Definition abort {A} : M A := fun w => Aborted w.
Definition process_exit {A} : M A := fun w => Exited w.
Definition jl_errorf {A} (msg : string) : M A := fun w => Raised msg w.
Definition undefined {A} : M A := fun _ => Stuck.
Definition emit (e : event) : M unit :=
  modify (fun w => with_trace (trace w ++ [e]) w).
Definition assert (b : bool) : M unit := if b then ret tt else undefined.

(** Dereferences. *)
Definition load_task (ct : ptr) : M jl_task_t :=
  fun w => match task_heap w !! ct with
           | Some t => Ret t w
           | None => Stuck
           end.
Definition load_tls (p : ptr) : M jl_tls_states_t :=
  fun w => match tls_heap w !! p with
           | Some s => Ret s w
           | None => Stuck
           end.
Definition update_tls (p : ptr) (f : jl_tls_states_t -> jl_tls_states_t) : M unit :=
  fun w => match tls_heap w !! p with
           | Some s => Ret tt (with_tls_heap (<[p := f s]> (tls_heap w)) w)
           | None => Stuck
           end.

(** [jl_atomic_load_relaxed(&jl_all_tls_states)[i]]. *)
Definition tls_states_at (i : Z) : M ptr :=
  fun w => if i <? 0 then Stuck
           else match jl_all_tls_states w !! Z.to_nat i with
                | Some p => Ret p w
                | None => Stuck
                end.

Definition set_hBtThread (h : HANDLE) (p : Profiler) : Profiler :=
  mkProfiler h (timecaps p) (profile_running p) (profile_all_tasks p) (nsecprof p)
             (profile_bt_data_prof p) (profile_bt_size_cur p) (profile_bt_size_max p).
Definition set_timecaps (t : TIMECAPS) (p : Profiler) : Profiler :=
  mkProfiler (hBtThread p) t (profile_running p) (profile_all_tasks p) (nsecprof p)
             (profile_bt_data_prof p) (profile_bt_size_cur p) (profile_bt_size_max p).
Definition set_profile_running (v : Z) (p : Profiler) : Profiler :=
  mkProfiler (hBtThread p) (timecaps p) v (profile_all_tasks p) (nsecprof p)
             (profile_bt_data_prof p) (profile_bt_size_cur p) (profile_bt_size_max p).
Definition set_profile_all_tasks (v : Z) (p : Profiler) : Profiler :=
  mkProfiler (hBtThread p) (timecaps p) (profile_running p) v (nsecprof p)
             (profile_bt_data_prof p) (profile_bt_size_cur p) (profile_bt_size_max p).
Definition set_profile_bt (d : list Z) (cur : Z) (p : Profiler) : Profiler :=
  mkProfiler (hBtThread p) (timecaps p) (profile_running p) (profile_all_tasks p)
             (nsecprof p) d cur (profile_bt_size_max p).

(** Overwriting the first entries of a backtrace buffer. *)
Definition bt_write (entries old : list Z) : list Z :=
  entries ++ drop (length entries) old.

(** ** The parameters: Win32 and the rest of the runtime *)

(** The Win32 constants the file uses and the answers of the operating
    system to the calls the file makes. *)
Class Win32 := {
  CONTEXT_CONTROL : Z;
  CONTEXT_INTEGER : Z;
  CONTEXT_WORDS : nat;                      (* sizeof(CONTEXT), in words after the flags *)
  MMSYSERR_NOERROR : Z;
  TIMERR_NOERROR : Z;
  SuspendThread_ret : HANDLE -> Z;          (* a DWORD; (DWORD)-1 on failure *)
  ResumeThread_ret : HANDLE -> Z;           (* a DWORD; (DWORD)-1 on failure *)
  GetThreadContext_ret : HANDLE -> Z;       (* a BOOL *)
  GetThreadContext_regs : HANDLE -> list Z; (* the registers read on success *)
  SetThreadContext_ret : HANDLE -> Z;       (* a BOOL *)
  timeGetDevCaps_ret : Z;                   (* an MMRESULT *)
  timeGetDevCaps_caps : TIMECAPS;
  timeBeginPeriod_ret : Z -> Z;             (* an MMRESULT *)
  CreateThread_ret : HANDLE;                (* NULL on failure *)
  GetCurrentThread_ret : HANDLE
}.

(** What the file uses of the runtime without defining it. *)
Class Runtime := {
  JL_MAX_BT_SIZE : Z;
  GIGA : Z;
  PROFILE_STATE_THREAD_NOT_SLEEPING : Z;
  PROFILE_STATE_THREAD_SLEEPING : Z;
  jl_stackovf_exception : ptr;
  jl_interrupt_exception : ptr;
  (* rec_backtrace_ctx(buf, maxsize, ctx, gcstack): the entries it writes to
     buf; its return value is their number *)
  rec_backtrace_ctx : Z -> CONTEXT -> ptr -> list Z;
  (* jl_simulate_longjmp(mctx, c): its int result and the contents of *c
     afterwards *)
  jl_simulate_longjmp : jl_jmp_buf -> CONTEXT -> Z * CONTEXT;
  (* whether jl_no_exc_handler(excpt, ct) comes back to its caller; its
     termination policy is its own *)
  jl_no_exc_handler_returns : bool;
  (* jl_profile_is_buffer_full(), a function of the profiler's globals *)
  jl_profile_is_buffer_full : Profiler -> Z;
  (* jl_malloc_stack(&ssize, NULL): the stack, NULL on failure, and the size
     it stores back *)
  jl_malloc_stack : Z -> ptr * Z
}.

Section Signals.
Context {os : Win32} {rt : Runtime}.

(** *** Win32 calls *)
Definition SuspendThread (h : HANDLE) : M Z :=
  emit (EvSuspendThread h (SuspendThread_ret h)) ;;; ret (SuspendThread_ret h).
Definition ResumeThread (h : HANDLE) : M Z :=
  emit (EvResumeThread h (ResumeThread_ret h)) ;;; ret (ResumeThread_ret h).

(** [GetThreadContext(h, &c)]: the BOOL result and the contents of the
    structure afterwards (untouched on failure). *)
Definition GetThreadContext (h : HANDLE) (c : CONTEXT) : M (Z * CONTEXT) :=
  emit (EvGetThreadContext h (GetThreadContext_ret h)) ;;;
  if GetThreadContext_ret h =? 0 then ret (0, c)
  else ret (GetThreadContext_ret h, mkCONTEXT (ContextFlags c) (GetThreadContext_regs h)).
Definition SetThreadContext (h : HANDLE) (c : CONTEXT) : M Z :=
  emit (EvSetThreadContext h c (SetThreadContext_ret h)) ;;; ret (SetThreadContext_ret h).

(** [memset(&c, 0, sizeof(CONTEXT))]. *)
Definition CONTEXT_zero : CONTEXT := mkCONTEXT 0 (replicate CONTEXT_WORDS 0).
Definition set_ContextFlags (f : Z) (c : CONTEXT) : CONTEXT := mkCONTEXT f (Regs c).

(** *** Calls into the runtime *)
Definition jl_safe_printf (msg : string) : M unit := emit (EvPrint msg).
Definition fputs_stderr (msg : string) : M unit := emit (EvPrint msg).
Definition uv_mutex_lock (m : mutex) : M unit := emit (EvLock m).
Definition uv_mutex_unlock (m : mutex) : M unit := emit (EvUnlock m).
Definition jl_lock_profile : M unit := emit (EvLock profile_lock).
Definition jl_unlock_profile : M unit := emit (EvUnlock profile_lock).
Definition jl_wake_libuv : M unit := emit EvWakeLibuv.
Definition jl_get_safe_restore : M (option jl_jmp_buf) := get safe_restore.

(** Modelled from the spec: [jl_safepoint_enable_sigint] is not in this file;
    the spec has it arm the SafepointFlag's pending interrupt. *)
Definition jl_safepoint_enable_sigint : M unit :=
  emit EvSafepointEnableSigint ;;;
  modify (fun w => with_safepoint (mkSafepoint true (force_sigint (safepoint w))) w).

(** Modelled from the spec: [jl_safepoint_consume_sigint] is not in this
    file; the spec has it clear the pending-interrupt state.  It returns
    whether an interrupt was pending. *)
Definition jl_safepoint_consume_sigint : M bool :=
  emit EvSafepointConsumeSigint ;;;
  was <- get (fun w => sigint_pending (safepoint w)) ;;
  modify (fun w => with_safepoint (mkSafepoint false (force_sigint (safepoint w))) w) ;;;
  ret was.

(** Modelled from the spec: [jl_check_force_sigint] is not in this file; the
    spec has it read the force-interrupt override. *)
Definition jl_check_force_sigint : M bool :=
  get (fun w => force_sigint (safepoint w)).

(** Modelled from the spec: [jl_clear_force_sigint] is not in this file; the
    spec has it clear the force-interrupt override. *)
Definition jl_clear_force_sigint : M unit :=
  emit EvClearForceSigint ;;;
  modify (fun w => with_safepoint (mkSafepoint (sigint_pending (safepoint w)) false) w).

(** [jl_no_exc_handler(excpt, ct)]: the call is recorded; the collaborator
    then either ends the process or comes back, by its own policy. *)
Definition jl_no_exc_handler (excpt ct : ptr) : M unit :=
  emit (EvNoExcHandler excpt ct) ;;;
  if jl_no_exc_handler_returns then ret tt else process_exit.

(** [rec_backtrace_ctx(ptls->bt_data, maxsize, c, gcstack)] on the buffer of
    the thread state at [p]; the result is the number of entries written. *)
Definition rec_backtrace_to_tls (p : ptr) (maxsize : Z) (c : CONTEXT) (gc : ptr) : M Z :=
  let bt := rec_backtrace_ctx maxsize c gc in
  update_tls p (fun s => set_bt_data (bt_write bt (bt_data s)) s) ;;;
  ret (Z.of_nat (length bt)).

(** *** The backtrace fiber *)

Definition set_stkerror_ctx (c : CONTEXT) : M unit :=
  modify (fun w => with_fiber (mkFiber (have_backtrace_fiber (fiber w)) (Some c)
                                       (stkerror_ptls (fiber w))) w).
Definition set_stkerror_ptls (p : ptr) : M unit :=
  modify (fun w => with_fiber (mkFiber (have_backtrace_fiber (fiber w))
                                       (stkerror_ctx (fiber w)) p) w).

(** [start_backtrace_fiber], up to the switch back to the faulting thread. *)
Definition start_backtrace_fiber : M unit :=
  emit EvStackOverflowWarning ;;;
  f <- get fiber ;;
  match stkerror_ctx f with
  | None => undefined
  | Some c =>
      n <- rec_backtrace_to_tls (stkerror_ptls f) JL_MAX_BT_SIZE c NULL ;;
      update_tls (stkerror_ptls f) (set_bt_size n) ;;;
      emit EvSetContext
  end.

(** [jl_swapcontext(&error_return_fiber, &collect_backtrace_fiber)]: the
    fiber's context is the one [jl_makecontext] prepared, so the fiber runs
    [start_backtrace_fiber] from its start and comes back through
    [jl_setcontext(&error_return_fiber)]. *)
Definition jl_swapcontext_to_backtrace_fiber : M unit :=
  emit EvSwapContext ;;; start_backtrace_fiber.

(** *** The injector *)

Definition jl_throw_in_ctx (ct excpt : ptr) (ctxThread : CONTEXT) : M CONTEXT :=
  saferestore <- jl_get_safe_restore ;;
  match saferestore with
  | Some buf =>
      (* restarting jl_ or profile *)
      let '(ok, c) := jl_simulate_longjmp buf ctxThread in
      if ok =? 0 then abort else ret c
  | None =>
      assert (truthy ct && truthy excpt) ;;;
      t <- load_task ct ;;
      let ptls := ptls t in
      update_tls ptls (set_bt_size 0) ;;;
      (if negb (excpt =? jl_stackovf_exception) then
         n <- rec_backtrace_to_tls ptls JL_MAX_BT_SIZE ctxThread (gcstack t) ;;
         update_tls ptls (set_bt_size n)
       else
         hbf <- get (fun w => have_backtrace_fiber (fiber w)) ;;
         if truthy hbf then
           uv_mutex_lock backtrace_lock ;;;
           set_stkerror_ctx ctxThread ;;;
           set_stkerror_ptls ptls ;;;
           jl_swapcontext_to_backtrace_fiber ;;;
           uv_mutex_unlock backtrace_lock
         else ret tt) ;;;
      update_tls ptls (set_sig_exception excpt) ;;;
      update_tls ptls (set_io_wait 0) ;;;
      t' <- load_task ct ;;
      match eh t' with
      | h :: _ =>
          (* asan_unpoison_task_stack is empty without the address sanitizer *)
          let '(ok, c) := jl_simulate_longjmp (eh_ctx h) ctxThread in
          if ok =? 0 then abort else ret c
      | [] =>
          jl_no_exc_handler excpt ct ;;;
          ret ctxThread
      end
  end.

(** *** Console interrupt delivery *)

(** The end of [jl_try_deliver_sigint], reached by every path that does not
    return early. *)
Definition deliver_sigint_resume (hMain : HANDLE) : M unit :=
  r <- ResumeThread hMain ;;
  if r =? DWORD_minus1 then
    jl_safe_printf "error: ResumeThread failed\n"
    (* error *)
  else ret tt.

(** Try to throw the exception in the master thread. *)
Definition jl_try_deliver_sigint : M unit :=
  ptls2 <- tls_states_at 0 ;;
  jl_lock_profile ;;;
  jl_safepoint_enable_sigint ;;;
  jl_wake_libuv ;;;
  hMain <- get hMainThread ;;
  r <- SuspendThread hMain ;;
  if r =? DWORD_minus1 then
    (* error *)
    jl_safe_printf "error: SuspendThread failed\n" ;;;
    jl_unlock_profile
  else
    jl_unlock_profile ;;;
    force <- jl_check_force_sigint ;;
    deliver <- (if force then ret true
                else s2 <- load_tls ptls2 ;;
                     ret (negb (truthy (defer_signal s2)) && truthy (io_wait s2))) ;;
    if deliver then
      jl_safepoint_consume_sigint ;;;
      (if force then jl_safe_printf "WARNING: Force throwing a SIGINT\n" else ret tt) ;;;
      (* Force a throw *)
      jl_clear_force_sigint ;;;
      let ctxThread := set_ContextFlags (Z.lor CONTEXT_CONTROL CONTEXT_INTEGER) CONTEXT_zero in
      got <- GetThreadContext hMain ctxThread ;;
      if fst got =? 0 then
        (* error *)
        jl_safe_printf "error: GetThreadContext failed\n"
      else
        s2 <- load_tls ptls2 ;;
        ctxThread <- jl_throw_in_ctx (current_task s2) jl_interrupt_exception (snd got) ;;
        let ctxThread := set_ContextFlags (Z.lor CONTEXT_CONTROL CONTEXT_INTEGER) ctxThread in
        ok <- SetThreadContext hMain ctxThread ;;
        if ok =? 0 then
          jl_safe_printf "error: SetThreadContext failed\n"
          (* error *)
        else deliver_sigint_resume hMain
    else deliver_sigint_resume hMain.

(** *** Suspending and resuming a worker for a stack walk *)

(** [jl_thread_suspend_and_get_state(tid, timeout, ctx)]: the int result and
    the contents of [*ctx] afterwards; [ctx] is its contents on entry. *)
Definition jl_thread_suspend_and_get_state (tid timeout : Z) (ctx : CONTEXT)
  : M (Z * CONTEXT) :=
  ptls2 <- tls_states_at tid ;;
  if ptls2 =? NULL then (* this thread is not alive *)
    ret (0, ctx)
  else
    s2 <- load_tls ptls2 ;;
    if current_task s2 =? NULL then (* this thread is already dead *)
      ret (0, ctx)
    else
      let hThread := system_id s2 in
      r <- SuspendThread hThread ;;
      if r =? DWORD_minus1 then ret (0, ctx)
      else
        let ctx := set_ContextFlags (Z.lor CONTEXT_CONTROL CONTEXT_INTEGER) CONTEXT_zero in
        got <- GetThreadContext hThread ctx ;;
        if fst got =? 0 then
          r <- ResumeThread hThread ;;
          if r =? DWORD_minus1 then abort
          else ret (0, snd got)
        else ret (1, snd got).

Definition jl_thread_resume (tid : Z) : M unit :=
  ptls2 <- tls_states_at tid ;;
  s2 <- load_tls ptls2 ;;
  let hThread := system_id s2 in
  r <- ResumeThread hThread ;;
  if r =? DWORD_minus1 then
    fputs_stderr "failed to resume main thread! aborting." ;;;
    abort
  else ret tt.

Definition jl_lock_stackwalk : M unit :=
  uv_mutex_lock jl_in_stackwalk ;;;
  jl_lock_profile.

Definition jl_unlock_stackwalk : M unit :=
  jl_unlock_profile ;;;
  uv_mutex_unlock jl_in_stackwalk.

(** *** The sampling profiler *)

Definition jl_profile_stop_timer : M unit :=
  uv_mutex_lock bt_data_prof_lock ;;;
  p <- get prof ;;
  (if truthy (profile_running p) && truthy (wPeriodMin (timecaps p)) then
     emit (EvTimeEndPeriod (wPeriodMin (timecaps p)))
   else ret tt) ;;;
  modify (fun w => with_prof (set_profile_running 0 (prof w)) w) ;;;
  modify (fun w => with_prof (set_profile_all_tasks 0 (prof w)) w) ;;;
  uv_mutex_unlock bt_data_prof_lock.

(** The end of [jl_profile_start_timer], after the profiling thread has been
    created or resumed. *)
Definition profile_start_timer_finish (all_tasks : Z) : M Z :=
  p <- get prof ;;
  (if profile_running p =? 0 then
     (* Failure to change the timer resolution is not fatal. However, it is
        important to ensure that the timeBeginPeriod/timeEndPeriod is paired. *)
     let period := wPeriodMin (timecaps p) in
     emit (EvTimeBeginPeriod period (timeBeginPeriod_ret period)) ;;;
     if negb (TIMERR_NOERROR =? timeBeginPeriod_ret period) then
       modify (fun w => with_prof (set_timecaps (mkTIMECAPS 0 (wPeriodMax (timecaps (prof w))))
                                                (prof w)) w)
     else ret tt
   else ret tt) ;;;
  modify (fun w => with_prof (set_profile_all_tasks all_tasks (prof w)) w) ;;;
  modify (fun w => with_prof (set_profile_running 1 (prof w)) w) ;;; (* set `profile_running` finally *)
  ret 0.

Definition jl_profile_start_timer (all_tasks : Z) : M Z :=
  p <- get prof ;;
  if hBtThread p =? NULL then
    emit (EvTimeGetDevCaps timeGetDevCaps_ret) ;;;
    if negb (MMSYSERR_NOERROR =? timeGetDevCaps_ret) then
      fputs_stderr "failed to get timer resolution" ;;;
      ret (-2)
    else
      modify (fun w => with_prof (set_timecaps timeGetDevCaps_caps (prof w)) w) ;;;
      emit (EvCreateThread CreateThread_ret) ;;;
      modify (fun w => with_prof (set_hBtThread CreateThread_ret (prof w)) w) ;;;
      if CreateThread_ret =? NULL then ret (-1)
      else
        emit (EvSetThreadPriority CreateThread_ret) ;;;
        profile_start_timer_finish all_tasks
  else
    r <- ResumeThread (hBtThread p) ;;
    if r =? DWORD_minus1 then
      fputs_stderr "failed to resume profiling thread." ;;;
      ret (-2)
    else profile_start_timer_finish all_tasks.

(** [profile_bt_data_prof[profile_bt_size_cur++].uintptr = v] (the same
    store through [.jlvalue] for a pointer). *)
Definition profile_bt_push (v : Z) : M unit :=
  fun w =>
    let p := prof w in
    let i := profile_bt_size_cur p in
    if (0 <=? i) && (i <? Z.of_nat (length (profile_bt_data_prof p))) then
      Ret tt (with_prof (set_profile_bt (<[Z.to_nat i := v]> (profile_bt_data_prof p))
                                        (size_wrap (i + 1)) p) w)
    else Stuck.

(** [profile_bt_size_cur += rec_backtrace_ctx(profile_bt_data_prof +
    profile_bt_size_cur, profile_bt_size_max - profile_bt_size_cur - 1, c,
    NULL)]. *)
Definition profile_bt_record (c : CONTEXT) : M unit :=
  fun w =>
    let p := prof w in
    let cur := profile_bt_size_cur p in
    let bt := rec_backtrace_ctx (size_wrap (profile_bt_size_max p - cur - 1)) c NULL in
    let n := Z.of_nat (length bt) in
    if (0 <=? cur) && (cur + n <=? Z.of_nat (length (profile_bt_data_prof p))) then
      Ret tt (with_prof
                (set_profile_bt (take (Z.to_nat cur) (profile_bt_data_prof p) ++ bt ++
                                 drop (Z.to_nat (cur + n)) (profile_bt_data_prof p))
                                (size_wrap (cur + n)) p) w)
    else Stuck.

Definition cycleclock : M Z := get cycles.
Definition jl_profile_task : M unit := emit EvProfileTask.
Definition jl_check_profile_autostop : M unit := emit EvCheckProfileAutostop.
Definition Sleep (ms : Z) : M unit := emit (EvSleep ms).

Inductive loop_exit := Continue | Break.

(** One turn of the [while (1)] of [profile_bt]; [ctxThread] is the
    indeterminate content of the local of that name. *)
Definition profile_bt_iteration (ctxThread : CONTEXT) : M loop_exit :=
  p <- get prof ;;
  let timeout_ms := DWORD_wrap (nsecprof p / (GIGA / 1000)) in
  Sleep (if timeout_ms >? 0 then timeout_ms else 1) ;;;
  p <- get prof ;;
  if truthy (profile_running p) then
    if truthy (jl_profile_is_buffer_full p) then
      jl_profile_stop_timer ;;; (* does not change the thread state *)
      _ <- SuspendThread GetCurrentThread_ret ;;
      ret Continue
    else if truthy (profile_all_tasks p) then
      (* Don't take the stackwalk lock here since it's already taken in `jl_rec_backtrace` *)
      jl_profile_task ;;;
      ret Continue
    else
      jl_lock_stackwalk ;;;
      got <- jl_thread_suspend_and_get_state 0 0 ctxThread ;;
      if fst got =? 0 then
        jl_unlock_stackwalk ;;;
        fputs_stderr "failed to suspend main thread. aborting profiling." ;;;
        jl_profile_stop_timer ;;;
        ret Break
      else
        (* Get backtrace data *)
        profile_bt_record (snd got) ;;;
        ptls <- tls_states_at 0 ;; (* given only profiling hMainThread *)
        (* META_OFFSET_THREADID store threadid but add 1 as 0 is preserved to indicate end of block *)
        s <- load_tls ptls ;;
        profile_bt_push (size_wrap (tid s + 1)) ;;;
        (* META_OFFSET_TASKID store task id (never null) *)
        s <- load_tls ptls ;;
        profile_bt_push (current_task s) ;;;
        (* META_OFFSET_CPUCYCLECLOCK store cpu cycle clock *)
        clk <- cycleclock ;;
        profile_bt_push clk ;;;
        (* store whether thread is sleeping (don't ever encode a state as `0`
           since is preserved to indicate end of block) *)
        s <- load_tls ptls ;;
        let state := if sleep_check_state s =? 0
                     then PROFILE_STATE_THREAD_NOT_SLEEPING
                     else PROFILE_STATE_THREAD_SLEEPING in
        profile_bt_push (size_wrap state) ;;;
        (* Mark the end of this block with two 0's *)
        profile_bt_push 0 ;;;
        profile_bt_push 0 ;;;
        jl_unlock_stackwalk ;;;
        jl_thread_resume 0 ;;;
        jl_check_profile_autostop ;;;
        ret Continue
  else ret Continue.

(** The loop of [profile_bt], for at most [fuel] turns: [Break] when the loop
    was left, [Continue] when it is still running. *)
Fixpoint profile_bt_loop (fuel : nat) (ctxThread : CONTEXT) : M loop_exit :=
  match fuel with
  | O => ret Continue
  | S fuel' =>
      e <- profile_bt_iteration ctxThread ;;
      match e with
      | Break => ret Break
      | Continue => profile_bt_loop fuel' ctxThread
      end
  end.

(** [profile_bt]: [Some 0] is its return value, [None] a thread that is
    still sampling when the fuel is spent. *)
Definition profile_bt (fuel : nat) (ctxThread : CONTEXT) : M (option Z) :=
  e <- profile_bt_loop fuel ctxThread ;;
  match e with
  | Continue => ret None
  | Break =>
      uv_mutex_unlock jl_in_stackwalk ;;;
      jl_profile_stop_timer ;;;
      modify (fun w => with_prof (set_hBtThread NULL (prof w)) w) ;;;
      ret (Some 0)
  end.

(** *** Per-thread initialisation *)

Definition sig_stack_size : Z := 131072. (* 128k reserved for backtrace_fiber for stack overflow handling *)

Definition jl_install_thread_signal_handler (ptls : ptr) : M unit :=
  hbf <- get (fun w => have_backtrace_fiber (fiber w)) ;;
  if negb (truthy hbf) then
    let '(stk, ssize) := jl_malloc_stack sig_stack_size in
    emit (EvMallocStack stk) ;;;
    (if stk =? NULL then jl_errorf "fatal error allocating signal stack: mmap: %s"
     else ret tt) ;;;
    emit EvMakeContext ;;;
    emit (EvMutexInit backtrace_lock) ;;;
    modify (fun w => with_fiber (mkFiber 1 (stkerror_ctx (fiber w)) (stkerror_ptls (fiber w))) w)
  else ret tt.

End Signals.

(** ** The vocabulary of the properties *)

Section Statements.
Context {os : Win32} {rt : Runtime}.

(** What [jl_throw_in_ctx] leaves in the thread state of the task: the
    pending exception, a cleared I/O-wait flag, and the backtrace [bt] when
    one was [collected]. *)
Definition injected_tls (excpt : ptr) (collected : bool) (bt : list Z)
    (s : jl_tls_states_t) : jl_tls_states_t :=
  mkTls (tid s) (system_id s) (current_task s) (defer_signal s) 0 (sleep_check_state s)
        (if collected then Z.of_nat (length bt) else 0)
        (if collected then bt_write bt (bt_data s) else bt_data s)
        excpt.

(** The calls made when the backtrace is collected on the fiber. *)
Definition fiber_events : list event :=
  [EvLock backtrace_lock; EvSwapContext; EvStackOverflowWarning; EvSetContext;
   EvUnlock backtrace_lock].

(** Where [jl_throw_in_ctx] hands control for the task [t], in the state
    [w'] it has prepared: the simulated jump to the topmost handler frame, or
    [abort()] when the jump cannot be simulated; [jl_no_exc_handler] when the
    chain is empty. *)
Definition handler_transfer (t : jl_task_t) (ctxThread : CONTEXT) (w' : World)
  : outcome CONTEXT :=
  match eh t with
  | h :: _ =>
      if fst (jl_simulate_longjmp (eh_ctx h) ctxThread) =? 0 then Aborted w'
      else Ret (snd (jl_simulate_longjmp (eh_ctx h) ctxThread)) w'
  | [] => if jl_no_exc_handler_returns then Ret ctxThread w' else Exited w'
  end.

(** Control handed to the task [t] in the state [w']: the context of the
    simulated jump to the topmost handler frame, or [jl_no_exc_handler] when
    the chain is empty. *)
Definition handler_entered (t : jl_task_t) (ctxThread : CONTEXT) (w' : World)
  : outcome CONTEXT :=
  match eh t with
  | h :: _ => Ret (snd (jl_simulate_longjmp (eh_ctx h) ctxThread)) w'
  | [] => if jl_no_exc_handler_returns then Ret ctxThread w' else Exited w'
  end.

(** The state after the stack-overflow exception was injected without a
    backtrace: control went to the handler frame or to [jl_no_exc_handler],
    the exception is pending, the I/O-wait flag is clear, the backtrace
    length is zero and the buffer is as it was; the fiber was not
    entered. *)
Definition injected_without_backtrace (ct : ptr) (ctxThread : CONTEXT) (w : World)
    (t : jl_task_t) (s : jl_tls_states_t) (o : outcome CONTEXT) : Prop :=
  exists w' s',
    o = handler_entered t ctxThread w' /\
    tls_heap w' !! ptls t = Some s' /\
    sig_exception s' = jl_stackovf_exception /\
    io_wait s' = 0 /\
    bt_size s' = 0 /\
    bt_data s' = bt_data s /\
    trace w' = trace w ++ match eh t with
                          | [] => [EvNoExcHandler jl_stackovf_exception ct]
                          | _ => []
                          end.

(** The state after a successful injection into the handler frame [h]: the
    context is the one the simulated jump to [h] produced, the exception is
    pending, the I/O-wait flag is clear, and the backtrace buffer holds the
    walk of the supplied context, made directly or, for the stack-overflow
    exception, by the fiber. *)
Definition injected_into_handler (excpt : ptr) (ctxThread : CONTEXT) (w : World)
    (t : jl_task_t) (s : jl_tls_states_t) (h : jl_handler_t) (o : outcome CONTEXT) : Prop :=
  exists w' s',
    o = Ret (snd (jl_simulate_longjmp (eh_ctx h) ctxThread)) w' /\
    tls_heap w' !! ptls t = Some s' /\
    sig_exception s' = excpt /\
    io_wait s' = 0 /\
    let stkovf := excpt =? jl_stackovf_exception in
    let bt := rec_backtrace_ctx JL_MAX_BT_SIZE ctxThread (if stkovf then NULL else gcstack t) in
    bt_size s' = Z.of_nat (length bt) /\
    bt_data s' = bt_write bt (bt_data s) /\
    trace w' = trace w ++ (if stkovf then fiber_events else []).

(** The calls [jl_try_deliver_sigint] makes up to the decision to deliver. *)
Definition deliver_prefix_events (hMain : HANDLE) : list event :=
  [EvLock profile_lock; EvSafepointEnableSigint; EvWakeLibuv;
   EvSuspendThread hMain (SuspendThread_ret hMain); EvUnlock profile_lock].

(** The context [jl_try_deliver_sigint] reads from the suspended main
    thread. *)
Definition main_thread_context (w : World) : CONTEXT :=
  mkCONTEXT (Z.lor CONTEXT_CONTROL CONTEXT_INTEGER) (GetThreadContext_regs (hMainThread w)).

(** The calls [jl_try_deliver_sigint] makes up to the injection, on the path
    that delivers. *)
Definition delivery_events (w : World) : list event :=
  deliver_prefix_events (hMainThread w) ++ [EvSafepointConsumeSigint] ++
  (if force_sigint (safepoint w)
   then [EvPrint "WARNING: Force throwing a SIGINT\n"] else []) ++
  [EvClearForceSigint;
   EvGetThreadContext (hMainThread w) (GetThreadContext_ret (hMainThread w))].

(** The state in which [jl_try_deliver_sigint] calls the injector. *)
Definition delivering_state (w : World) : World :=
  with_trace (trace w ++ delivery_events w) (with_safepoint (mkSafepoint false false) w).

(** The state in which [jl_try_deliver_sigint] leaves an interrupt it does
    not deliver: the target was suspended and resumed, the pending
    interrupt is still armed and nothing else changed. *)
Definition interrupt_left_pending (w : World) (o : outcome unit) : Prop :=
  let hMain := hMainThread w in
  exists w' r,
    o = Ret tt w' /\
    sigint_pending (safepoint w') = true /\
    tls_heap w' = tls_heap w /\
    task_heap w' = task_heap w /\
    trace w' = trace w ++
               [EvLock profile_lock; EvSafepointEnableSigint; EvWakeLibuv;
                EvSuspendThread hMain (SuspendThread_ret hMain); EvUnlock profile_lock;
                EvResumeThread hMain r] ++
               (if r =? DWORD_minus1 then [EvPrint "error: ResumeThread failed\n"] else []).

(** The number of successful [SuspendThread] calls and the number of
    [ResumeThread] calls on the thread [h] in a trace. *)
Fixpoint suspends_of (h : HANDLE) (t : list event) : nat :=
  match t with
  | [] => 0
  | EvSuspendThread h' r :: t' =>
      if (h' =? h) && negb (r =? DWORD_minus1) then S (suspends_of h t') else suspends_of h t'
  | _ :: t' => suspends_of h t'
  end.

Fixpoint resumes_of (h : HANDLE) (t : list event) : nat :=
  match t with
  | [] => 0
  | EvResumeThread h' _ :: t' =>
      if h' =? h then S (resumes_of h t') else resumes_of h t'
  | _ :: t' => resumes_of h t'
  end.

(** The number of [timeEndPeriod] calls in a trace. *)
Fixpoint count_timeEndPeriod (t : list event) : nat :=
  match t with
  | [] => 0
  | EvTimeEndPeriod _ :: t' => S (count_timeEndPeriod t')
  | _ :: t' => count_timeEndPeriod t'
  end.

(** The period a start passes to [timeBeginPeriod]: the one
    [timeGetDevCaps] reports when the profiling thread is created, the one
    kept in [timecaps] when the thread is resumed. *)
Definition start_period (w : World) : Z :=
  wPeriodMin (if hBtThread (prof w) =? NULL then timeGetDevCaps_caps else timecaps (prof w)).

(** The context and the backtrace of one sample of the thread state [s]. *)
Definition sampled_context (s : jl_tls_states_t) : CONTEXT :=
  mkCONTEXT (Z.lor CONTEXT_CONTROL CONTEXT_INTEGER) (GetThreadContext_regs (system_id s)).

Definition sampled_backtrace (w : World) (s : jl_tls_states_t) : list Z :=
  rec_backtrace_ctx
    (size_wrap (profile_bt_size_max (prof w) - profile_bt_size_cur (prof w) - 1))
    (sampled_context s) NULL.

(** The outcome [o] of a turn of the profiler appended one block at the
    cursor: the program counters, the four metadata fields with [threadid]
    as the first of them, and two zeros. *)
Definition sample_appended (threadid : Z) (w : World) (s : jl_tls_states_t)
    (o : outcome loop_exit) : Prop :=
  let buf := profile_bt_data_prof (prof w) in
  let cur := profile_bt_size_cur (prof w) in
  let state := if sleep_check_state s =? 0 then PROFILE_STATE_THREAD_NOT_SLEEPING
               else PROFILE_STATE_THREAD_SLEEPING in
  let block := sampled_backtrace w s ++
               [threadid; current_task s; cycles w; size_wrap state; 0; 0] in
  exists w',
    o = Ret Continue w' /\
    profile_bt_data_prof (prof w') =
      take (Z.to_nat cur) buf ++ block ++ drop (Z.to_nat cur + length block) buf /\
    profile_bt_size_cur (prof w') = cur + Z.of_nat (length block).

End Statements.

(** ** A concrete platform for the closed examples *)

Definition demo_os (susp res getc setc tbp : Z) : Win32 := {|
  CONTEXT_CONTROL := 1048577;
  CONTEXT_INTEGER := 1048578;
  CONTEXT_WORDS := 4;
  MMSYSERR_NOERROR := 0;
  TIMERR_NOERROR := 0;
  SuspendThread_ret := fun _ => susp;
  ResumeThread_ret := fun _ => res;
  GetThreadContext_ret := fun _ => getc;
  GetThreadContext_regs := fun h => [h; 4198400; 4198912; 7];
  SetThreadContext_ret := fun _ => setc;
  timeGetDevCaps_ret := 0;
  timeGetDevCaps_caps := mkTIMECAPS 1 1000000;
  timeBeginPeriod_ret := fun _ => tbp;
  CreateThread_ret := 900;
  GetCurrentThread_ret := 901
|}.

(** The backtrace of a context is its second and third register; a simulated
    jump loads the registers saved in the buffer. *)
Definition demo_rt : Runtime := {|
  JL_MAX_BT_SIZE := 80000;
  GIGA := 1000000000;
  PROFILE_STATE_THREAD_NOT_SLEEPING := 1;
  PROFILE_STATE_THREAD_SLEEPING := 2;
  jl_stackovf_exception := 20480;
  jl_interrupt_exception := 20488;
  rec_backtrace_ctx := fun maxsize c _ => take (Z.to_nat maxsize) (take 2 (drop 1 (Regs c)));
  jl_simulate_longjmp := fun buf c => (1, mkCONTEXT (ContextFlags c) buf);
  jl_no_exc_handler_returns := false;
  jl_profile_is_buffer_full := fun p =>
    if profile_bt_size_max p <? profile_bt_size_cur p + 8 then 1 else 0;
  jl_malloc_stack := fun ssize => (65536, ssize)
|}.

(** The jump cannot be simulated. *)
Definition demo_rt_no_jump : Runtime := {|
  JL_MAX_BT_SIZE := 80000;
  GIGA := 1000000000;
  PROFILE_STATE_THREAD_NOT_SLEEPING := 1;
  PROFILE_STATE_THREAD_SLEEPING := 2;
  jl_stackovf_exception := 20480;
  jl_interrupt_exception := 20488;
  rec_backtrace_ctx := fun maxsize c _ => take (Z.to_nat maxsize) (take 2 (drop 1 (Regs c)));
  jl_simulate_longjmp := fun buf c => (0, c);
  jl_no_exc_handler_returns := false;
  jl_profile_is_buffer_full := fun p =>
    if profile_bt_size_max p <? profile_bt_size_cur p + 8 then 1 else 0;
  jl_malloc_stack := fun ssize => (65536, ssize)
|}.

Definition demo_tls : jl_tls_states_t := {|
  tid := 0; system_id := 77; current_task := 4096;
  defer_signal := 0; io_wait := 1; sleep_check_state := 0;
  bt_size := 3; bt_data := [11; 12; 13; 14]; sig_exception := 0
|}.

Definition demo_task : jl_task_t := {|
  ptls := 8192; eh := [mkHandler [1; 2; 3; 4]; mkHandler [5; 6; 7; 8]]; gcstack := 12288
|}.

Definition demo_world : World := {|
  jl_all_tls_states := [8192];
  tls_heap := {[ 8192 := demo_tls ]};
  task_heap := {[ 4096 := demo_task ]};
  safe_restore := None;
  safepoint := mkSafepoint false false;
  fiber := mkFiber 1 None 0;
  prof := mkProfiler 0 (mkTIMECAPS 0 0) 0 0 1000000 (replicate 16 99) 0 16;
  hMainThread := 77;
  cycles := 123456;
  trace := []
|}.

Definition demo_win32 : Win32 := demo_os 0 0 1 1 0.

Definition demo_ctx : CONTEXT := mkCONTEXT 1048579 [77; 4198400; 4198912; 7].

Definition demo_world_no_fiber : World := with_fiber (mkFiber 0 None 0) demo_world.

Definition demo_world_no_handler : World :=
  mkWorld [8192] {[ 8192 := demo_tls ]} {[ 4096 := mkTask 8192 [] 12288 ]}
          None (mkSafepoint false false) (mkFiber 1 None 0) (prof demo_world) 77 123456 [].

Definition demo_world_safe_restore_no_fiber : World :=
  mkWorld [8192] {[ 8192 := demo_tls ]} {[ 4096 := demo_task ]}
          (Some [9; 9; 9; 9]) (mkSafepoint false false) (mkFiber 0 None 0)
          (prof demo_world) 77 123456 [].

Definition demo_world_safe_restore : World :=
  mkWorld [8192] {[ 8192 := demo_tls ]} {[ 4096 := demo_task ]}
          (Some [9; 9; 9; 9]) (mkSafepoint false false) (mkFiber 1 None 0)
          (prof demo_world) 77 123456 [].

Definition demo_tls_deferred : jl_tls_states_t := {|
  tid := 0; system_id := 77; current_task := 4096;
  defer_signal := 1; io_wait := 0; sleep_check_state := 0;
  bt_size := 3; bt_data := [11; 12; 13; 14]; sig_exception := 0
|}.

Definition demo_world_deferred : World :=
  with_tls_heap {[ 8192 := demo_tls_deferred ]} demo_world.

Definition demo_world_forced : World :=
  with_safepoint (mkSafepoint false true) demo_world_deferred.

(** [(DWORD)-1]. *)
Definition demo_failed : Z := 4294967295.

Definition demo_world_profiling : World :=
  with_prof (mkProfiler 900 (mkTIMECAPS 1 1000000) 1 0 1000000 (replicate 16 99) 0 16)
            demo_world.

Definition demo_world_started : World :=
  with_trace [EvTimeGetDevCaps 0; EvCreateThread 900; EvSetThreadPriority 900;
              EvTimeBeginPeriod 1 0]
    (with_prof (mkProfiler 900 (mkTIMECAPS 1 1000000) 1 0 1000000 (replicate 16 99) 0 16)
               demo_world).

(** ** The rest of the file: handlers, installation, helpers *)

(** [jl_with_stackwalk_lock(f, ctx)]. *)
Definition jl_with_stackwalk_lock (f : ptr -> M unit) (ctx : ptr) : M unit :=
  jl_lock_stackwalk ;;;
  f ctx ;;;
  jl_unlock_stackwalk.

(** *** Constants of the file *)

Definition _FPE_INVALID : Z := 0x81.
Definition _FPE_DENORMAL : Z := 0x82.
Definition _FPE_ZERODIVIDE : Z := 0x83.
Definition _FPE_OVERFLOW : Z := 0x84.
Definition _FPE_UNDERFLOW : Z := 0x85.
Definition _FPE_INEXACT : Z := 0x86.
Definition _FPE_UNEMULATED : Z := 0x87.
Definition _FPE_SQRTNEG : Z := 0x88.
Definition _FPE_STACKOVERFLOW : Z := 0x8a.
Definition _FPE_STACKUNDERFLOW : Z := 0x8b.
Definition _FPE_EXPLICITGEN : Z := 0x8c.

(** *** What the handlers use of the C runtime, Win32 and Julia *)

(** The constants of [<signal.h>] and [<windows.h>] the handlers switch on,
    and the answers of the calls the handlers make.  A C [switch] needs its
    labels distinct; the embedding tests them in the order of the source. *)
Class Crt := {
  SIGINT : Z;
  SIGILL : Z;
  SIGABRT_COMPAT : Z;
  SIGFPE : Z;
  SIGSEGV : Z;
  SIGTERM : Z;
  SIGBREAK : Z;
  SIGABRT : Z;
  SIG_ERR : Z;
  CTRL_C_EVENT : Z;
  EXCEPTION_CONTINUE_SEARCH : Z;
  EXCEPTION_CONTINUE_EXECUTION : Z;
  EXCEPTION_ACCESS_VIOLATION : Z;
  EXCEPTION_ARRAY_BOUNDS_EXCEEDED : Z;
  EXCEPTION_BREAKPOINT : Z;
  EXCEPTION_DATATYPE_MISALIGNMENT : Z;
  EXCEPTION_FLT_DENORMAL_OPERAND : Z;
  EXCEPTION_FLT_DIVIDE_BY_ZERO : Z;
  EXCEPTION_FLT_INEXACT_RESULT : Z;
  EXCEPTION_FLT_INVALID_OPERATION : Z;
  EXCEPTION_FLT_OVERFLOW : Z;
  EXCEPTION_FLT_STACK_CHECK : Z;
  EXCEPTION_FLT_UNDERFLOW : Z;
  EXCEPTION_ILLEGAL_INSTRUCTION : Z;
  EXCEPTION_IN_PAGE_ERROR : Z;
  EXCEPTION_INT_DIVIDE_BY_ZERO : Z;
  EXCEPTION_INT_OVERFLOW : Z;
  EXCEPTION_INVALID_DISPOSITION : Z;
  EXCEPTION_NONCONTINUABLE_EXCEPTION : Z;
  EXCEPTION_PRIV_INSTRUCTION : Z;
  EXCEPTION_SINGLE_STEP : Z;
  EXCEPTION_STACK_OVERFLOW : Z;
  JL_GC_STATE_WAITING : Z;
  jl_diverror_exception : ptr;
  jl_readonlymemory_exception : ptr;
  (* signal(sig, crt_sig_handler): the previous handler, or SIG_ERR *)
  signal_ret : Z -> Z;
  (* jl_ignore_sigint() *)
  jl_ignore_sigint_ret : Z;
  (* jl_addr_is_safepoint(addr) *)
  jl_addr_is_safepoint : Z -> Z;
  (* what RtlCaptureContext stores in the zeroed structure *)
  RtlCaptureContext_ctx : CONTEXT -> CONTEXT
}.

(** The fields of [jl_tls_states_t] only the exception handler uses. *)
Record tls_fault_state := mkTlsFault {
  gc_state : Z;
  needs_resetstkoflw : Z
}.

(** The calls of the handlers that the events of the runtime do not cover. *)
Inductive host_call :=
| CallFpreset
| CallSignal (sig : Z) (ret : Z)
| CallSetGcAndWait (ct : ptr)
| CallSafepointDeferSigint
| CallShowSigill (c : CONTEXT)
| CallPrintf (fmt : string) (arg : Z)
| CallPrintNativeCodeloc (addr : Z)
| CallCriticalError (sig : Z) (c : CONTEXT) (ct : ptr)
| CallRaise (sig : Z)
| CallRtlCaptureContext
| CallSetUnhandledExceptionFilter
| CallSetConsoleCtrlHandler (routine : bool) (add : Z).

(** The state the handlers run on: the state of the runtime, the fields and
    globals only they touch, and their calls, each with the number of events
    of the runtime that came before it. *)
Record Host := mkHost {
  runtime : World;
  tls_fault_heap : gmap Z tls_fault_state;
  jl_current_task : ptr;          (* the current task of the thread in the handler *)
  exit_on_sigint : Z;
  recursion : Z;                  (* the static of jl_exception_handler *)
  calls : list (nat * host_call)
}.

Definition with_runtime (w : World) (h : Host) : Host :=
  mkHost w (tls_fault_heap h) (jl_current_task h) (exit_on_sigint h) (recursion h) (calls h).
Definition with_tls_fault_heap (m : gmap Z tls_fault_state) (h : Host) : Host :=
  mkHost (runtime h) m (jl_current_task h) (exit_on_sigint h) (recursion h) (calls h).
Definition with_recursion (r : Z) (h : Host) : Host :=
  mkHost (runtime h) (tls_fault_heap h) (jl_current_task h) (exit_on_sigint h) r (calls h).
Definition with_calls (c : list (nat * host_call)) (h : Host) : Host :=
  mkHost (runtime h) (tls_fault_heap h) (jl_current_task h) (exit_on_sigint h) (recursion h) c.

(** How control leaves a handler other than by returning. *)
Inductive leave :=
| ByAbort                                   (* abort() *)
| ByNoExcHandler                            (* inside jl_no_exc_handler *)
| ByExit (code : Z)                         (* exit(code) *)
| ByJlExit (code : Z)                       (* jl_exit(code) *)
| ByThrow (e : ptr)                         (* jl_throw(e) *)
| ByError (fmt : string) (args : list Z)    (* jl_error(msg), jl_errorf(fmt, ...) *)
| ByLongjmp (buf : jl_jmp_buf) (val : Z).   (* jl_longjmp(buf, val) *)

Inductive houtcome (A : Type) :=
| HRet (a : A) (h : Host)
| HLeft (l : leave) (h : Host)
| HStuck.
Arguments HRet {A} a h.
Arguments HLeft {A} l h.
Arguments HStuck {A}.

Definition H (A : Type) : Type := Host -> houtcome A.

Definition hret {A} (a : A) : H A := fun h => HRet a h.
Definition hbind {A B} (m : H A) (k : A -> H B) : H B :=
  fun h => match m h with
           | HRet a h' => k a h'
           | HLeft l h' => HLeft l h'
           | HStuck => HStuck
           end.

Declare Scope H_scope.
Notation "x <- m ;; k" := (hbind m (fun x => k))
  (at level 100, m at next level, right associativity) : H_scope.
Notation "m ;;; k" := (hbind m (fun _ => k))
  (at level 100, right associativity) : H_scope.
Delimit Scope H_scope with H.

(** A function of the runtime, run by a handler. *)
Definition lift {A} (m : M A) : H A :=
  fun h => match m (runtime h) with
           | Ret a w => HRet a (with_runtime w h)
           | Aborted w => HLeft ByAbort (with_runtime w h)
           | Exited w => HLeft ByNoExcHandler (with_runtime w h)
           | Raised msg w => HLeft (ByError msg []) (with_runtime w h)
           | Stuck => HStuck
           end.

Definition hget {A} (f : Host -> A) : H A := fun h => HRet (f h) h.
Definition hmodify (f : Host -> Host) : H unit := fun h => HRet tt (f h).
Definition leave_by {A} (l : leave) : H A := fun h => HLeft l h.
Definition call (c : host_call) : H unit :=
  hmodify (fun h => with_calls (calls h ++ [(length (trace (runtime h)), c)]) h).

Definition load_tls_fault (p : ptr) : H tls_fault_state :=
  fun h => match tls_fault_heap h !! p with
           | Some s => HRet s h
           | None => HStuck
           end.
Definition update_tls_fault (p : ptr) (f : tls_fault_state -> tls_fault_state) : H unit :=
  fun h => match tls_fault_heap h !! p with
           | Some s => HRet tt (with_tls_fault_heap (<[p := f s]> (tls_fault_heap h)) h)
           | None => HStuck
           end.

(** [EXCEPTION_RECORD] and [EXCEPTION_POINTERS]. *)
Record EXCEPTION_RECORD := mkExceptionRecord {
  ExceptionCode : Z;
  ExceptionFlags : Z;
  ExceptionAddress : Z;
  ExceptionInformation : list Z
}.

Record EXCEPTION_POINTERS := mkExceptionPointers {
  ExceptionRecord : EXCEPTION_RECORD;
  ContextRecord : CONTEXT
}.

Section Handlers.
Context {os : Win32} {rt : Runtime} {crt : Crt}.
Local Open Scope H_scope.

Definition strsignal (sig : Z) : string :=
  if sig =? SIGINT then "SIGINT"
  else if sig =? SIGILL then "SIGILL"
  else if sig =? SIGABRT_COMPAT then "SIGABRT_COMPAT"
  else if sig =? SIGFPE then "SIGFPE"
  else if sig =? SIGSEGV then "SIGSEGV"
  else if sig =? SIGTERM then "SIGTERM"
  else if sig =? SIGBREAK then "SIGBREAK"
  else if sig =? SIGABRT then "SIGABRT"
  else "?".

(** *** Calls the handlers make *)
Definition fpreset : H unit := call CallFpreset.
Definition jl_exit {A} (code : Z) : H A := leave_by (ByJlExit code).
Definition exit {A} (code : Z) : H A := leave_by (ByExit code).
Definition jl_throw {A} (e : ptr) : H A := leave_by (ByThrow e).
Definition jl_error {A} (msg : string) : H A := leave_by (ByError msg []).
Definition jl_longjmp {A} (buf : jl_jmp_buf) (val : Z) : H A := leave_by (ByLongjmp buf val).
Definition jl_get_current_task : H ptr := hget jl_current_task.
Definition jl_ignore_sigint : H Z := hret jl_ignore_sigint_ret.
Definition jl_set_gc_and_wait (ct : ptr) : H unit := call (CallSetGcAndWait ct).
Definition jl_show_sigill (c : CONTEXT) : H unit := call (CallShowSigill c).
Definition jl_print_native_codeloc (addr : Z) : H unit := call (CallPrintNativeCodeloc addr).
Definition jl_critical_error (sig : Z) (c : CONTEXT) (ct : ptr) : H unit :=
  call (CallCriticalError sig c ct).
Definition raise (sig : Z) : H unit := call (CallRaise sig).

(** [signal(sig, crt_sig_handler)] and its result. *)
Definition signal (sig : Z) : H Z :=
  call (CallSignal sig (signal_ret sig)) ;;; hret (signal_ret sig).

(** Modelled from the spec: [jl_safepoint_defer_sigint] is not in this file;
    the spec has the SafepointFlag carry an interrupt-deferred mark beside
    the pending interrupt.  The call is recorded; the interrupt stays
    pending. *)
Definition jl_safepoint_defer_sigint : H unit := call CallSafepointDeferSigint.

(** *** The handlers of the C runtime *)

Definition jl_try_throw_sigint : H unit :=
  ct <- jl_get_current_task ;;
  lift jl_safepoint_enable_sigint ;;;
  lift jl_wake_libuv ;;;
  force <- lift jl_check_force_sigint ;;
  throw <- (if force then hret true
            else t <- lift (load_task ct) ;;
                 s <- lift (load_tls (ptls t)) ;;
                 hret (negb (truthy (defer_signal s)) && truthy (io_wait s))) ;;
  if throw then
    _ <- lift jl_safepoint_consume_sigint ;;
    (if force then lift (jl_safe_printf "WARNING: Force throwing a SIGINT\n") else hret tt) ;;;
    (* Force a throw *)
    lift jl_clear_force_sigint ;;;
    jl_throw jl_interrupt_exception
  else hret tt.

Definition crt_sig_handler (sig num : Z) : H unit :=
  if sig =? SIGFPE then
    fpreset ;;;
    _ <- signal SIGFPE ;;
    if num =? _FPE_ZERODIVIDE then
      jl_throw jl_diverror_exception
    else
      (* _FPE_INVALID, _FPE_OVERFLOW, _FPE_UNDERFLOW, default *)
      leave_by (ByError "Unexpected FPE Error 0x%X" [num])
  else if sig =? SIGINT then
    _ <- signal SIGINT ;;
    ign <- jl_ignore_sigint ;;
    if negb (truthy ign) then
      eos <- hget exit_on_sigint ;;
      (if truthy eos then jl_exit 130 (* 128 + SIGINT *) else hret tt) ;;;
      jl_try_throw_sigint
    else hret tt
  else
    (* SIGSEGV, SIGTERM, SIGILL, SIGABRT *)
    saferestore <- (if sig =? SIGSEGV then lift jl_get_safe_restore else hret None) ;;
    match saferestore with
    | Some buf =>
        (* restarting jl_ or profile *)
        _ <- signal sig ;;
        jl_longjmp buf 1
    | None =>
        call CallRtlCaptureContext ;;;
        let Context := RtlCaptureContext_ctx CONTEXT_zero in
        (if sig =? SIGILL then jl_show_sigill Context else hret tt) ;;;
        ct <- jl_get_current_task ;;
        jl_critical_error sig Context ct ;;;
        raise sig
    end.

(** *** The console handler *)

Definition sigint_handler (wsig : Z) : H Z :=
  (* windows signals use different numbers from unix (raise) *)
  let sig := if wsig =? CTRL_C_EVENT then SIGINT else SIGTERM in
  ign <- jl_ignore_sigint ;;
  (if negb (truthy ign) then
     eos <- hget exit_on_sigint ;;
     (if truthy eos then jl_exit (128 + sig) (* 128 + SIGINT *) else hret tt) ;;;
     lift jl_try_deliver_sigint
   else hret tt) ;;;
  hret 1.

Definition jl_install_sigint_handler : H unit :=
  call (CallSetConsoleCtrlHandler true 1).

Definition restore_signals : H unit :=
  (* turn on ctrl-c handler *)
  call (CallSetConsoleCtrlHandler false 0).

(** *** The unhandled-exception filter *)

(** The name the second [switch] of [jl_exception_handler] prints. *)
Definition exception_name (code : Z) : string :=
  if code =? EXCEPTION_ACCESS_VIOLATION then "EXCEPTION_ACCESS_VIOLATION"
  else if code =? EXCEPTION_ARRAY_BOUNDS_EXCEEDED then "EXCEPTION_ARRAY_BOUNDS_EXCEEDED"
  else if code =? EXCEPTION_BREAKPOINT then "EXCEPTION_BREAKPOINT"
  else if code =? EXCEPTION_DATATYPE_MISALIGNMENT then "EXCEPTION_DATATYPE_MISALIGNMENT"
  else if code =? EXCEPTION_FLT_DENORMAL_OPERAND then "EXCEPTION_FLT_DENORMAL_OPERAND"
  else if code =? EXCEPTION_FLT_DIVIDE_BY_ZERO then "EXCEPTION_FLT_DIVIDE_BY_ZERO"
  else if code =? EXCEPTION_FLT_INEXACT_RESULT then "EXCEPTION_FLT_INEXACT_RESULT"
  else if code =? EXCEPTION_FLT_INVALID_OPERATION then "EXCEPTION_FLT_INVALID_OPERATION"
  else if code =? EXCEPTION_FLT_OVERFLOW then "EXCEPTION_FLT_OVERFLOW"
  else if code =? EXCEPTION_FLT_STACK_CHECK then "EXCEPTION_FLT_STACK_CHECK"
  else if code =? EXCEPTION_FLT_UNDERFLOW then "EXCEPTION_FLT_UNDERFLOW"
  else if code =? EXCEPTION_ILLEGAL_INSTRUCTION then "EXCEPTION_ILLEGAL_INSTRUCTION"
  else if code =? EXCEPTION_IN_PAGE_ERROR then "EXCEPTION_IN_PAGE_ERROR"
  else if code =? EXCEPTION_INT_DIVIDE_BY_ZERO then "EXCEPTION_INT_DIVIDE_BY_ZERO"
  else if code =? EXCEPTION_INT_OVERFLOW then "EXCEPTION_INT_OVERFLOW"
  else if code =? EXCEPTION_INVALID_DISPOSITION then "EXCEPTION_INVALID_DISPOSITION"
  else if code =? EXCEPTION_NONCONTINUABLE_EXCEPTION then "EXCEPTION_NONCONTINUABLE_EXCEPTION"
  else if code =? EXCEPTION_PRIV_INSTRUCTION then "EXCEPTION_PRIV_INSTRUCTION"
  else if code =? EXCEPTION_SINGLE_STEP then "EXCEPTION_SINGLE_STEP"
  else if code =? EXCEPTION_STACK_OVERFLOW then "EXCEPTION_STACK_OVERFLOW"
  else "UNKNOWN".

(** The end of [jl_exception_handler]: the report of a fault no case
    handled, and the exit. *)
Definition jl_exception_handler_report (ExceptionInfo : EXCEPTION_POINTERS) (ct : ptr)
  : H (Z * CONTEXT) :=
  let er := ExceptionRecord ExceptionInfo in
  (if ExceptionCode er =? EXCEPTION_ILLEGAL_INSTRUCTION then
     lift (jl_safe_printf "\n") ;;;
     jl_show_sigill (ContextRecord ExceptionInfo)
   else hret tt) ;;;
  lift (jl_safe_printf "\nPlease submit a bug report with steps to reproduce this fault, and any error messages that follow (in their entirety). Thanks.\nException: ") ;;;
  lift (jl_safe_printf (exception_name (ExceptionCode er))) ;;;
  call (CallPrintf " at 0x%zx -- " (ExceptionAddress er)) ;;;
  jl_print_native_codeloc (ExceptionAddress er) ;;;
  jl_critical_error 0 (ContextRecord ExceptionInfo) ct ;;;
  r <- hget recursion ;;
  hmodify (with_recursion (r + 1)) ;;;
  if truthy r then exit 1 else jl_exit 1.

(** [jl_exception_handler]: the LONG it returns and the context record as it
    leaves it. *)
Definition jl_exception_handler (ExceptionInfo : EXCEPTION_POINTERS) : H (Z * CONTEXT) :=
  let er := ExceptionRecord ExceptionInfo in
  let ctx := ContextRecord ExceptionInfo in
  if negb (ExceptionFlags er =? 0) then
    hret (EXCEPTION_CONTINUE_SEARCH, ctx)
  else
    ct <- jl_get_current_task ;;
    if ct =? NULL then jl_exception_handler_report ExceptionInfo ct
    else
      t <- lift (load_task ct) ;;
      if ptls t =? NULL then jl_exception_handler_report ExceptionInfo ct
      else
        f <- load_tls_fault (ptls t) ;;
        if gc_state f =? JL_GC_STATE_WAITING then jl_exception_handler_report ExceptionInfo ct
        else
          let ptls := ptls t in
          if ExceptionCode er =? EXCEPTION_INT_DIVIDE_BY_ZERO then
            match eh t with
            | _ :: _ =>
                fpreset ;;;
                c <- lift (jl_throw_in_ctx ct jl_diverror_exception ctx) ;;
                hret (EXCEPTION_CONTINUE_EXECUTION, c)
            | [] => jl_exception_handler_report ExceptionInfo ct
            end
          else if ExceptionCode er =? EXCEPTION_STACK_OVERFLOW then
            match eh t with
            | _ :: _ =>
                update_tls_fault ptls (fun f => mkTlsFault (gc_state f) 1) ;;;
                c <- lift (jl_throw_in_ctx ct jl_stackovf_exception ctx) ;;
                hret (EXCEPTION_CONTINUE_EXECUTION, c)
            | [] => jl_exception_handler_report ExceptionInfo ct
            end
          else if ExceptionCode er =? EXCEPTION_ACCESS_VIOLATION then
            match ExceptionInformation er !! 1%nat with
            | None => fun _ => HStuck
            | Some addr =>
                if truthy (jl_addr_is_safepoint addr) then
                  jl_set_gc_and_wait ct ;;;
                  s <- lift (load_tls ptls) ;;
                  (* Do not raise sigint on worker thread *)
                  if negb (tid s =? 0) then hret (EXCEPTION_CONTINUE_EXECUTION, ctx)
                  else if truthy (defer_signal s) then
                    jl_safepoint_defer_sigint ;;;
                    hret (EXCEPTION_CONTINUE_EXECUTION, ctx)
                  else
                    pending <- lift jl_safepoint_consume_sigint ;;
                    if pending then
                      lift jl_clear_force_sigint ;;;
                      c <- lift (jl_throw_in_ctx ct jl_interrupt_exception ctx) ;;
                      hret (EXCEPTION_CONTINUE_EXECUTION, c)
                    else hret (EXCEPTION_CONTINUE_EXECUTION, ctx)
                else
                  saferestore <- lift jl_get_safe_restore ;;
                  match saferestore with
                  | Some _ =>
                      c <- lift (jl_throw_in_ctx NULL NULL ctx) ;;
                      hret (EXCEPTION_CONTINUE_EXECUTION, c)
                  | None =>
                      match eh t, ExceptionInformation er !! 0%nat with
                      | _ :: _, Some 1 =>
                          (* writing to read-only memory (e.g. mmap) *)
                          c <- lift (jl_throw_in_ctx ct jl_readonlymemory_exception ctx) ;;
                          hret (EXCEPTION_CONTINUE_EXECUTION, c)
                      | _ :: _, None => fun _ => HStuck
                      | _, _ => jl_exception_handler_report ExceptionInfo ct
                      end
                  end
            end
          else jl_exception_handler_report ExceptionInfo ct.

(** *** Installation *)

(** One [if (signal(sig, crt_sig_handler) == SIG_ERR) jl_error(msg)]. *)
Definition install_signal (sig : Z) (msg : string) : H unit :=
  r <- signal sig ;;
  if r =? SIG_ERR then jl_error msg else hret tt.

Definition jl_install_default_signal_handlers : H unit :=
  install_signal SIGFPE "fatal error: Couldn't set SIGFPE" ;;;
  install_signal SIGILL "fatal error: Couldn't set SIGILL" ;;;
  install_signal SIGINT "fatal error: Couldn't set SIGINT" ;;;
  install_signal SIGSEGV "fatal error: Couldn't set SIGSEGV" ;;;
  install_signal SIGTERM "fatal error: Couldn't set SIGTERM" ;;;
  install_signal SIGABRT "fatal error: Couldn't set SIGABRT" ;;;
  call CallSetUnhandledExceptionFilter.

End Handlers.

(** *** The vocabulary of the further properties *)

(** The number of [timeBeginPeriod] calls in a trace. *)
Fixpoint count_timeBeginPeriod (t : list event) : nat :=
  match t with
  | [] => 0
  | EvTimeBeginPeriod _ _ :: t' => S (count_timeBeginPeriod t')
  | _ :: t' => count_timeBeginPeriod t'
  end.

(** The outcome of a fault [jl_exception_handler] does not handle: the name
    of the exception is printed, the critical error is reported for the
    current task, and the process is left through [jl_exit(1)], or through
    [exit(1)] when a report was already under way; no exception is stored
    and the SafepointFlag is as before. *)
Definition reported_as_fatal `{Crt} (ExceptionInfo : EXCEPTION_POINTERS) (h : Host)
    (o : houtcome (Z * CONTEXT)) : Prop :=
  exists h' evs cs n,
    o = HLeft (if truthy (recursion h) then ByExit 1 else ByJlExit 1) h' /\
    recursion h' = recursion h + 1 /\
    trace (runtime h') =
      trace (runtime h) ++ evs ++
      [EvPrint (exception_name (ExceptionCode (ExceptionRecord ExceptionInfo)))] /\
    calls h' =
      calls h ++ cs ++
      [(n, CallCriticalError 0 (ContextRecord ExceptionInfo) (jl_current_task h))] /\
    tls_heap (runtime h') = tls_heap (runtime h) /\
    safepoint (runtime h') = safepoint (runtime h) /\
    tls_fault_heap h' = tls_fault_heap h.

(** The signals [jl_install_default_signal_handlers] installs, in its
    order, each with the message of its failure. *)
Definition default_signals `{Crt} : list (Z * string) :=
  [(SIGFPE, "fatal error: Couldn't set SIGFPE");
   (SIGILL, "fatal error: Couldn't set SIGILL");
   (SIGINT, "fatal error: Couldn't set SIGINT");
   (SIGSEGV, "fatal error: Couldn't set SIGSEGV");
   (SIGTERM, "fatal error: Couldn't set SIGTERM");
   (SIGABRT, "fatal error: Couldn't set SIGABRT")].

(** A run of installations followed by [k]. *)
Fixpoint install_signals `{Crt} (sigs : list (Z * string)) (k : H unit) : H unit :=
  match sigs with
  | [] => k
  | (sig, msg) :: sigs' => hbind (install_signal sig msg) (fun _ => install_signals sigs' k)
  end.

(** The [signal] calls of a run of installations, made after [n] events of
    the runtime. *)
Definition signal_calls `{Crt} (n : nat) (sigs : list (Z * string)) : list (nat * host_call) :=
  map (fun p => (n, CallSignal (fst p) (signal_ret (fst p)))) sigs.

(** The signals [strsignal] names. *)
Definition named_signals `{Crt} : list Z :=
  [SIGINT; SIGILL; SIGABRT_COMPAT; SIGFPE; SIGSEGV; SIGTERM; SIGBREAK; SIGABRT].

(** The sleep of one turn of [profile_bt]. *)
Definition profile_sleep_ms `{Runtime} (w : World) : Z :=
  let timeout_ms := DWORD_wrap (nsecprof (prof w) / (GIGA / 1000)) in
  if timeout_ms >? 0 then timeout_ms else 1.

(** *** A concrete C runtime for the closed examples *)

Definition demo_crt (ignore : Z) : Crt := {|
  SIGINT := 2; SIGILL := 4; SIGABRT_COMPAT := 6; SIGFPE := 8; SIGSEGV := 11;
  SIGTERM := 15; SIGBREAK := 21; SIGABRT := 22;
  SIG_ERR := -1;
  CTRL_C_EVENT := 0;
  EXCEPTION_CONTINUE_SEARCH := 0;
  EXCEPTION_CONTINUE_EXECUTION := -1;
  EXCEPTION_ACCESS_VIOLATION := 0xC0000005;
  EXCEPTION_ARRAY_BOUNDS_EXCEEDED := 0xC000008C;
  EXCEPTION_BREAKPOINT := 0x80000003;
  EXCEPTION_DATATYPE_MISALIGNMENT := 0x80000002;
  EXCEPTION_FLT_DENORMAL_OPERAND := 0xC000008D;
  EXCEPTION_FLT_DIVIDE_BY_ZERO := 0xC000008E;
  EXCEPTION_FLT_INEXACT_RESULT := 0xC000008F;
  EXCEPTION_FLT_INVALID_OPERATION := 0xC0000090;
  EXCEPTION_FLT_OVERFLOW := 0xC0000091;
  EXCEPTION_FLT_STACK_CHECK := 0xC0000092;
  EXCEPTION_FLT_UNDERFLOW := 0xC0000093;
  EXCEPTION_ILLEGAL_INSTRUCTION := 0xC000001D;
  EXCEPTION_IN_PAGE_ERROR := 0xC0000006;
  EXCEPTION_INT_DIVIDE_BY_ZERO := 0xC0000094;
  EXCEPTION_INT_OVERFLOW := 0xC0000095;
  EXCEPTION_INVALID_DISPOSITION := 0xC0000026;
  EXCEPTION_NONCONTINUABLE_EXCEPTION := 0xC0000025;
  EXCEPTION_PRIV_INSTRUCTION := 0xC0000096;
  EXCEPTION_SINGLE_STEP := 0x80000004;
  EXCEPTION_STACK_OVERFLOW := 0xC00000FD;
  JL_GC_STATE_WAITING := 1;
  jl_diverror_exception := 20496;
  jl_readonlymemory_exception := 20504;
  signal_ret := fun sig => if sig =? 11 then -1 else 0;
  jl_ignore_sigint_ret := ignore;
  jl_addr_is_safepoint := fun addr => if addr =? 65536 then 1 else 0;
  RtlCaptureContext_ctx := fun c => mkCONTEXT 1048587 [5; 4198400; 4198912; 9]
|}.

Definition demo_host (w : World) : Host := {|
  runtime := w;
  tls_fault_heap := {[ 8192 := mkTlsFault 0 0 ]};
  jl_current_task := 4096;
  exit_on_sigint := 0;
  recursion := 0;
  calls := []
|}.

Definition demo_crt_handling : Crt := demo_crt 0.

(** A fault at the code address 4198400 in the context [demo_ctx]. *)
Definition demo_fault `{Crt} (code : Z) (info : list Z) : EXCEPTION_POINTERS :=
  mkExceptionPointers (mkExceptionRecord code 0 4198400 info) demo_ctx.

(** The operating system refuses to suspend; it refuses to read and to
    resume. *)
Definition demo_os_no_suspend : Win32 := demo_os demo_failed 0 1 1 0.
Definition demo_os_no_read_no_resume : Win32 := demo_os 0 demo_failed 0 1 0.

(** No stack can be allocated. *)
Definition demo_rt_no_stack : Runtime := {|
  JL_MAX_BT_SIZE := 80000;
  GIGA := 1000000000;
  PROFILE_STATE_THREAD_NOT_SLEEPING := 1;
  PROFILE_STATE_THREAD_SLEEPING := 2;
  jl_stackovf_exception := 20480;
  jl_interrupt_exception := 20488;
  rec_backtrace_ctx := fun maxsize c _ => take (Z.to_nat maxsize) (take 2 (drop 1 (Regs c)));
  jl_simulate_longjmp := fun buf c => (1, mkCONTEXT (ContextFlags c) buf);
  jl_no_exc_handler_returns := false;
  jl_profile_is_buffer_full := fun p =>
    if profile_bt_size_max p <? profile_bt_size_cur p + 8 then 1 else 0;
  jl_malloc_stack := fun ssize => (0, ssize)
|}.

(** The sample buffer has room for four more words. *)
Definition demo_world_buffer_full : World :=
  with_prof (mkProfiler 900 (mkTIMECAPS 1 1000000) 1 0 1000000 (replicate 16 99) 12 16)
            demo_world.

(** An interrupt is pending. *)
Definition demo_world_pending : World :=
  with_safepoint (mkSafepoint true false) demo_world.

(** The thread of the current task waits for the GC. *)
Definition demo_host_gc_waiting : Host :=
  with_tls_fault_heap {[ 8192 := mkTlsFault 1 0 ]} (demo_host demo_world).

Definition demo_host_exit_on_sigint : Host :=
  mkHost demo_world {[ 8192 := mkTlsFault 0 0 ]} 4096 1 0 [].

(** ** Properties *)

Section Properties.
Context {os : Win32} {rt : Runtime}.

Lemma truthy_true (z : Z) : z <> 0 -> truthy z = true.
Proof. intros Hz. unfold truthy. destruct (Z.eqb_spec z 0); [contradiction | reflexivity]. Qed.

Lemma bind_Ret {A B} (m : M A) (k : A -> M B) (w w' : World) (a : A) :
  m w = Ret a w' -> bind m k w = k a w'.
Proof. intros Hm. unfold bind. rewrite Hm. reflexivity. Qed.

(** C9, amended: with a fault-site restore point registered and a context
    on which the jump to it can be simulated, [jl_throw_in_ctx] only
    rewrites the context it was given and returns it; the state (backtrace
    length, pending exception, I/O-wait flag, handler chain, and all the
    rest) is exactly the state on entry, for every task and exception
    pointer, [NULL] included. *)
Theorem jl_throw_in_ctx_safe_restore_frame
    (ct excpt : ptr) (ctxThread : CONTEXT) (w : World) (buf : jl_jmp_buf) :
  safe_restore w = Some buf ->
  fst (jl_simulate_longjmp buf ctxThread) <> 0 ->
  jl_throw_in_ctx ct excpt ctxThread w = Ret (snd (jl_simulate_longjmp buf ctxThread)) w.
Proof.
  intros Hsafe Hok. apply Z.eqb_neq in Hok.
  unfold jl_throw_in_ctx, jl_get_safe_restore, bind, get.
  rewrite Hsafe.
  destruct (jl_simulate_longjmp buf ctxThread) as [ok c]; simpl in *.
  rewrite Hok. reflexivity.
Qed.

Lemma jl_throw_in_ctx_task (ct excpt : ptr) (ctxThread : CONTEXT) (w : World)
    (t : jl_task_t) (s : jl_tls_states_t) :
  safe_restore w = None ->
  ct <> NULL -> excpt <> NULL ->
  task_heap w !! ct = Some t ->
  tls_heap w !! ptls t = Some s ->
  let stkovf := excpt =? jl_stackovf_exception in
  let use_fiber := stkovf && truthy (have_backtrace_fiber (fiber w)) in
  let bt := rec_backtrace_ctx JL_MAX_BT_SIZE ctxThread (if stkovf then NULL else gcstack t) in
  exists w',
    jl_throw_in_ctx ct excpt ctxThread w = handler_transfer t ctxThread w' /\
    tls_heap w' = <[ptls t := injected_tls excpt (negb stkovf || use_fiber) bt s]> (tls_heap w) /\
    trace w' = trace w ++ (if use_fiber then fiber_events else []) ++
                          (match eh t with [] => [EvNoExcHandler excpt ct] | _ => [] end) /\
    task_heap w' = task_heap w /\
    jl_all_tls_states w' = jl_all_tls_states w /\
    safepoint w' = safepoint w /\
    prof w' = prof w /\
    have_backtrace_fiber (fiber w') = have_backtrace_fiber (fiber w).
Proof.
  intros Hsafe Hct Hex Ht Hs stkovf use_fiber bt.
  unfold handler_transfer, jl_throw_in_ctx, jl_get_safe_restore, bind at 1, get at 1.
  rewrite Hsafe.
  rewrite (truthy_true ct Hct), (truthy_true excpt Hex). simpl.
  unfold jl_swapcontext_to_backtrace_fiber, start_backtrace_fiber, jl_no_exc_handler,
    uv_mutex_lock, uv_mutex_unlock, set_stkerror_ctx, set_stkerror_ptls,
    rec_backtrace_to_tls, emit, modify, abort, process_exit.
  unfold bind, load_task, update_tls, ret, get, assert; simpl.
  rewrite Ht, Hs; simpl.
  fold stkovf.
  destruct stkovf eqn:Hso; simpl;
    [destruct (truthy (have_backtrace_fiber (fiber w))) eqn:Hbf; simpl|];
    repeat (rewrite lookup_insert_eq; simpl);
    rewrite Ht;
    (destruct (eh t) as [|h rest];
     [destruct jl_no_exc_handler_returns
     |destruct (jl_simulate_longjmp (eh_ctx h) ctxThread) as [ok c]; simpl;
      destruct (ok =? 0)]);
    simpl; eexists; (split; [reflexivity|]); simpl;
    rewrite ?insert_insert_eq, <- ?app_assoc, ?app_nil_r; simpl;
    repeat split; reflexivity.
Qed.

(** C1, amended: for a task with a non-empty handler chain, a context on
    which the simulated jump succeeds and no restore point registered,
    [jl_throw_in_ctx] returns the context rewritten to the topmost frame's
    resume point, stores the exception as pending, clears the I/O-wait flag
    and fills the backtrace buffer from the supplied context; for the
    stack-overflow exception the buffer is filled by the fiber, provided the
    fiber has been initialised. *)
Theorem jl_throw_in_ctx_injects
    (ct excpt : ptr) (ctxThread : CONTEXT) (w : World)
    (t : jl_task_t) (s : jl_tls_states_t) (h : jl_handler_t) (rest : list jl_handler_t) :
  safe_restore w = None ->
  ct <> NULL -> excpt <> NULL ->
  task_heap w !! ct = Some t ->
  tls_heap w !! ptls t = Some s ->
  eh t = h :: rest ->
  fst (jl_simulate_longjmp (eh_ctx h) ctxThread) <> 0 ->
  (excpt = jl_stackovf_exception -> have_backtrace_fiber (fiber w) <> 0) ->
  injected_into_handler excpt ctxThread w t s h (jl_throw_in_ctx ct excpt ctxThread w).
Proof.
  intros Hsafe Hct Hex Ht Hs Heh Hok Hfiber.
  destruct (jl_throw_in_ctx_task ct excpt ctxThread w t s Hsafe Hct Hex Ht Hs)
    as (w' & Hrun & Hheap & Htrace & _).
  unfold handler_transfer in Hrun. rewrite Heh in Hrun, Htrace.
  apply Z.eqb_neq in Hok. rewrite Hok in Hrun.
  exists w', (injected_tls excpt
                (negb (excpt =? jl_stackovf_exception) ||
                 (excpt =? jl_stackovf_exception) && truthy (have_backtrace_fiber (fiber w)))
                (rec_backtrace_ctx JL_MAX_BT_SIZE ctxThread
                   (if excpt =? jl_stackovf_exception then NULL else gcstack t)) s).
  split; [exact Hrun|].
  split; [rewrite Hheap; apply lookup_insert_eq|].
  rewrite Htrace, app_nil_r. simpl.
  destruct (Z.eqb_spec excpt jl_stackovf_exception) as [Heq|Hne]; simpl.
  - rewrite (truthy_true _ (Hfiber Heq)). repeat split; reflexivity.
  - rewrite app_nil_r. repeat split; reflexivity.
Qed.

(** C2: for a task whose handler chain is empty, with no restore point
    registered, [jl_throw_in_ctx] hands the exception to
    [jl_no_exc_handler] as its last action.  No jump into the task's code is
    simulated: if the collaborator comes back, the context returned is the
    context that was given. *)
Theorem jl_throw_in_ctx_no_handler
    (ct excpt : ptr) (ctxThread : CONTEXT) (w : World)
    (t : jl_task_t) (s : jl_tls_states_t) :
  safe_restore w = None ->
  ct <> NULL -> excpt <> NULL ->
  task_heap w !! ct = Some t ->
  tls_heap w !! ptls t = Some s ->
  eh t = [] ->
  exists w' evs,
    jl_throw_in_ctx ct excpt ctxThread w =
      (if jl_no_exc_handler_returns then Ret ctxThread w' else Exited w') /\
    trace w' = trace w ++ evs ++ [EvNoExcHandler excpt ct].
Proof.
  intros Hsafe Hct Hex Ht Hs Heh.
  destruct (jl_throw_in_ctx_task ct excpt ctxThread w t s Hsafe Hct Hex Ht Hs)
    as (w' & Hrun & _ & Htrace & _).
  unfold handler_transfer in Hrun. rewrite Heh in Hrun, Htrace.
  eexists w', _. split; [exact Hrun | exact Htrace].
Qed.

(** C10, amended: the stack-overflow exception injected, with no restore
    point registered, while the backtrace fiber has not been initialised,
    into a context on which the jump to the topmost handler frame, if the
    task has one, can be simulated.  The exception is stored as pending, the
    I/O-wait flag is cleared, and control goes to the topmost handler frame
    or to [jl_no_exc_handler]; no backtrace is collected: the fiber is not
    entered, the buffer keeps its content and its length is zero. *)
Theorem jl_throw_in_ctx_stkovf_without_fiber
    (ct : ptr) (ctxThread : CONTEXT) (w : World) (t : jl_task_t) (s : jl_tls_states_t) :
  safe_restore w = None ->
  ct <> NULL -> jl_stackovf_exception <> NULL ->
  task_heap w !! ct = Some t ->
  tls_heap w !! ptls t = Some s ->
  have_backtrace_fiber (fiber w) = 0 ->
  (forall h rest, eh t = h :: rest -> fst (jl_simulate_longjmp (eh_ctx h) ctxThread) <> 0) ->
  injected_without_backtrace ct ctxThread w t s
    (jl_throw_in_ctx ct jl_stackovf_exception ctxThread w).
Proof.
  intros Hsafe Hct Hso Ht Hs Hbf Hjump.
  destruct (jl_throw_in_ctx_task ct jl_stackovf_exception ctxThread w t s Hsafe Hct Hso Ht Hs)
    as (w' & Hrun & Hheap & Htrace & _).
  rewrite Z.eqb_refl, Hbf in Hheap, Htrace. simpl in Hheap, Htrace.
  assert (Hentered : handler_transfer t ctxThread w' = handler_entered t ctxThread w').
  { unfold handler_transfer, handler_entered.
    destruct (eh t) as [|h rest] eqn:Heh; [reflexivity|].
    rewrite (proj2 (Z.eqb_neq _ _) (Hjump h rest eq_refl)). reflexivity. }
  rewrite Hentered in Hrun.
  eexists w', _. split; [exact Hrun|].
  split; [rewrite Hheap; apply lookup_insert_eq|].
  repeat split; try reflexivity. exact Htrace.
Qed.

(** [jl_install_thread_signal_handler] is what initialises the fiber:
    [have_backtrace_fiber] is 1 once it has run with a stack allocated. *)
Lemma jl_install_thread_signal_handler_initialises (ptls : ptr) (w : World) :
  have_backtrace_fiber (fiber w) = 0 ->
  fst (jl_malloc_stack sig_stack_size) <> NULL ->
  exists w',
    jl_install_thread_signal_handler ptls w = Ret tt w' /\
    have_backtrace_fiber (fiber w') = 1.
Proof.
  intros Hbf Hstk. apply Z.eqb_neq in Hstk.
  unfold jl_install_thread_signal_handler, bind at 1, get at 1.
  rewrite Hbf. cbn [truthy Z.eqb negb].
  destruct (jl_malloc_stack sig_stack_size) as [stk ssize]. simpl in Hstk.
  unfold emit, modify, bind, ret. rewrite Hstk.
  eexists. split; reflexivity.
Qed.

(** *** Console interrupt delivery *)

(** The path without delivery: the thread is suspended and resumed, nothing
    is read from or written to its context, and the pending interrupt armed
    at the start stays. *)
Lemma jl_try_deliver_sigint_not_delivered (w : World) (ptls2 : ptr) (s2 : jl_tls_states_t) :
  jl_all_tls_states w !! 0%nat = Some ptls2 ->
  tls_heap w !! ptls2 = Some s2 ->
  SuspendThread_ret (hMainThread w) <> DWORD_minus1 ->
  force_sigint (safepoint w) = false ->
  negb (truthy (defer_signal s2)) && truthy (io_wait s2) = false ->
  jl_try_deliver_sigint w =
    Ret tt (with_trace
              (trace w ++ deliver_prefix_events (hMainThread w) ++
               [EvResumeThread (hMainThread w) (ResumeThread_ret (hMainThread w))] ++
               (if ResumeThread_ret (hMainThread w) =? DWORD_minus1
                then [EvPrint "error: ResumeThread failed\n"] else []))
              (with_safepoint (mkSafepoint true false) w)).
Proof.
  intros Harr Hs2 Hsusp Hforce Hnot.
  apply Z.eqb_neq in Hsusp.
  unfold jl_try_deliver_sigint, tls_states_at, jl_lock_profile, jl_unlock_profile,
    jl_safepoint_enable_sigint, jl_wake_libuv, SuspendThread, jl_check_force_sigint,
    load_tls, deliver_sigint_resume, ResumeThread, jl_safe_printf, emit, modify.
  unfold bind, ret, get; simpl.
  change (Z.to_nat 0) with 0%nat. rewrite Harr; simpl. rewrite Hsusp; simpl. rewrite Hforce; simpl. rewrite Hs2; simpl.
  rewrite Hnot; simpl.
  destruct (ResumeThread_ret (hMainThread w) =? DWORD_minus1); simpl;
    rewrite <- ?app_assoc; simpl; rewrite <- Hforce; destruct w as [? ? ? ? [? ?] ? ? ? ? ?];
    simpl in *; subst; reflexivity.
Qed.

(** The read-failure path: after a successful suspend, a failed
    [GetThreadContext] is logged and the function returns. *)
Lemma jl_try_deliver_sigint_read_failure (w : World) (ptls2 : ptr) (s2 : jl_tls_states_t) :
  jl_all_tls_states w !! 0%nat = Some ptls2 ->
  tls_heap w !! ptls2 = Some s2 ->
  SuspendThread_ret (hMainThread w) <> DWORD_minus1 ->
  force_sigint (safepoint w) = false ->
  negb (truthy (defer_signal s2)) && truthy (io_wait s2) = true ->
  GetThreadContext_ret (hMainThread w) = 0 ->
  jl_try_deliver_sigint w =
    Ret tt (with_trace
              (trace w ++ deliver_prefix_events (hMainThread w) ++
               [EvSafepointConsumeSigint; EvClearForceSigint;
                EvGetThreadContext (hMainThread w) 0;
                EvPrint "error: GetThreadContext failed\n"])
              (with_safepoint (mkSafepoint false false) w)).
Proof.
  intros Harr Hs2 Hsusp Hforce Hdeliver Hget.
  apply Z.eqb_neq in Hsusp.
  unfold jl_try_deliver_sigint, tls_states_at, jl_lock_profile, jl_unlock_profile,
    jl_safepoint_enable_sigint, jl_safepoint_consume_sigint, jl_clear_force_sigint,
    jl_wake_libuv, SuspendThread, GetThreadContext, jl_check_force_sigint,
    load_tls, jl_safe_printf, emit, modify.
  unfold bind, ret, get; simpl.
  change (Z.to_nat 0) with 0%nat. rewrite Harr; simpl.
  rewrite Hsusp; simpl. rewrite Hforce; simpl. rewrite Hs2; simpl.
  rewrite Hdeliver; simpl. rewrite Hget; simpl.
  rewrite <- ?app_assoc; reflexivity.
Qed.

(** The sibling path of the stack walk: [jl_thread_suspend_and_get_state]
    resumes the thread it suspended when [GetThreadContext] fails. *)
Lemma jl_thread_suspend_and_get_state_read_failure
    (tid timeout : Z) (ctx : CONTEXT) (w : World) (ptls2 : ptr) (s2 : jl_tls_states_t) :
  0 <= tid ->
  jl_all_tls_states w !! Z.to_nat tid = Some ptls2 ->
  ptls2 <> NULL ->
  tls_heap w !! ptls2 = Some s2 ->
  current_task s2 <> NULL ->
  SuspendThread_ret (system_id s2) <> DWORD_minus1 ->
  GetThreadContext_ret (system_id s2) = 0 ->
  ResumeThread_ret (system_id s2) <> DWORD_minus1 ->
  jl_thread_suspend_and_get_state tid timeout ctx w =
    Ret (0, set_ContextFlags (Z.lor CONTEXT_CONTROL CONTEXT_INTEGER) CONTEXT_zero)
        (with_trace (trace w ++
                     [EvSuspendThread (system_id s2) (SuspendThread_ret (system_id s2));
                      EvGetThreadContext (system_id s2) 0;
                      EvResumeThread (system_id s2) (ResumeThread_ret (system_id s2))]) w).
Proof.
  intros Htid Harr Hp Hs2 Hct Hsusp Hget Hres.
  apply Z.eqb_neq in Hp, Hct, Hsusp, Hres. apply Z.ltb_ge in Htid.
  unfold jl_thread_suspend_and_get_state, tls_states_at, load_tls, SuspendThread,
    GetThreadContext, ResumeThread, emit, modify.
  unfold bind, ret, get; simpl.
  rewrite Htid, Harr; simpl. rewrite Hp, Hs2; simpl. rewrite Hct, Hsusp; simpl.
  rewrite Hget; simpl. rewrite Hres; simpl.
  rewrite <- ?app_assoc; reflexivity.
Qed.

(** C6, amended: when the force-interrupt override is not set and the main
    thread defers signals and is not in I/O-wait, [jl_try_deliver_sigint]
    resumes the thread it suspended without reading, rewriting or writing
    its context, and the pending interrupt is not consumed. *)
Theorem jl_try_deliver_sigint_deferred (w : World) (ptls2 : ptr) (s2 : jl_tls_states_t) :
  jl_all_tls_states w !! 0%nat = Some ptls2 ->
  tls_heap w !! ptls2 = Some s2 ->
  SuspendThread_ret (hMainThread w) <> DWORD_minus1 ->
  force_sigint (safepoint w) = false ->
  defer_signal s2 <> 0 ->
  io_wait s2 = 0 ->
  interrupt_left_pending w (jl_try_deliver_sigint w).
Proof.
  intros Harr Hs2 Hsusp Hforce Hdefer Hio.
  rewrite (jl_try_deliver_sigint_not_delivered w ptls2 s2 Harr Hs2 Hsusp Hforce).
  - eexists _, (ResumeThread_ret (hMainThread w)).
    split; [reflexivity|]. simpl. repeat split; reflexivity.
  - rewrite (truthy_true _ Hdefer). reflexivity.
Qed.

Local Opaque jl_throw_in_ctx SetThreadContext deliver_sigint_resume.

(** The state in which [jl_try_deliver_sigint] calls the injector, and
    what it does afterwards. *)
Lemma jl_try_deliver_sigint_delivering (w : World) (ptls2 : ptr) (s2 : jl_tls_states_t) :
  jl_all_tls_states w !! 0%nat = Some ptls2 ->
  tls_heap w !! ptls2 = Some s2 ->
  SuspendThread_ret (hMainThread w) <> DWORD_minus1 ->
  force_sigint (safepoint w) || (negb (truthy (defer_signal s2)) && truthy (io_wait s2)) = true ->
  GetThreadContext_ret (hMainThread w) <> 0 ->
  jl_try_deliver_sigint w =
    (ctxThread <- jl_throw_in_ctx (current_task s2) jl_interrupt_exception
                    (main_thread_context w) ;;
     ok <- SetThreadContext (hMainThread w)
             (set_ContextFlags (Z.lor CONTEXT_CONTROL CONTEXT_INTEGER) ctxThread) ;;
     if ok =? 0 then jl_safe_printf "error: SetThreadContext failed\n"
     else deliver_sigint_resume (hMainThread w))
      (delivering_state w).
Proof.
  intros Harr Hs2 Hsusp Hdeliver Hget.
  apply Z.eqb_neq in Hsusp, Hget.
  unfold jl_try_deliver_sigint, tls_states_at, jl_lock_profile, jl_unlock_profile,
    jl_safepoint_enable_sigint, jl_safepoint_consume_sigint, jl_clear_force_sigint,
    jl_wake_libuv, SuspendThread, GetThreadContext, jl_check_force_sigint,
    load_tls, jl_safe_printf, emit, modify, main_thread_context, delivering_state,
    delivery_events.
  unfold bind, ret, get; simpl.
  change (Z.to_nat 0) with 0%nat. rewrite Harr; simpl.
  rewrite Hsusp; simpl.
  destruct (force_sigint (safepoint w)) eqn:Hforce; simpl.
  - rewrite Hget; simpl. rewrite Hget; simpl. rewrite Hs2; simpl.
    unfold deliver_prefix_events. rewrite <- !app_assoc. reflexivity.
  - rewrite Hs2; simpl. simpl in Hdeliver. rewrite Hdeliver; simpl.
    rewrite Hget; simpl. rewrite Hget; simpl. rewrite Hs2; simpl.
    unfold deliver_prefix_events. rewrite <- !app_assoc. reflexivity.
Qed.

Local Transparent jl_throw_in_ctx SetThreadContext deliver_sigint_resume.


(** *** The profiler's timer *)

Lemma jl_profile_stop_timer_Ret (w : World) :
  jl_profile_stop_timer w =
    Ret tt (with_trace
              (trace w ++ [EvLock bt_data_prof_lock] ++
               (if truthy (profile_running (prof w)) && truthy (wPeriodMin (timecaps (prof w)))
                then [EvTimeEndPeriod (wPeriodMin (timecaps (prof w)))] else []) ++
               [EvUnlock bt_data_prof_lock])
              (with_prof (set_profile_all_tasks 0 (set_profile_running 0 (prof w))) w)).
Proof.
  unfold jl_profile_stop_timer, uv_mutex_lock, uv_mutex_unlock, emit, modify.
  unfold bind, ret, get; simpl.
  destruct (truthy (profile_running (prof w)) && truthy (wPeriodMin (timecaps (prof w))));
    simpl; rewrite <- ?app_assoc; reflexivity.
Qed.

Lemma profile_start_timer_finish_Ret (all_tasks : Z) (w : World) :
  profile_running (prof w) = 0 ->
  let period := wPeriodMin (timecaps (prof w)) in
  let ok := TIMERR_NOERROR =? timeBeginPeriod_ret period in
  profile_start_timer_finish all_tasks w =
    Ret 0 (with_trace
             (trace w ++ [EvTimeBeginPeriod period (timeBeginPeriod_ret period)])
             (with_prof
                (set_profile_running 1
                   (set_profile_all_tasks all_tasks
                      (if ok then prof w
                       else set_timecaps (mkTIMECAPS 0 (wPeriodMax (timecaps (prof w))))
                                         (prof w)))) w)).
Proof.
  intros Hrun period ok.
  unfold profile_start_timer_finish, emit, modify.
  unfold bind, ret, get; simpl.
  rewrite Hrun; simpl. fold period. fold ok.
  destruct ok; reflexivity.
Qed.

(** [jl_profile_start_timer] from the stopped state: it returns, with the
    code of the first failing step, and with 0 after a [timeBeginPeriod]
    whose failure is remembered as a zero period. *)
Lemma jl_profile_start_timer_stopped (all_tasks : Z) (w : World) :
  profile_running (prof w) = 0 ->
  exists r w1,
    jl_profile_start_timer all_tasks w = Ret r w1 /\
    r = (if hBtThread (prof w) =? NULL then
           if negb (MMSYSERR_NOERROR =? timeGetDevCaps_ret) then -2
           else if CreateThread_ret =? NULL then -1 else 0
         else if ResumeThread_ret (hBtThread (prof w)) =? DWORD_minus1 then -2 else 0) /\
    (r = 0 ->
     (exists evs,
        trace w1 = trace w ++ evs ++
                   [EvTimeBeginPeriod (start_period w) (timeBeginPeriod_ret (start_period w))]) /\
     profile_running (prof w1) = 1 /\
     wPeriodMin (timecaps (prof w1)) =
       if TIMERR_NOERROR =? timeBeginPeriod_ret (start_period w) then start_period w else 0).
Proof.
  intros Hrun.
  unfold start_period, jl_profile_start_timer, ResumeThread, fputs_stderr, emit, modify.
  unfold bind at 1, get at 1.
  destruct (hBtThread (prof w) =? NULL).
  - unfold bind at 1. cbn beta iota.
    destruct (MMSYSERR_NOERROR =? timeGetDevCaps_ret); cbn [negb].
    + unfold bind at 1 2 3. cbn beta iota.
      destruct (CreateThread_ret =? NULL).
      * eexists _, _; split; [reflexivity|]. split; [reflexivity|].
        intros H; discriminate H.
      * unfold bind at 1. cbn beta iota.
        rewrite profile_start_timer_finish_Ret by exact Hrun.
        eexists _, _; split; [reflexivity|]. split; [reflexivity|]. intros _. cbn.
        split.
        { exists [EvTimeGetDevCaps timeGetDevCaps_ret; EvCreateThread CreateThread_ret;
                  EvSetThreadPriority CreateThread_ret].
          rewrite <- !app_assoc. reflexivity. }
        destruct (TIMERR_NOERROR =? timeBeginPeriod_ret (wPeriodMin timeGetDevCaps_caps));
          split; reflexivity.
    + unfold bind, ret. cbn beta iota.
      eexists _, _; split; [reflexivity|]. split; [reflexivity|].
      intros H; discriminate H.
  - unfold bind at 1 2, ret at 1. cbn beta iota.
    destruct (ResumeThread_ret (hBtThread (prof w)) =? DWORD_minus1).
    + unfold bind, ret. cbn beta iota.
      eexists _, _; split; [reflexivity|]. split; [reflexivity|].
      intros H; discriminate H.
    + rewrite profile_start_timer_finish_Ret by exact Hrun.
      eexists _, _; split; [reflexivity|]. split; [reflexivity|]. intros _. cbn.
      split.
      { exists [EvResumeThread (hBtThread (prof w)) (ResumeThread_ret (hBtThread (prof w)))].
        rewrite <- !app_assoc. reflexivity. }
      destruct (TIMERR_NOERROR =? timeBeginPeriod_ret (wPeriodMin (timecaps (prof w))));
        split; reflexivity.
Qed.

(** C8, amended: after a start from the stopped state, two stops in a row
    both return; the first calls [timeEndPeriod] exactly once when the
    start's [timeBeginPeriod] succeeded on a non-zero period and not at all
    when it failed, the second never calls it and changes nothing. *)
Theorem jl_profile_stop_timer_twice (all_tasks : Z) (w w1 : World) :
  profile_running (prof w) = 0 ->
  jl_profile_start_timer all_tasks w = Ret 0 w1 ->
  let period := start_period w in
  let raised := (TIMERR_NOERROR =? timeBeginPeriod_ret period) && truthy period in
  exists w2 w3 evs,
    trace w1 = trace w ++ evs ++ [EvTimeBeginPeriod period (timeBeginPeriod_ret period)] /\
    jl_profile_stop_timer w1 = Ret tt w2 /\
    jl_profile_stop_timer w2 = Ret tt w3 /\
    trace w2 = trace w1 ++ [EvLock bt_data_prof_lock] ++
               (if raised then [EvTimeEndPeriod period] else []) ++
               [EvUnlock bt_data_prof_lock] /\
    trace w3 = trace w2 ++ [EvLock bt_data_prof_lock; EvUnlock bt_data_prof_lock] /\
    prof w3 = prof w2 /\
    profile_running (prof w2) = 0 /\
    profile_all_tasks (prof w2) = 0.
Proof.
  intros Hrun Hstart period raised.
  destruct (jl_profile_start_timer_stopped all_tasks w Hrun) as (r & w1' & Hrun' & _ & Hok).
  rewrite Hstart in Hrun'. injection Hrun' as <- <-.
  destruct (Hok eq_refl) as ((evs & Htr) & Hrun1 & Hper).
  eexists _, _, evs.
  split; [exact Htr|].
  split; [apply jl_profile_stop_timer_Ret|].
  split; [apply jl_profile_stop_timer_Ret|].
  simpl. rewrite Hrun1, Hper. subst raised. fold period.
  destruct (TIMERR_NOERROR =? timeBeginPeriod_ret period); simpl;
    [destruct (truthy period)|]; repeat split; reflexivity.
Qed.

(** *** One sample of the profiler *)

Lemma size_wrap_small (z : Z) : 0 <= z < 2 ^ 64 -> size_wrap z = z.
Proof. intros Hz. unfold size_wrap. apply Z.mod_small. exact Hz. Qed.

Lemma insert_at_length (pre : list Z) (x v : Z) (post : list Z) :
  <[length pre := v]> (pre ++ x :: post) = pre ++ v :: post.
Proof. induction pre as [|y pre IH]; simpl; [reflexivity | f_equal; exact IH]. Qed.

(** A store at the cursor, when the cursor stands at the end of [pre]. *)
Lemma profile_bt_push_app (v : Z) (w : World) (pre : list Z) (x : Z) (post : list Z) :
  profile_bt_data_prof (prof w) = pre ++ x :: post ->
  profile_bt_size_cur (prof w) = Z.of_nat (length pre) ->
  Z.of_nat (length pre) + 1 < 2 ^ 64 ->
  profile_bt_push v w =
    Ret tt (with_prof (set_profile_bt ((pre ++ [v]) ++ post)
                                      (Z.of_nat (length (pre ++ [v]))) (prof w)) w).
Proof.
  intros Hbuf Hcur Hsmall.
  unfold profile_bt_push. rewrite Hbuf, Hcur.
  rewrite length_app. simpl length.
  replace (0 <=? Z.of_nat (length pre)) with true by (symmetry; apply Z.leb_le; lia).
  replace (Z.of_nat (length pre) <? Z.of_nat (length pre + S (length post))) with true
    by (symmetry; apply Z.ltb_lt; lia).
  simpl. rewrite Nat2Z.id, insert_at_length.
  rewrite size_wrap_small by lia.
  rewrite length_app. simpl length.
  rewrite <- app_assoc. simpl.
  do 3 f_equal. lia.
Qed.

Lemma profile_bt_record_Ret (c : CONTEXT) (w : World) :
  let p := prof w in
  let cur := profile_bt_size_cur p in
  let bt := rec_backtrace_ctx (size_wrap (profile_bt_size_max p - cur - 1)) c NULL in
  0 <= cur ->
  cur + Z.of_nat (length bt) <= Z.of_nat (length (profile_bt_data_prof p)) ->
  Z.of_nat (length (profile_bt_data_prof p)) < 2 ^ 64 ->
  profile_bt_record c w =
    Ret tt (with_prof
              (set_profile_bt (take (Z.to_nat cur) (profile_bt_data_prof p) ++ bt ++
                               drop (Z.to_nat (cur + Z.of_nat (length bt)))
                                    (profile_bt_data_prof p))
                              (cur + Z.of_nat (length bt)) p) w).
Proof.
  intros p cur bt Hcur Hroom Hsmall.
  unfold profile_bt_record. fold p. fold cur. fold bt.
  replace (0 <=? cur) with true by (symmetry; apply Z.leb_le; lia).
  replace (cur + Z.of_nat (length bt) <=? Z.of_nat (length (profile_bt_data_prof p)))
    with true by (symmetry; apply Z.leb_le; lia).
  simpl. rewrite size_wrap_small by lia. reflexivity.
Qed.

Lemma jl_thread_suspend_and_get_state_Ret
    (tid timeout : Z) (ctx : CONTEXT) (w : World) (ptls2 : ptr) (s2 : jl_tls_states_t) :
  0 <= tid ->
  jl_all_tls_states w !! Z.to_nat tid = Some ptls2 ->
  ptls2 <> NULL ->
  tls_heap w !! ptls2 = Some s2 ->
  current_task s2 <> NULL ->
  SuspendThread_ret (system_id s2) <> DWORD_minus1 ->
  GetThreadContext_ret (system_id s2) <> 0 ->
  jl_thread_suspend_and_get_state tid timeout ctx w =
    Ret (1, mkCONTEXT (Z.lor CONTEXT_CONTROL CONTEXT_INTEGER)
                      (GetThreadContext_regs (system_id s2)))
        (with_trace (trace w ++
                     [EvSuspendThread (system_id s2) (SuspendThread_ret (system_id s2));
                      EvGetThreadContext (system_id s2) (GetThreadContext_ret (system_id s2))])
                    w).
Proof.
  intros Htid Harr Hp Hs2 Hct Hsusp Hget.
  apply Z.eqb_neq in Hp, Hct, Hsusp, Hget. apply Z.ltb_ge in Htid.
  unfold jl_thread_suspend_and_get_state, tls_states_at, load_tls, SuspendThread,
    GetThreadContext, emit, modify.
  unfold bind, ret, get; simpl.
  rewrite Htid, Harr; simpl. rewrite Hp, Hs2; simpl. rewrite Hct, Hsusp; simpl.
  rewrite Hget; simpl. rewrite Hget; simpl.
  rewrite <- ?app_assoc; reflexivity.
Qed.

Lemma jl_thread_resume_Ret (tid : Z) (w : World) (p : ptr) (s : jl_tls_states_t) :
  0 <= tid ->
  jl_all_tls_states w !! Z.to_nat tid = Some p ->
  tls_heap w !! p = Some s ->
  ResumeThread_ret (system_id s) <> DWORD_minus1 ->
  jl_thread_resume tid w =
    Ret tt (with_trace (trace w ++
                        [EvResumeThread (system_id s) (ResumeThread_ret (system_id s))]) w).
Proof.
  intros Htid Harr Hs Hres.
  apply Z.eqb_neq in Hres. apply Z.ltb_ge in Htid.
  unfold jl_thread_resume, tls_states_at, load_tls, ResumeThread, emit, modify.
  unfold bind, ret, get; simpl.
  rewrite Htid, Harr; simpl. rewrite Hs; simpl. rewrite Hres; simpl. reflexivity.
Qed.

(** C7, amended: a turn of the profiler in single-thread mode, with room in
    the buffer and the main thread suspended, read and resumed, appends the
    program counters of the main thread, the four metadata fields and two
    zeros; the thread-id field is the main worker's id plus one. *)
Theorem profile_bt_iteration_sample
    (ctxThread : CONTEXT) (w : World) (ptls : ptr) (s : jl_tls_states_t) :
  profile_running (prof w) <> 0 ->
  jl_profile_is_buffer_full (prof w) = 0 ->
  profile_all_tasks (prof w) = 0 ->
  jl_all_tls_states w !! 0%nat = Some ptls ->
  ptls <> NULL ->
  tls_heap w !! ptls = Some s ->
  current_task s <> NULL ->
  SuspendThread_ret (system_id s) <> DWORD_minus1 ->
  GetThreadContext_ret (system_id s) <> 0 ->
  ResumeThread_ret (system_id s) <> DWORD_minus1 ->
  0 <= profile_bt_size_cur (prof w) ->
  profile_bt_size_cur (prof w) + Z.of_nat (length (sampled_backtrace w s)) + 6
    <= Z.of_nat (length (profile_bt_data_prof (prof w))) ->
  Z.of_nat (length (profile_bt_data_prof (prof w))) < 2 ^ 64 ->
  sample_appended (size_wrap (tid s + 1)) w s (profile_bt_iteration ctxThread w).
Proof.
  intros Hrun Hfull Hall Harr Hp Hs Hct Hsusp Hget Hres Hcur Hroom Hsmall.
  unfold profile_bt_iteration.
  unfold bind at 1, get at 1. unfold bind at 1, Sleep, emit, modify at 1.
  unfold bind at 1, get at 1. cbn [prof with_trace].
  rewrite (truthy_true _ Hrun), Hfull, Hall. cbn [truthy Z.eqb negb].
  set (w0 := with_trace _ w).
  unfold jl_lock_stackwalk, jl_unlock_stackwalk, jl_lock_profile, jl_unlock_profile,
    uv_mutex_lock, uv_mutex_unlock, jl_check_profile_autostop, cycleclock.
  unfold bind at 1 2, emit at 1 2, modify at 1 2.
  set (w1 := with_trace _ (with_trace _ w0)).
  erewrite bind_Ret;
    [|apply (jl_thread_suspend_and_get_state_Ret 0 0 ctxThread w1 ptls s);
      [lia | exact Harr | exact Hp | exact Hs | exact Hct | exact Hsusp | exact Hget]].
  cbn [fst snd Z.eqb].
  set (w2 := with_trace _ w1).
  fold (sampled_context s).
  pose (buf := profile_bt_data_prof (prof w)).
  pose (cur := profile_bt_size_cur (prof w)).
  pose (bt := sampled_backtrace w s).
  assert (Hrec : profile_bt_record (sampled_context s) w2 =
                 Ret tt (with_prof
                           (set_profile_bt (take (Z.to_nat cur) buf ++ bt ++
                                            drop (Z.to_nat (cur + Z.of_nat (length bt))) buf)
                                           (cur + Z.of_nat (length bt)) (prof w)) w2)).
  { apply (profile_bt_record_Ret (sampled_context s) w2); cbn [prof w2 w1 w0 with_trace].
    - exact Hcur.
    - fold (sampled_backtrace w s). lia.
    - exact Hsmall. }
  erewrite bind_Ret; [|exact Hrec]. clear Hrec.
  (* the buffer after the program counters: a prefix, then at least six slots *)
  pose (pre := take (Z.to_nat cur) buf ++ bt).
  assert (Hpre : Z.of_nat (length pre) = cur + Z.of_nat (length bt)).
  { unfold pre. rewrite length_app, length_take_le; unfold buf, bt, cur in *; lia. }
  assert (Hdrop : exists x1 x2 x3 x4 x5 x6,
             drop (Z.to_nat (cur + Z.of_nat (length bt))) buf =
             x1 :: x2 :: x3 :: x4 :: x5 :: x6 ::
             drop (Z.to_nat cur + (length bt + 6)) buf).
  { replace (Z.to_nat cur + (length bt + 6))%nat
      with (Z.to_nat (cur + Z.of_nat (length bt)) + 6)%nat
      by (unfold cur; lia).
    rewrite <- drop_drop.
    assert (Hlen : (6 <= length (drop (Z.to_nat (cur + Z.of_nat (length bt))) buf))%nat)
      by (rewrite length_drop; unfold buf, bt, cur in *; lia).
    destruct (drop (Z.to_nat (cur + Z.of_nat (length bt))) buf)
      as [|x1 [|x2 [|x3 [|x4 [|x5 [|x6 l]]]]]]; simpl in Hlen; try lia.
    exists x1, x2, x3, x4, x5, x6. reflexivity. }
  destruct Hdrop as (x1 & x2 & x3 & x4 & x5 & x6 & Hdrop).
  rewrite Hdrop.
  pose (W := fun l1 l2 : list Z =>
               with_prof (set_profile_bt (l1 ++ l2) (Z.of_nat (length l1)) (prof w)) w2).
  rewrite (app_assoc (take (Z.to_nat cur) buf) bt). fold pre.
  rewrite <- Hpre.
  match goal with
  | |- sample_appended _ _ _ (_ (with_prof (set_profile_bt (pre ++ ?l) _ _) _)) =>
      change (with_prof (set_profile_bt (pre ++ l) (Z.of_nat (length pre)) (prof w)) w2)
        with (W pre l)
  end.
  assert (Hat : forall l1 l2, tls_states_at 0 (W l1 l2) = Ret ptls (W l1 l2)).
  { intros l1 l2. unfold tls_states_at.
    change (jl_all_tls_states (W l1 l2)) with (jl_all_tls_states w).
    change (Z.to_nat 0) with 0%nat. rewrite Harr. reflexivity. }
  assert (Hld : forall l1 l2, load_tls ptls (W l1 l2) = Ret s (W l1 l2)).
  { intros l1 l2. unfold load_tls.
    change (tls_heap (W l1 l2)) with (tls_heap w). rewrite Hs. reflexivity. }
  assert (Hpush : forall v l1 x l2,
             Z.of_nat (length l1) + 1 < 2 ^ 64 ->
             profile_bt_push v (W l1 (x :: l2)) = Ret tt (W (l1 ++ [v]) l2)).
  { intros v l1 x l2 Hl1.
    rewrite (profile_bt_push_app v (W l1 (x :: l2)) l1 x l2);
      [reflexivity | reflexivity | reflexivity | exact Hl1]. }
  assert (Hbound : Z.of_nat (length pre) + 6 < 2 ^ 64)
    by (rewrite Hpre; unfold buf, bt, cur in *; lia).
  rewrite (bind_Ret _ _ _ _ _ (Hat _ _)).
  rewrite (bind_Ret _ _ _ _ _ (Hld _ _)).
  erewrite bind_Ret; [|apply Hpush; lia].
  rewrite (bind_Ret _ _ _ _ _ (Hld _ _)).
  erewrite bind_Ret; [|apply Hpush; rewrite !length_app; simpl; lia].
  unfold bind at 1, get at 1.
  erewrite bind_Ret; [|apply Hpush; rewrite !length_app; simpl; lia].
  rewrite (bind_Ret _ _ _ _ _ (Hld _ _)).
  erewrite bind_Ret; [|apply Hpush; rewrite !length_app; simpl; lia].
  erewrite bind_Ret; [|apply Hpush; rewrite !length_app; simpl; lia].
  erewrite bind_Ret; [|apply Hpush; rewrite !length_app; simpl; lia].
  unfold bind at 1 2, emit at 1 2, modify at 1 2.
  erewrite bind_Ret;
    [|apply (jl_thread_resume_Ret 0 _ ptls s); [lia | exact Harr | exact Hs | exact Hres]].
  unfold bind, emit, modify, ret.
  eexists. split; [reflexivity|].
  cbn [prof with_trace with_prof W set_profile_bt profile_bt_data_prof profile_bt_size_cur
       cycles w2 w1 w0].
  fold buf. fold cur. fold bt.
  split.
  - unfold pre. rewrite <- !app_assoc. rewrite length_app. reflexivity.
  - rewrite !length_app. simpl length. lia.
Qed.

End Properties.

(** ** The properties on the concrete platform *)

(** *** The injector on the concrete platform *)

Lemma jl_throw_in_ctx_injects_witness :
  @injected_into_handler demo_rt (@jl_interrupt_exception demo_rt) demo_ctx demo_world
    demo_task demo_tls (mkHandler [1; 2; 3; 4])
    (@jl_throw_in_ctx demo_rt 4096 (@jl_interrupt_exception demo_rt) demo_ctx demo_world).
Proof.
  apply (@jl_throw_in_ctx_injects demo_rt 4096 (@jl_interrupt_exception demo_rt) demo_ctx
           demo_world demo_task demo_tls (mkHandler [1; 2; 3; 4]) [mkHandler [5; 6; 7; 8]]).
  - reflexivity.
  - unfold NULL; lia.
  - unfold NULL; simpl; lia.
  - reflexivity.
  - reflexivity.
  - reflexivity.
  - simpl; lia.
  - simpl; lia.
Defined.

(** The claim of C1 without the proviso on the fiber fails: the
    stack-overflow exception injected before the fiber exists leaves the
    backtrace buffer empty, where the fiber would have stored two entries. *)
Lemma jl_throw_in_ctx_stkovf_not_filled :
  ~ @injected_into_handler demo_rt (@jl_stackovf_exception demo_rt) demo_ctx
      demo_world_no_fiber demo_task demo_tls (mkHandler [1; 2; 3; 4])
      (@jl_throw_in_ctx demo_rt 4096 (@jl_stackovf_exception demo_rt) demo_ctx
         demo_world_no_fiber).
Proof.
  intros (w' & s' & Hrun & Hlook & _ & _ & Hsize & _).
  vm_compute in Hrun. injection Hrun as <-.
  vm_compute in Hlook. injection Hlook as <-.
  vm_compute in Hsize. discriminate Hsize.
Qed.

Lemma jl_throw_in_ctx_safe_restore_frame_witness :
  @jl_throw_in_ctx demo_rt NULL NULL demo_ctx demo_world_safe_restore =
    Ret (mkCONTEXT 1048579 [9; 9; 9; 9]) demo_world_safe_restore.
Proof.
  apply (@jl_throw_in_ctx_safe_restore_frame demo_rt NULL NULL demo_ctx
           demo_world_safe_restore [9; 9; 9; 9]).
  - reflexivity.
  - simpl; lia.
Defined.

(** The claim of C9 without the proviso on the context fails: with a
    restore point registered and a context on which the jump cannot be
    simulated, [jl_throw_in_ctx] does not return; the process is aborted. *)
Lemma jl_throw_in_ctx_safe_restore_jump_fails :
  @jl_throw_in_ctx demo_rt_no_jump 4096 (@jl_interrupt_exception demo_rt_no_jump) demo_ctx
    demo_world_safe_restore = Aborted demo_world_safe_restore /\
  ~ (exists c w',
       @jl_throw_in_ctx demo_rt_no_jump 4096 (@jl_interrupt_exception demo_rt_no_jump)
         demo_ctx demo_world_safe_restore = Ret c w').
Proof.
  split.
  - vm_compute; reflexivity.
  - intros (c & w' & Hrun). vm_compute in Hrun. discriminate Hrun.
Qed.

Lemma jl_throw_in_ctx_no_handler_witness :
  exists w' evs,
    @jl_throw_in_ctx demo_rt 4096 (@jl_interrupt_exception demo_rt) demo_ctx
      demo_world_no_handler = Exited w' /\
    trace w' = trace demo_world_no_handler ++ evs ++
               [EvNoExcHandler (@jl_interrupt_exception demo_rt) 4096].
Proof.
  apply (@jl_throw_in_ctx_no_handler demo_rt 4096 (@jl_interrupt_exception demo_rt) demo_ctx
           demo_world_no_handler (mkTask 8192 [] 12288) demo_tls).
  - reflexivity.
  - unfold NULL; lia.
  - unfold NULL; simpl; lia.
  - reflexivity.
  - reflexivity.
  - reflexivity.
Defined.

Lemma jl_throw_in_ctx_stkovf_without_fiber_witness :
  @injected_without_backtrace demo_rt 4096 demo_ctx demo_world_no_fiber demo_task demo_tls
    (@jl_throw_in_ctx demo_rt 4096 (@jl_stackovf_exception demo_rt) demo_ctx
       demo_world_no_fiber).
Proof.
  apply (@jl_throw_in_ctx_stkovf_without_fiber demo_rt 4096 demo_ctx demo_world_no_fiber
           demo_task demo_tls).
  - reflexivity.
  - unfold NULL; lia.
  - unfold NULL; simpl; lia.
  - reflexivity.
  - reflexivity.
  - reflexivity.
  - intros h rest _; simpl; lia.
Defined.

(** The claim of C10 without the proviso on the restore point fails: with a
    restore point registered control goes to the restore point, the
    stack-overflow exception is not stored as pending and the task's state
    is left as it was. *)
Lemma jl_throw_in_ctx_stkovf_restore_point_not_stored :
  ~ @injected_without_backtrace demo_rt 4096 demo_ctx demo_world_safe_restore_no_fiber
      demo_task demo_tls
      (@jl_throw_in_ctx demo_rt 4096 (@jl_stackovf_exception demo_rt) demo_ctx
         demo_world_safe_restore_no_fiber) /\
  @jl_throw_in_ctx demo_rt 4096 (@jl_stackovf_exception demo_rt) demo_ctx
    demo_world_safe_restore_no_fiber =
    Ret (mkCONTEXT 1048579 [9; 9; 9; 9]) demo_world_safe_restore_no_fiber /\
  tls_heap demo_world_safe_restore_no_fiber !! 8192 = Some demo_tls /\
  sig_exception demo_tls = 0.
Proof.
  split.
  - intros (w' & s' & Hrun & _).
    vm_compute in Hrun. discriminate Hrun.
  - repeat split; vm_compute; reflexivity.
Qed.

(** *** Interrupt delivery on the concrete platform *)

(** C3: the main thread waits in I/O, [SuspendThread] succeeds and
    [GetThreadContext] fails.  The function logs the failure and returns:
    the trace holds one successful suspend of the main thread and no
    resume. *)
Lemma jl_try_deliver_sigint_read_failure_leaves_suspended :
  exists w',
    @jl_try_deliver_sigint (demo_os 0 0 0 1 0) demo_rt demo_world = Ret tt w' /\
    trace w' =
      [EvLock profile_lock; EvSafepointEnableSigint; EvWakeLibuv; EvSuspendThread 77 0;
       EvUnlock profile_lock; EvSafepointConsumeSigint; EvClearForceSigint;
       EvGetThreadContext 77 0; EvPrint "error: GetThreadContext failed\n"] /\
    suspends_of 77 (trace w') = 1%nat /\
    resumes_of 77 (trace w') = 0%nat.
Proof.
  eexists. split; [vm_compute; reflexivity|].
  repeat split; vm_compute; reflexivity.
Qed.

(** The stack-walk path on the same answers of the operating system
    resumes the thread it suspended. *)
Lemma jl_thread_suspend_and_get_state_read_failure_resumes :
  exists w',
    @jl_thread_suspend_and_get_state (demo_os 0 0 0 1 0) 0 0 demo_ctx demo_world =
      Ret (0, mkCONTEXT 1048579 [0; 0; 0; 0]) w' /\
    suspends_of 77 (trace w') = 1%nat /\
    resumes_of 77 (trace w') = 1%nat.
Proof.
  eexists. split; [vm_compute; reflexivity|].
  split; vm_compute; reflexivity.
Qed.

(** C4: the exception is injected and [SetThreadContext] fails.  The
    failure is logged and the function returns without calling
    [ResumeThread]. *)
Lemma jl_try_deliver_sigint_write_failure_leaves_suspended :
  exists w',
    @jl_try_deliver_sigint (demo_os 0 0 1 0 0) demo_rt demo_world = Ret tt w' /\
    trace w' =
      [EvLock profile_lock; EvSafepointEnableSigint; EvWakeLibuv; EvSuspendThread 77 0;
       EvUnlock profile_lock; EvSafepointConsumeSigint; EvClearForceSigint;
       EvGetThreadContext 77 1;
       EvSetThreadContext 77 (mkCONTEXT 1048579 [1; 2; 3; 4]) 0;
       EvPrint "error: SetThreadContext failed\n"] /\
    suspends_of 77 (trace w') = 1%nat /\
    resumes_of 77 (trace w') = 0%nat.
Proof.
  eexists. split; [vm_compute; reflexivity|].
  repeat split; vm_compute; reflexivity.
Qed.



Lemma jl_try_deliver_sigint_deferred_witness :
  @interrupt_left_pending demo_win32 demo_world_deferred
    (@jl_try_deliver_sigint demo_win32 demo_rt demo_world_deferred).
Proof.
  apply (@jl_try_deliver_sigint_deferred demo_win32 demo_rt demo_world_deferred 8192
           demo_tls_deferred).
  - reflexivity.
  - reflexivity.
  - vm_compute; lia.
  - reflexivity.
  - simpl; lia.
  - reflexivity.
Defined.

(** The claim of C6 without the proviso on the force-interrupt override
    fails: the thread defers signals and is not in I/O-wait, the override is
    set, and the interrupt is consumed and delivered. *)
Lemma jl_try_deliver_sigint_forced_delivers :
  ~ @interrupt_left_pending demo_win32 demo_world_forced
      (@jl_try_deliver_sigint demo_win32 demo_rt demo_world_forced).
Proof.
  intros (w' & r & Hrun & Hpending & _).
  vm_compute in Hrun. injection Hrun as <-.
  vm_compute in Hpending. discriminate Hpending.
Qed.

(** *** The profiler on the concrete platform *)

Lemma profile_bt_iteration_sample_witness :
  @sample_appended demo_win32 demo_rt 1 demo_world_profiling demo_tls
    (@profile_bt_iteration demo_win32 demo_rt demo_ctx demo_world_profiling).
Proof.
  apply (@profile_bt_iteration_sample demo_win32 demo_rt demo_ctx demo_world_profiling 8192 demo_tls).
  - simpl; lia.
  - reflexivity.
  - reflexivity.
  - reflexivity.
  - unfold NULL; lia.
  - reflexivity.
  - unfold NULL; simpl; lia.
  - vm_compute; lia.
  - simpl; lia.
  - vm_compute; lia.
  - simpl; lia.
  - unfold sampled_backtrace; simpl; lia.
  - simpl; lia.
Defined.

(** The claim of C7 as stated fails: the main worker's id is 0 and the
    thread-id field of the block is 1. *)
Lemma profile_bt_iteration_threadid_not_tid :
  ~ @sample_appended demo_win32 demo_rt (tid demo_tls) demo_world_profiling demo_tls
      (@profile_bt_iteration demo_win32 demo_rt demo_ctx demo_world_profiling).
Proof.
  intros (w' & Hrun & Hbuf & _).
  vm_compute in Hrun. injection Hrun as <-.
  vm_compute in Hbuf. discriminate Hbuf.
Qed.

Lemma jl_profile_stop_timer_twice_witness :
  exists w2 w3 evs,
    trace demo_world_started = trace demo_world ++ evs ++ [EvTimeBeginPeriod 1 0] /\
    @jl_profile_stop_timer demo_world_started = Ret tt w2 /\
    @jl_profile_stop_timer w2 = Ret tt w3 /\
    trace w2 = trace demo_world_started ++ [EvLock bt_data_prof_lock] ++
               [EvTimeEndPeriod 1] ++ [EvUnlock bt_data_prof_lock] /\
    trace w3 = trace w2 ++ [EvLock bt_data_prof_lock; EvUnlock bt_data_prof_lock] /\
    prof w3 = prof w2 /\
    profile_running (prof w2) = 0 /\
    profile_all_tasks (prof w2) = 0.
Proof.
  apply (@jl_profile_stop_timer_twice demo_win32 0 demo_world demo_world_started).
  - reflexivity.
  - reflexivity.
Defined.

(** The claim of C8 as stated fails: when the start's [timeBeginPeriod]
    fails, the two stops that follow call [timeEndPeriod] not once but
    never. *)
Lemma stop_twice_after_failed_begin_never_restores :
  ~ (exists w3,
       (@jl_profile_start_timer (demo_os 0 0 1 1 97) 0 ;;;
        jl_profile_stop_timer ;;; jl_profile_stop_timer) demo_world = Ret tt w3 /\
       count_timeEndPeriod (trace w3) = 1%nat).
Proof.
  intros (w3 & Hrun & Hcount).
  vm_compute in Hrun. injection Hrun as <-.
  vm_compute in Hcount. discriminate Hcount.
Qed.

(** ** Further properties of the runtime functions *)

Section MoreProperties.
Context {os : Win32} {rt : Runtime}.

(** *** Suspending and resuming a worker *)

(** [jl_thread_suspend_and_get_state] on a worker that is not alive
    (its slot holds [NULL]) or already dead (no current task) returns 0
    without calling the operating system; the state and the caller's
    context are untouched. *)
Lemma jl_thread_suspend_and_get_state_no_thread
    (tid timeout : Z) (ctx : CONTEXT) (w : World) (ptls2 : ptr) :
  0 <= tid ->
  jl_all_tls_states w !! Z.to_nat tid = Some ptls2 ->
  ptls2 = NULL \/ (exists s2, tls_heap w !! ptls2 = Some s2 /\ current_task s2 = NULL) ->
  jl_thread_suspend_and_get_state tid timeout ctx w = Ret (0, ctx) w.
Proof.
  intros Htid Harr Hdead. apply Z.ltb_ge in Htid.
  unfold jl_thread_suspend_and_get_state, tls_states_at, load_tls.
  unfold bind, ret; simpl.
  rewrite Htid, Harr; simpl.
  destruct (Z.eqb_spec ptls2 NULL) as [Heq|Hne]; [reflexivity|].
  destruct Hdead as [Hnull|(s2 & Hs2 & Hct)]; [contradiction|].
  rewrite Hs2; simpl. rewrite Hct. reflexivity.
Qed.

(** When [SuspendThread] fails, [jl_thread_suspend_and_get_state]
    returns 0 at once: the context is not read, the caller's context is
    untouched and no [ResumeThread] is issued for the thread that was never
    suspended. *)
Lemma jl_thread_suspend_and_get_state_suspend_failure
    (tid timeout : Z) (ctx : CONTEXT) (w : World) (ptls2 : ptr) (s2 : jl_tls_states_t) :
  0 <= tid ->
  jl_all_tls_states w !! Z.to_nat tid = Some ptls2 ->
  ptls2 <> NULL ->
  tls_heap w !! ptls2 = Some s2 ->
  current_task s2 <> NULL ->
  SuspendThread_ret (system_id s2) = DWORD_minus1 ->
  jl_thread_suspend_and_get_state tid timeout ctx w =
    Ret (0, ctx)
        (with_trace (trace w ++ [EvSuspendThread (system_id s2) DWORD_minus1]) w).
Proof.
  intros Htid Harr Hp Hs2 Hct Hsusp.
  apply Z.eqb_neq in Hp, Hct. apply Z.ltb_ge in Htid.
  unfold jl_thread_suspend_and_get_state, tls_states_at, load_tls, SuspendThread,
    emit, modify.
  unfold bind, ret, get; simpl.
  rewrite Htid, Harr; simpl. rewrite Hp, Hs2; simpl. rewrite Hct, Hsusp; simpl.
  reflexivity.
Qed.

(** X1: when [GetThreadContext] fails after the suspend and the
    [ResumeThread] that follows fails too, the process is aborted: the
    function does not return with the thread left suspended. *)
Theorem jl_thread_suspend_and_get_state_resume_failure_aborts
    (tid timeout : Z) (ctx : CONTEXT) (w : World) (ptls2 : ptr) (s2 : jl_tls_states_t) :
  0 <= tid ->
  jl_all_tls_states w !! Z.to_nat tid = Some ptls2 ->
  ptls2 <> NULL ->
  tls_heap w !! ptls2 = Some s2 ->
  current_task s2 <> NULL ->
  SuspendThread_ret (system_id s2) <> DWORD_minus1 ->
  GetThreadContext_ret (system_id s2) = 0 ->
  ResumeThread_ret (system_id s2) = DWORD_minus1 ->
  jl_thread_suspend_and_get_state tid timeout ctx w =
    Aborted (with_trace (trace w ++
                         [EvSuspendThread (system_id s2) (SuspendThread_ret (system_id s2));
                          EvGetThreadContext (system_id s2) 0;
                          EvResumeThread (system_id s2) DWORD_minus1]) w).
Proof.
  intros Htid Harr Hp Hs2 Hct Hsusp Hget Hres.
  apply Z.eqb_neq in Hp, Hct, Hsusp. apply Z.ltb_ge in Htid.
  unfold jl_thread_suspend_and_get_state, tls_states_at, load_tls, SuspendThread,
    GetThreadContext, ResumeThread, emit, modify, abort.
  unfold bind, ret, get; simpl.
  rewrite Htid, Harr; simpl. rewrite Hp, Hs2; simpl. rewrite Hct, Hsusp; simpl.
  rewrite Hget; simpl. rewrite Hres; simpl.
  rewrite <- ?app_assoc; reflexivity.
Qed.


(** *** The profiler's timer *)

Lemma profile_start_timer_finish_total (all_tasks : Z) (w : World) :
  exists w1 evs,
    profile_start_timer_finish all_tasks w = Ret 0 w1 /\
    trace w1 = trace w ++ evs /\
    count_timeBeginPeriod evs = (if profile_running (prof w) =? 0 then 1%nat else 0%nat) /\
    profile_running (prof w1) = 1 /\
    profile_all_tasks (prof w1) = all_tasks.
Proof.
  unfold profile_start_timer_finish, emit, modify.
  unfold bind, ret, get; simpl.
  destruct (profile_running (prof w) =? 0); simpl.
  - destruct (TIMERR_NOERROR =? timeBeginPeriod_ret (wPeriodMin (timecaps (prof w)))); simpl;
      eexists _, [_]; repeat split; reflexivity.
  - eexists _, []. rewrite app_nil_r. destruct w; repeat split; reflexivity.
Qed.

Ltac start_timer_failure :=
  eexists _, _, [_; _]; split; [reflexivity|]; cbn;
  split; [rewrite <- !app_assoc; reflexivity|];
  split; [reflexivity|];
  split; [intros _; split; reflexivity | intros Hr; discriminate Hr].

(** X3: [jl_profile_start_timer] always returns.  It calls
    [timeBeginPeriod] exactly once when it succeeds from the stopped state
    and never otherwise (not on a failure, not when the profiler is already
    running); a failing start leaves [profile_running] and
    [profile_all_tasks] as they were, a successful one sets them. *)
Theorem jl_profile_start_timer_begin_period (all_tasks : Z) (w : World) :
  exists r w1 evs,
    jl_profile_start_timer all_tasks w = Ret r w1 /\
    trace w1 = trace w ++ evs /\
    count_timeBeginPeriod evs =
      (if (r =? 0) && (profile_running (prof w) =? 0) then 1%nat else 0%nat) /\
    (r <> 0 ->
     profile_running (prof w1) = profile_running (prof w) /\
     profile_all_tasks (prof w1) = profile_all_tasks (prof w)) /\
    (r = 0 ->
     profile_running (prof w1) = 1 /\ profile_all_tasks (prof w1) = all_tasks).
Proof.
  unfold jl_profile_start_timer, ResumeThread, fputs_stderr, emit, modify.
  unfold bind at 1, get at 1.
  destruct (hBtThread (prof w) =? NULL).
  - unfold bind at 1. cbn beta iota.
    destruct (MMSYSERR_NOERROR =? timeGetDevCaps_ret); cbn [negb].
    + unfold bind at 1 2 3. cbn beta iota.
      destruct (CreateThread_ret =? NULL).
      * start_timer_failure.
      * unfold bind at 1. cbn beta iota.
        match goal with
        | |- context [profile_start_timer_finish all_tasks ?w0] =>
            destruct (profile_start_timer_finish_total all_tasks w0)
              as (w1 & evs & Hrun & Htr & Hcount & Hflag & Hall)
        end.
        rewrite Hrun. cbn in Htr, Hcount.
        eexists 0, w1, ([_; _; _] ++ evs). split; [reflexivity|].
        split; [rewrite Htr, <- !app_assoc; reflexivity|].
        split; [exact Hcount|].
        split; [intros Hr; contradiction | intros _; split; assumption].
    + unfold bind, ret. cbn beta iota.
      start_timer_failure.
  - unfold bind at 1 2, ret at 1. cbn beta iota.
    destruct (ResumeThread_ret (hBtThread (prof w)) =? DWORD_minus1).
    + unfold bind, ret. cbn beta iota.
      start_timer_failure.
    + match goal with
      | |- context [profile_start_timer_finish all_tasks ?w0] =>
          destruct (profile_start_timer_finish_total all_tasks w0)
            as (w1 & evs & Hrun & Htr & Hcount & Hflag & Hall)
      end.
      rewrite Hrun. cbn in Htr, Hcount.
      eexists 0, w1, ([_] ++ evs). split; [reflexivity|].
      split; [rewrite Htr, <- !app_assoc; reflexivity|].
      split; [exact Hcount|].
      split; [intros Hr; contradiction | intros _; split; assumption].
Qed.

(** When the query of the timer resolution fails, a start that would
    have to create the profiling thread returns -2 after logging: no thread
    is created and the profiler's globals are as before. *)
Lemma jl_profile_start_timer_query_failure (all_tasks : Z) (w : World) :
  hBtThread (prof w) = NULL ->
  timeGetDevCaps_ret <> MMSYSERR_NOERROR ->
  exists w1,
    jl_profile_start_timer all_tasks w = Ret (-2) w1 /\
    prof w1 = prof w /\
    trace w1 = trace w ++ [EvTimeGetDevCaps timeGetDevCaps_ret;
                           EvPrint "failed to get timer resolution"].
Proof.
  intros Hbt Hcaps.
  assert (Hne : (MMSYSERR_NOERROR =? timeGetDevCaps_ret) = false)
    by (apply Z.eqb_neq; congruence).
  unfold jl_profile_start_timer, fputs_stderr, emit, modify.
  unfold bind, ret, get; simpl.
  rewrite Hbt, Z.eqb_refl, Hne; simpl.
  eexists. split; [reflexivity|]. simpl.
  rewrite <- !app_assoc. split; reflexivity.
Qed.

(** X4: [jl_profile_stop_timer] from any state returns with both flags
    cleared and calls [timeEndPeriod] at most once; it never touches the
    profiling thread handle, the timer capabilities, the sample buffer or
    its cursor; a second stop right after only takes and releases the
    lock. *)
Theorem jl_profile_stop_timer_idempotent (w : World) :
  exists w1 w2 evs,
    jl_profile_stop_timer w = Ret tt w1 /\
    jl_profile_stop_timer w1 = Ret tt w2 /\
    trace w1 = trace w ++ evs /\
    (count_timeEndPeriod evs <= 1)%nat /\
    profile_running (prof w1) = 0 /\
    profile_all_tasks (prof w1) = 0 /\
    hBtThread (prof w1) = hBtThread (prof w) /\
    timecaps (prof w1) = timecaps (prof w) /\
    profile_bt_data_prof (prof w1) = profile_bt_data_prof (prof w) /\
    profile_bt_size_cur (prof w1) = profile_bt_size_cur (prof w) /\
    prof w2 = prof w1 /\
    trace w2 = trace w1 ++ [EvLock bt_data_prof_lock; EvUnlock bt_data_prof_lock].
Proof.
  eexists _, _, _.
  split; [apply jl_profile_stop_timer_Ret|].
  split; [apply jl_profile_stop_timer_Ret|].
  simpl. split; [reflexivity|].
  split; [destruct (truthy (profile_running (prof w)) &&
                    truthy (wPeriodMin (timecaps (prof w)))); simpl; lia|].
  repeat split; reflexivity.
Qed.

(** *** The profiler's loop *)

Lemma profile_bt_iteration_idle (ctxThread : CONTEXT) (w : World) :
  profile_running (prof w) = 0 ->
  profile_bt_iteration ctxThread w =
    Ret Continue (with_trace (trace w ++ [EvSleep (profile_sleep_ms w)]) w).
Proof.
  intros Hrun.
  unfold profile_bt_iteration, Sleep, emit, modify.
  unfold bind, ret, get; simpl. rewrite Hrun. reflexivity.
Qed.

Lemma profile_sleep_ms_bounds (w : World) : 1 <= profile_sleep_ms w < 2 ^ 32.
Proof.
  unfold profile_sleep_ms, DWORD_wrap.
  pose proof (Z.mod_pos_bound (nsecprof (prof w) / (GIGA / 1000)) (2 ^ 32) ltac:(lia)) as Hb.
  destruct (Z.gtb_spec (nsecprof (prof w) / (GIGA / 1000) mod 2 ^ 32) 0); lia.
Qed.

(** X5: while profiling is off, the loop of [profile_bt] only sleeps: after
    any number of turns it is still running, each turn slept the same
    interval of at least one millisecond, and nothing else of the state
    changed. *)
Theorem profile_bt_loop_idle (fuel : nat) (ctxThread : CONTEXT) (w : World) :
  profile_running (prof w) = 0 ->
  profile_bt_loop fuel ctxThread w =
    Ret Continue (with_trace (trace w ++ replicate fuel (EvSleep (profile_sleep_ms w))) w) /\
  1 <= profile_sleep_ms w < 2 ^ 32.
Proof.
  intros Hrun. split; [|apply profile_sleep_ms_bounds].
  revert w Hrun. induction fuel as [|fuel IH]; intros w Hrun.
  - simpl. unfold ret. rewrite app_nil_r. destruct w; reflexivity.
  - cbn [profile_bt_loop].
    erewrite bind_Ret; [|apply profile_bt_iteration_idle; exact Hrun].
    rewrite IH by exact Hrun.
    simpl. rewrite <- app_assoc. reflexivity.
Qed.

(** X6: when the sample buffer is full, a turn of [profile_bt] stops the
    timer and suspends the profiling thread itself; the loop is not left,
    the target thread is not suspended and the buffer and its cursor are
    untouched. *)
Theorem profile_bt_iteration_buffer_full (ctxThread : CONTEXT) (w : World) :
  profile_running (prof w) <> 0 ->
  jl_profile_is_buffer_full (prof w) <> 0 ->
  exists w',
    profile_bt_iteration ctxThread w = Ret Continue w' /\
    trace w' = trace w ++
               [EvSleep (profile_sleep_ms w); EvLock bt_data_prof_lock] ++
               (if truthy (wPeriodMin (timecaps (prof w)))
                then [EvTimeEndPeriod (wPeriodMin (timecaps (prof w)))] else []) ++
               [EvUnlock bt_data_prof_lock;
                EvSuspendThread GetCurrentThread_ret (SuspendThread_ret GetCurrentThread_ret)] /\
    profile_running (prof w') = 0 /\
    profile_bt_data_prof (prof w') = profile_bt_data_prof (prof w) /\
    profile_bt_size_cur (prof w') = profile_bt_size_cur (prof w).
Proof.
  intros Hrun Hfull.
  unfold profile_bt_iteration.
  unfold bind at 1, get at 1. unfold bind at 1, Sleep, emit, modify at 1.
  unfold bind at 1, get at 1. cbn [prof with_trace].
  rewrite (truthy_true _ Hrun), (truthy_true _ Hfull).
  erewrite bind_Ret; [|apply jl_profile_stop_timer_Ret].
  unfold SuspendThread, emit, modify, bind, ret. cbn.
  rewrite (truthy_true _ Hrun). cbn.
  eexists. split; [reflexivity|]. cbn.
  split; [|repeat split; reflexivity].
  unfold profile_sleep_ms.
  destruct (truthy (wPeriodMin (timecaps (prof w)))); cbn; rewrite <- !app_assoc; reflexivity.
Qed.

(** In all-tasks mode a turn of [profile_bt] hands over to
    [jl_profile_task]: it takes no lock and suspends no thread. *)
Lemma profile_bt_iteration_all_tasks (ctxThread : CONTEXT) (w : World) :
  profile_running (prof w) <> 0 ->
  jl_profile_is_buffer_full (prof w) = 0 ->
  profile_all_tasks (prof w) <> 0 ->
  profile_bt_iteration ctxThread w =
    Ret Continue (with_trace (trace w ++ [EvSleep (profile_sleep_ms w); EvProfileTask]) w).
Proof.
  intros Hrun Hfull Hall.
  unfold profile_bt_iteration, jl_profile_task, Sleep, emit, modify.
  unfold bind, ret, get; simpl.
  rewrite (truthy_true _ Hrun), Hfull, (truthy_true _ Hall). simpl.
  rewrite <- app_assoc. reflexivity.
Qed.

Lemma jl_thread_suspend_and_get_state_not_suspended
    (tid timeout : Z) (ctx : CONTEXT) (w : World) (ptls2 : ptr) (s2 : jl_tls_states_t) :
  0 <= tid ->
  jl_all_tls_states w !! Z.to_nat tid = Some ptls2 ->
  ptls2 <> NULL ->
  tls_heap w !! ptls2 = Some s2 ->
  current_task s2 <> NULL ->
  SuspendThread_ret (system_id s2) = DWORD_minus1 ->
  jl_thread_suspend_and_get_state tid timeout ctx w =
    Ret (0, ctx)
        (with_trace (trace w ++ [EvSuspendThread (system_id s2) DWORD_minus1]) w).
Proof.
  intros Htid Harr Hp Hs2 Hct Hsusp.
  apply Z.eqb_neq in Hp, Hct. apply Z.ltb_ge in Htid.
  unfold jl_thread_suspend_and_get_state, tls_states_at, load_tls, SuspendThread,
    emit, modify.
  unfold bind, ret, get; simpl.
  rewrite Htid, Harr; simpl. rewrite Hp, Hs2; simpl. rewrite Hct, Hsusp; simpl.
  reflexivity.
Qed.

Lemma profile_bt_iteration_suspend_failure
    (ctxThread : CONTEXT) (w : World) (ptls : ptr) (s : jl_tls_states_t) :
  profile_running (prof w) <> 0 ->
  jl_profile_is_buffer_full (prof w) = 0 ->
  profile_all_tasks (prof w) = 0 ->
  jl_all_tls_states w !! 0%nat = Some ptls ->
  ptls <> NULL ->
  tls_heap w !! ptls = Some s ->
  current_task s <> NULL ->
  SuspendThread_ret (system_id s) = DWORD_minus1 ->
  profile_bt_iteration ctxThread w =
    Ret Break
        (with_trace
           (trace w ++
            [EvSleep (profile_sleep_ms w);
             EvLock jl_in_stackwalk; EvLock profile_lock;
             EvSuspendThread (system_id s) DWORD_minus1;
             EvUnlock profile_lock; EvUnlock jl_in_stackwalk;
             EvPrint "failed to suspend main thread. aborting profiling.";
             EvLock bt_data_prof_lock] ++
            (if truthy (wPeriodMin (timecaps (prof w)))
             then [EvTimeEndPeriod (wPeriodMin (timecaps (prof w)))] else []) ++
            [EvUnlock bt_data_prof_lock])
           (with_prof (set_profile_all_tasks 0 (set_profile_running 0 (prof w))) w)).
Proof.
  intros Hrun Hfull Hall Harr Hp Hs Hct Hsusp.
  unfold profile_bt_iteration.
  unfold bind at 1, get at 1. unfold bind at 1, Sleep, emit, modify at 1.
  unfold bind at 1, get at 1. cbn [prof with_trace].
  rewrite (truthy_true _ Hrun), Hfull, Hall. cbn [truthy Z.eqb negb].
  unfold jl_lock_stackwalk, jl_unlock_stackwalk, jl_lock_profile, jl_unlock_profile,
    uv_mutex_lock, uv_mutex_unlock, fputs_stderr.
  unfold bind at 1 2, emit at 1 2, modify at 1 2.
  erewrite bind_Ret;
    [|apply (jl_thread_suspend_and_get_state_not_suspended 0 0 ctxThread _ ptls s);
      [lia | exact Harr | exact Hp | exact Hs | exact Hct | exact Hsusp]].
  cbn [fst snd Z.eqb].
  unfold bind at 1 2 3, emit at 1 2 3, modify at 1 2 3.
  erewrite bind_Ret; [|apply jl_profile_stop_timer_Ret].
  unfold ret. cbn.
  rewrite (truthy_true _ Hrun). cbn. unfold profile_sleep_ms.
  destruct (truthy (wPeriodMin (timecaps (prof w)))); cbn; rewrite <- !app_assoc; reflexivity.
Qed.

(** X7: when the main thread cannot be suspended, [profile_bt] gives up:
    it releases the stack-walk lock, logs, stops the timer, leaves its loop
    and returns 0 with [hBtThread] reset to [NULL]; no sample is written.
    On its way out it unlocks [jl_in_stackwalk] a second time. *)
Theorem profile_bt_suspend_failure
    (fuel : nat) (ctxThread : CONTEXT) (w : World) (ptls : ptr) (s : jl_tls_states_t) :
  profile_running (prof w) <> 0 ->
  jl_profile_is_buffer_full (prof w) = 0 ->
  profile_all_tasks (prof w) = 0 ->
  jl_all_tls_states w !! 0%nat = Some ptls ->
  ptls <> NULL ->
  tls_heap w !! ptls = Some s ->
  current_task s <> NULL ->
  SuspendThread_ret (system_id s) = DWORD_minus1 ->
  exists w',
    profile_bt (S fuel) ctxThread w = Ret (Some 0) w' /\
    trace w' = trace w ++
               [EvSleep (profile_sleep_ms w);
                EvLock jl_in_stackwalk; EvLock profile_lock;
                EvSuspendThread (system_id s) DWORD_minus1;
                EvUnlock profile_lock; EvUnlock jl_in_stackwalk;
                EvPrint "failed to suspend main thread. aborting profiling.";
                EvLock bt_data_prof_lock] ++
               (if truthy (wPeriodMin (timecaps (prof w)))
                then [EvTimeEndPeriod (wPeriodMin (timecaps (prof w)))] else []) ++
               [EvUnlock bt_data_prof_lock;
                EvUnlock jl_in_stackwalk;
                EvLock bt_data_prof_lock; EvUnlock bt_data_prof_lock] /\
    hBtThread (prof w') = NULL /\
    profile_running (prof w') = 0 /\
    profile_bt_data_prof (prof w') = profile_bt_data_prof (prof w) /\
    profile_bt_size_cur (prof w') = profile_bt_size_cur (prof w).
Proof.
  intros Hrun Hfull Hall Harr Hp Hs Hct Hsusp.
  unfold profile_bt.
  erewrite bind_Ret.
  2:{ cbn [profile_bt_loop]. erewrite bind_Ret;
        [|apply (profile_bt_iteration_suspend_failure ctxThread w ptls s); assumption].
      reflexivity. }
  unfold uv_mutex_unlock.
  unfold bind at 1, emit at 1, modify at 1.
  erewrite bind_Ret; [|apply jl_profile_stop_timer_Ret].
  unfold bind, modify, ret.
  eexists. split; [reflexivity|]. cbn.
  split; [|repeat split; reflexivity].
  destruct (truthy (wPeriodMin (timecaps (prof w)))); cbn; rewrite <- !app_assoc; reflexivity.
Qed.

(** X8: a successful sample of [profile_bt] suspends the main thread
    once and resumes it once: the thread is suspended and read under the
    stack-walk lock and resumed after the lock is released; the thread
    states, the tasks and the profiler's flags are untouched. *)
Theorem profile_bt_iteration_sample_pairing
    (ctxThread : CONTEXT) (w : World) (ptls : ptr) (s : jl_tls_states_t) :
  profile_running (prof w) <> 0 ->
  jl_profile_is_buffer_full (prof w) = 0 ->
  profile_all_tasks (prof w) = 0 ->
  jl_all_tls_states w !! 0%nat = Some ptls ->
  ptls <> NULL ->
  tls_heap w !! ptls = Some s ->
  current_task s <> NULL ->
  SuspendThread_ret (system_id s) <> DWORD_minus1 ->
  GetThreadContext_ret (system_id s) <> 0 ->
  ResumeThread_ret (system_id s) <> DWORD_minus1 ->
  0 <= profile_bt_size_cur (prof w) ->
  profile_bt_size_cur (prof w) + Z.of_nat (length (sampled_backtrace w s)) + 6
    <= Z.of_nat (length (profile_bt_data_prof (prof w))) ->
  Z.of_nat (length (profile_bt_data_prof (prof w))) < 2 ^ 64 ->
  exists w',
    profile_bt_iteration ctxThread w = Ret Continue w' /\
    trace w' = trace w ++
               [EvSleep (profile_sleep_ms w);
                EvLock jl_in_stackwalk; EvLock profile_lock;
                EvSuspendThread (system_id s) (SuspendThread_ret (system_id s));
                EvGetThreadContext (system_id s) (GetThreadContext_ret (system_id s));
                EvUnlock profile_lock; EvUnlock jl_in_stackwalk;
                EvResumeThread (system_id s) (ResumeThread_ret (system_id s));
                EvCheckProfileAutostop] /\
    tls_heap w' = tls_heap w /\
    task_heap w' = task_heap w /\
    profile_running (prof w') = profile_running (prof w) /\
    profile_all_tasks (prof w') = profile_all_tasks (prof w).
Proof.
  intros Hrun Hfull Hall Harr Hp Hs Hct Hsusp Hget Hres Hcur Hroom Hsmall.
  unfold profile_bt_iteration.
  unfold bind at 1, get at 1. unfold bind at 1, Sleep, emit, modify at 1.
  unfold bind at 1, get at 1. cbn [prof with_trace].
  rewrite (truthy_true _ Hrun), Hfull, Hall. cbn [truthy Z.eqb negb].
  set (w0 := with_trace _ w).
  unfold jl_lock_stackwalk, jl_unlock_stackwalk, jl_lock_profile, jl_unlock_profile,
    uv_mutex_lock, uv_mutex_unlock, jl_check_profile_autostop, cycleclock.
  unfold bind at 1 2, emit at 1 2, modify at 1 2.
  set (w1 := with_trace _ (with_trace _ w0)).
  erewrite bind_Ret;
    [|apply (jl_thread_suspend_and_get_state_Ret 0 0 ctxThread w1 ptls s);
      [lia | exact Harr | exact Hp | exact Hs | exact Hct | exact Hsusp | exact Hget]].
  cbn [fst snd Z.eqb].
  set (w2 := with_trace _ w1).
  fold (sampled_context s).
  pose (buf := profile_bt_data_prof (prof w)).
  pose (cur := profile_bt_size_cur (prof w)).
  pose (bt := sampled_backtrace w s).
  assert (Hrec : profile_bt_record (sampled_context s) w2 =
                 Ret tt (with_prof
                           (set_profile_bt (take (Z.to_nat cur) buf ++ bt ++
                                            drop (Z.to_nat (cur + Z.of_nat (length bt))) buf)
                                           (cur + Z.of_nat (length bt)) (prof w)) w2)).
  { apply (profile_bt_record_Ret (sampled_context s) w2); cbn [prof w2 w1 w0 with_trace].
    - exact Hcur.
    - fold (sampled_backtrace w s). lia.
    - exact Hsmall. }
  erewrite bind_Ret; [|exact Hrec]. clear Hrec.
  (* the buffer after the program counters: a prefix, then at least six slots *)
  pose (pre := take (Z.to_nat cur) buf ++ bt).
  assert (Hpre : Z.of_nat (length pre) = cur + Z.of_nat (length bt)).
  { unfold pre. rewrite length_app, length_take_le; unfold buf, bt, cur in *; lia. }
  assert (Hdrop : exists x1 x2 x3 x4 x5 x6,
             drop (Z.to_nat (cur + Z.of_nat (length bt))) buf =
             x1 :: x2 :: x3 :: x4 :: x5 :: x6 ::
             drop (Z.to_nat cur + (length bt + 6)) buf).
  { replace (Z.to_nat cur + (length bt + 6))%nat
      with (Z.to_nat (cur + Z.of_nat (length bt)) + 6)%nat
      by (unfold cur; lia).
    rewrite <- drop_drop.
    assert (Hlen : (6 <= length (drop (Z.to_nat (cur + Z.of_nat (length bt))) buf))%nat)
      by (rewrite length_drop; unfold buf, bt, cur in *; lia).
    destruct (drop (Z.to_nat (cur + Z.of_nat (length bt))) buf)
      as [|x1 [|x2 [|x3 [|x4 [|x5 [|x6 l]]]]]]; simpl in Hlen; try lia.
    exists x1, x2, x3, x4, x5, x6. reflexivity. }
  destruct Hdrop as (x1 & x2 & x3 & x4 & x5 & x6 & Hdrop).
  rewrite Hdrop.
  pose (W := fun l1 l2 : list Z =>
               with_prof (set_profile_bt (l1 ++ l2) (Z.of_nat (length l1)) (prof w)) w2).
  rewrite (app_assoc (take (Z.to_nat cur) buf) bt). fold pre.
  rewrite <- Hpre.
  match goal with
  | |- context [with_prof (set_profile_bt (pre ++ ?l) _ _) _] =>
      change (with_prof (set_profile_bt (pre ++ l) (Z.of_nat (length pre)) (prof w)) w2)
        with (W pre l)
  end.
  assert (Hat : forall l1 l2, tls_states_at 0 (W l1 l2) = Ret ptls (W l1 l2)).
  { intros l1 l2. unfold tls_states_at.
    change (jl_all_tls_states (W l1 l2)) with (jl_all_tls_states w).
    change (Z.to_nat 0) with 0%nat. rewrite Harr. reflexivity. }
  assert (Hld : forall l1 l2, load_tls ptls (W l1 l2) = Ret s (W l1 l2)).
  { intros l1 l2. unfold load_tls.
    change (tls_heap (W l1 l2)) with (tls_heap w). rewrite Hs. reflexivity. }
  assert (Hpush : forall v l1 x l2,
             Z.of_nat (length l1) + 1 < 2 ^ 64 ->
             profile_bt_push v (W l1 (x :: l2)) = Ret tt (W (l1 ++ [v]) l2)).
  { intros v l1 x l2 Hl1.
    rewrite (profile_bt_push_app v (W l1 (x :: l2)) l1 x l2);
      [reflexivity | reflexivity | reflexivity | exact Hl1]. }
  assert (Hbound : Z.of_nat (length pre) + 6 < 2 ^ 64)
    by (rewrite Hpre; unfold buf, bt, cur in *; lia).
  rewrite (bind_Ret _ _ _ _ _ (Hat _ _)).
  rewrite (bind_Ret _ _ _ _ _ (Hld _ _)).
  erewrite bind_Ret; [|apply Hpush; lia].
  rewrite (bind_Ret _ _ _ _ _ (Hld _ _)).
  erewrite bind_Ret; [|apply Hpush; rewrite !length_app; simpl; lia].
  unfold bind at 1, get at 1.
  erewrite bind_Ret; [|apply Hpush; rewrite !length_app; simpl; lia].
  rewrite (bind_Ret _ _ _ _ _ (Hld _ _)).
  erewrite bind_Ret; [|apply Hpush; rewrite !length_app; simpl; lia].
  erewrite bind_Ret; [|apply Hpush; rewrite !length_app; simpl; lia].
  erewrite bind_Ret; [|apply Hpush; rewrite !length_app; simpl; lia].
  unfold bind at 1 2, emit at 1 2, modify at 1 2.
  erewrite bind_Ret;
    [|apply (jl_thread_resume_Ret 0 _ ptls s); [lia | exact Harr | exact Hs | exact Hres]].
  unfold bind, emit, modify, ret.
  eexists. split; [reflexivity|].
  cbn. rewrite <- !app_assoc. repeat split; first [reflexivity | exact Hall].
Qed.

(** *** Console interrupt delivery *)

(** X9: when [SuspendThread] fails, [jl_try_deliver_sigint] logs, releases
    the profile lock and returns: nothing is read from or written to the
    thread, no resume is issued, the force override is not looked at, and
    the interrupt armed at the start stays pending. *)
Theorem jl_try_deliver_sigint_suspend_failure (w : World) (ptls2 : ptr) :
  jl_all_tls_states w !! 0%nat = Some ptls2 ->
  SuspendThread_ret (hMainThread w) = DWORD_minus1 ->
  jl_try_deliver_sigint w =
    Ret tt (with_trace
              (trace w ++
               [EvLock profile_lock; EvSafepointEnableSigint; EvWakeLibuv;
                EvSuspendThread (hMainThread w) DWORD_minus1;
                EvPrint "error: SuspendThread failed\n"; EvUnlock profile_lock])
              (with_safepoint (mkSafepoint true (force_sigint (safepoint w))) w)).
Proof.
  intros Harr Hsusp.
  unfold jl_try_deliver_sigint, tls_states_at, jl_lock_profile, jl_unlock_profile,
    jl_safepoint_enable_sigint, jl_wake_libuv, SuspendThread, jl_safe_printf, emit, modify.
  unfold bind, ret, get; simpl.
  change (Z.to_nat 0) with 0%nat. rewrite Harr; simpl.
  rewrite Hsusp; simpl.
  rewrite <- !app_assoc. reflexivity.
Qed.

(** X10: a console interrupt is delivered when the override is set or the
    main thread waits in I/O without deferring signals, provided the thread
    can be suspended, read and written ([SuspendThread], [GetThreadContext]
    and [SetThreadContext] all succeed), no restore point is registered, and
    the current task of the main thread has a thread state and a handler
    frame the jump to which can be simulated.  Then the pending interrupt is
    consumed and the override cleared, [InterruptException] is stored as the
    task's pending exception with the backtrace of the context read from
    the thread, the context written back is the simulated jump with the
    control and integer flags, and [ResumeThread] is called once, a failure
    of it being logged. *)
Theorem jl_try_deliver_sigint_delivers
    (w : World) (ptls2 : ptr) (s2 : jl_tls_states_t) (t : jl_task_t) (s : jl_tls_states_t)
    (h : jl_handler_t) (rest : list jl_handler_t) :
  jl_all_tls_states w !! 0%nat = Some ptls2 ->
  tls_heap w !! ptls2 = Some s2 ->
  SuspendThread_ret (hMainThread w) <> DWORD_minus1 ->
  force_sigint (safepoint w) || (negb (truthy (defer_signal s2)) && truthy (io_wait s2)) = true ->
  GetThreadContext_ret (hMainThread w) <> 0 ->
  safe_restore w = None ->
  current_task s2 <> NULL ->
  jl_interrupt_exception <> NULL ->
  jl_interrupt_exception <> jl_stackovf_exception ->
  task_heap w !! current_task s2 = Some t ->
  tls_heap w !! ptls t = Some s ->
  eh t = h :: rest ->
  fst (jl_simulate_longjmp (eh_ctx h) (main_thread_context w)) <> 0 ->
  SetThreadContext_ret (hMainThread w) <> 0 ->
  exists w',
    jl_try_deliver_sigint w = Ret tt w' /\
    safepoint w' = mkSafepoint false false /\
    tls_heap w' =
      <[ptls t := injected_tls jl_interrupt_exception true
                    (rec_backtrace_ctx JL_MAX_BT_SIZE (main_thread_context w) (gcstack t)) s]>
        (tls_heap w) /\
    trace w' =
      trace w ++ delivery_events w ++
      [EvSetThreadContext (hMainThread w)
         (set_ContextFlags (Z.lor CONTEXT_CONTROL CONTEXT_INTEGER)
            (snd (jl_simulate_longjmp (eh_ctx h) (main_thread_context w))))
         (SetThreadContext_ret (hMainThread w));
       EvResumeThread (hMainThread w) (ResumeThread_ret (hMainThread w))] ++
      (if ResumeThread_ret (hMainThread w) =? DWORD_minus1
       then [EvPrint "error: ResumeThread failed\n"] else []).
Proof.
  intros Harr Hs2 Hsusp Hdeliver Hget Hsafe Hct Hex Hne Ht Hs Heh Hok Hset.
  rewrite (jl_try_deliver_sigint_delivering w ptls2 s2 Harr Hs2 Hsusp Hdeliver Hget).
  match goal with
  | |- context [bind _ _ ?w0] =>
      destruct (jl_throw_in_ctx_task (current_task s2) jl_interrupt_exception
                  (main_thread_context w) w0 t s Hsafe Hct Hex Ht Hs)
        as (w1 & Hrun & Hheap & Htrace & _ & _ & Hsp & _)
  end.
  unfold handler_transfer in Hrun. rewrite Heh in Hrun, Htrace.
  apply Z.eqb_neq in Hok, Hset, Hne. rewrite Hok in Hrun. rewrite Hne in Hheap, Htrace.
  simpl in Hheap, Htrace, Hsp. rewrite app_nil_r in Htrace.
  erewrite bind_Ret; [|exact Hrun].
  unfold SetThreadContext, deliver_sigint_resume, ResumeThread, jl_safe_printf, emit, modify.
  unfold bind, ret; simpl. rewrite Hset; simpl.
  destruct (ResumeThread_ret (hMainThread w) =? DWORD_minus1);
    eexists; (split; [reflexivity|]); simpl;
    rewrite Hsp, Hheap, Htrace; (repeat split; [reflexivity..|]);
    unfold delivery_events; destruct (force_sigint (safepoint w)); simpl;
    rewrite <- ?app_assoc; reflexivity.
Qed.

(** X11: a console interrupt delivered while a fault-site restore point is
    registered, when the thread can be suspended, read and written
    ([SuspendThread], [GetThreadContext] and [SetThreadContext] all succeed)
    and the jump to the restore point can be simulated on the context read,
    is consumed without being stored: the context written back is the
    restore point's, no thread state is written (no pending exception, no
    backtrace, the I/O-wait flag as it was), the pending interrupt and the
    override are cleared all the same, and [ResumeThread] is called once. *)
Theorem jl_try_deliver_sigint_restore_point
    (w : World) (ptls2 : ptr) (s2 : jl_tls_states_t) (buf : jl_jmp_buf) :
  jl_all_tls_states w !! 0%nat = Some ptls2 ->
  tls_heap w !! ptls2 = Some s2 ->
  SuspendThread_ret (hMainThread w) <> DWORD_minus1 ->
  force_sigint (safepoint w) || (negb (truthy (defer_signal s2)) && truthy (io_wait s2)) = true ->
  GetThreadContext_ret (hMainThread w) <> 0 ->
  safe_restore w = Some buf ->
  fst (jl_simulate_longjmp buf (main_thread_context w)) <> 0 ->
  SetThreadContext_ret (hMainThread w) <> 0 ->
  exists w',
    jl_try_deliver_sigint w = Ret tt w' /\
    safepoint w' = mkSafepoint false false /\
    tls_heap w' = tls_heap w /\
    task_heap w' = task_heap w /\
    trace w' =
      trace w ++ delivery_events w ++
      [EvSetThreadContext (hMainThread w)
         (set_ContextFlags (Z.lor CONTEXT_CONTROL CONTEXT_INTEGER)
            (snd (jl_simulate_longjmp buf (main_thread_context w))))
         (SetThreadContext_ret (hMainThread w));
       EvResumeThread (hMainThread w) (ResumeThread_ret (hMainThread w))] ++
      (if ResumeThread_ret (hMainThread w) =? DWORD_minus1
       then [EvPrint "error: ResumeThread failed\n"] else []).
Proof.
  intros Harr Hs2 Hsusp Hdeliver Hget Hsafe Hok Hset.
  rewrite (jl_try_deliver_sigint_delivering w ptls2 s2 Harr Hs2 Hsusp Hdeliver Hget).
  apply Z.eqb_neq in Hok, Hset.
  unfold jl_throw_in_ctx, jl_get_safe_restore, delivering_state.
  unfold bind at 1 2, get at 1. cbn [safe_restore with_trace with_safepoint].
  rewrite Hsafe.
  destruct (jl_simulate_longjmp buf (main_thread_context w)) as [ok c] eqn:Hjmp.
  simpl in Hok. rewrite Hok.
  unfold SetThreadContext, deliver_sigint_resume, ResumeThread, jl_safe_printf, emit, modify.
  unfold bind, ret; simpl. rewrite Hset; simpl.
  destruct (ResumeThread_ret (hMainThread w) =? DWORD_minus1);
    eexists; (split; [reflexivity|]); simpl;
    (repeat split; [reflexivity..|]);
    unfold delivery_events; destruct (force_sigint (safepoint w)); simpl;
    rewrite <- ?app_assoc; reflexivity.
Qed.

(** *** The injector *)



(** *** Per-thread initialisation *)

(** X13: [jl_install_thread_signal_handler] sets the backtrace fiber up
    once per process: the first call allocates the stack, prepares the
    context and initialises the lock; any later call, for whatever thread,
    does nothing. *)
Theorem jl_install_thread_signal_handler_once (ptls ptls' : ptr) (w : World) :
  have_backtrace_fiber (fiber w) = 0 ->
  fst (jl_malloc_stack sig_stack_size) <> NULL ->
  exists w',
    jl_install_thread_signal_handler ptls w = Ret tt w' /\
    trace w' = trace w ++ [EvMallocStack (fst (jl_malloc_stack sig_stack_size));
                           EvMakeContext; EvMutexInit backtrace_lock] /\
    have_backtrace_fiber (fiber w') = 1 /\
    jl_install_thread_signal_handler ptls' w' = Ret tt w'.
Proof.
  intros Hbf Hstk. apply Z.eqb_neq in Hstk.
  unfold jl_install_thread_signal_handler, bind at 1, get at 1.
  rewrite Hbf. cbn [truthy Z.eqb negb].
  destruct (jl_malloc_stack sig_stack_size) as [stk ssize]. simpl in Hstk.
  unfold emit, modify, bind, ret, get. rewrite Hstk. simpl.
  eexists. split; [reflexivity|]. simpl.
  rewrite <- !app_assoc. repeat split; reflexivity.
Qed.

(** X14: when the stack of the backtrace fiber cannot be allocated,
    [jl_install_thread_signal_handler] raises the allocation error: the
    fiber's context is not prepared, the lock is not initialised and
    [have_backtrace_fiber] stays 0. *)
Theorem jl_install_thread_signal_handler_no_stack (ptls : ptr) (w : World) :
  have_backtrace_fiber (fiber w) = 0 ->
  fst (jl_malloc_stack sig_stack_size) = NULL ->
  jl_install_thread_signal_handler ptls w =
    Raised "fatal error allocating signal stack: mmap: %s"
           (with_trace (trace w ++ [EvMallocStack NULL]) w).
Proof.
  intros Hbf Hstk.
  unfold jl_install_thread_signal_handler, bind at 1, get at 1.
  rewrite Hbf. cbn [truthy Z.eqb negb].
  destruct (jl_malloc_stack sig_stack_size) as [stk ssize]. simpl in Hstk. subst stk.
  unfold emit, modify, bind, ret, jl_errorf. simpl. reflexivity.
Qed.

(** *** The stack-walk lock *)

(** X15: [jl_with_stackwalk_lock] runs its callback with [jl_in_stackwalk]
    and the profile lock held, taken in that order, and releases them in the
    reverse order when the callback returns; when the callback does not
    return, neither lock is released. *)
Theorem jl_with_stackwalk_lock_brackets (f : ptr -> M unit) (ctx : ptr) (w : World) :
  jl_with_stackwalk_lock f ctx w =
    match f ctx (with_trace (trace w ++ [EvLock jl_in_stackwalk; EvLock profile_lock]) w) with
    | Ret _ w1 =>
        Ret tt (with_trace (trace w1 ++ [EvUnlock profile_lock; EvUnlock jl_in_stackwalk]) w1)
    | Aborted w1 => Aborted w1
    | Exited w1 => Exited w1
    | Raised msg w1 => Raised msg w1
    | Stuck => Stuck
    end.
Proof.
  unfold jl_with_stackwalk_lock, jl_lock_stackwalk, jl_unlock_stackwalk, jl_lock_profile,
    jl_unlock_profile, uv_mutex_lock, uv_mutex_unlock, emit, modify.
  unfold bind, ret; simpl. rewrite <- app_assoc; simpl.
  destruct (f ctx _) as [[] w1|w1|w1|msg w1|]; try reflexivity.
  simpl. rewrite <- app_assoc. reflexivity.
Qed.

End MoreProperties.

(** ** Properties of the handlers *)

Section HandlerProperties.
Context {os : Win32} {rt : Runtime} {crt : Crt}.

Lemma hbind_HRet {A B} (m : H A) (k : A -> H B) (h h' : Host) (a : A) :
  m h = HRet a h' -> hbind m k h = k a h'.
Proof. intros Hm. unfold hbind. rewrite Hm. reflexivity. Qed.

Lemma lift_Ret {A} (m : M A) (h : Host) (a : A) (w : World) :
  m (runtime h) = Ret a w -> lift m h = HRet a (with_runtime w h).
Proof. intros Hm. unfold lift. rewrite Hm. reflexivity. Qed.

(** The injector run by a handler on a task with a handler frame. *)
Lemma lift_jl_throw_in_ctx_handler
    (ct excpt : ptr) (ctx : CONTEXT) (h : Host) (t : jl_task_t) (s : jl_tls_states_t)
    (hd : jl_handler_t) (rest : list jl_handler_t) :
  safe_restore (runtime h) = None ->
  ct <> NULL -> excpt <> NULL ->
  task_heap (runtime h) !! ct = Some t ->
  tls_heap (runtime h) !! ptls t = Some s ->
  eh t = hd :: rest ->
  fst (jl_simulate_longjmp (eh_ctx hd) ctx) <> 0 ->
  exists w',
    lift (jl_throw_in_ctx ct excpt ctx) h =
      HRet (snd (jl_simulate_longjmp (eh_ctx hd) ctx)) (with_runtime w' h) /\
    tls_heap w' =
      <[ptls t := injected_tls excpt
                    (negb (excpt =? jl_stackovf_exception) ||
                     (excpt =? jl_stackovf_exception) &&
                     truthy (have_backtrace_fiber (fiber (runtime h))))
                    (rec_backtrace_ctx JL_MAX_BT_SIZE ctx
                       (if excpt =? jl_stackovf_exception then NULL else gcstack t)) s]>
        (tls_heap (runtime h)) /\
    trace w' = trace (runtime h) ++
               (if (excpt =? jl_stackovf_exception) &&
                   truthy (have_backtrace_fiber (fiber (runtime h)))
                then fiber_events else []) /\
    task_heap w' = task_heap (runtime h) /\
    safepoint w' = safepoint (runtime h).
Proof.
  intros Hsafe Hct Hex Ht Hs Heh Hok.
  destruct (jl_throw_in_ctx_task ct excpt ctx (runtime h) t s Hsafe Hct Hex Ht Hs)
    as (w' & Hrun & Hheap & Htrace & Htask & _ & Hsp & _).
  unfold handler_transfer in Hrun. rewrite Heh in Hrun, Htrace.
  apply Z.eqb_neq in Hok. rewrite Hok in Hrun. rewrite app_nil_r in Htrace.
  exists w'. split; [apply lift_Ret; exact Hrun|].
  repeat split; assumption.
Qed.


(** The report at the end of [jl_exception_handler] leaves the process. *)
Lemma jl_exception_handler_report_leaves
    (ExceptionInfo : EXCEPTION_POINTERS) (h h0 : Host) :
  runtime h0 = runtime h -> tls_fault_heap h0 = tls_fault_heap h ->
  recursion h0 = recursion h -> calls h0 = calls h ->
  reported_as_fatal ExceptionInfo h
    (jl_exception_handler_report ExceptionInfo (jl_current_task h) h0).
Proof.
  intros Hrt Hfh Hrec Hcalls.
  unfold reported_as_fatal, jl_exception_handler_report, jl_show_sigill,
    jl_print_native_codeloc, jl_critical_error, exit, jl_exit, leave_by, call, hmodify,
    jl_safe_printf, emit, modify.
  cbv zeta.
  unfold hbind, hret, hget, lift.
  destruct (ExceptionCode (ExceptionRecord ExceptionInfo) =? EXCEPTION_ILLEGAL_INSTRUCTION);
    cbn; rewrite Hrec; destruct (truthy (recursion h)); cbn.
  1,2: eexists _, [_; _], [_; _; _], _.
  3,4: eexists _, [_], [_; _], _.
  all: (split; [reflexivity|]); cbn; rewrite ?Hrt, ?Hfh, ?Hrec, ?Hcalls, <- ?app_assoc; cbn;
    repeat split; reflexivity.
Qed.

Local Opaque jl_throw_in_ctx jl_exception_handler_report.

(** The way into the [switch] of [jl_exception_handler]: no flag set, a
    current task with a thread state that is not waiting for the GC. *)
Ltac enter_exception_handler Hflags Hct Ht Hp Hf Hgc :=
  unfold jl_exception_handler; cbv zeta; rewrite Hflags; cbn [Z.eqb negb];
  unfold jl_get_current_task, load_tls_fault;
  unfold hbind at 1, hget at 1; rewrite (proj2 (Z.eqb_neq _ _) Hct);
  erewrite hbind_HRet; [|apply lift_Ret; unfold load_task; rewrite Ht; reflexivity];
  rewrite (proj2 (Z.eqb_neq _ _) Hp); unfold hbind at 1; cbn [tls_fault_heap with_runtime];
  rewrite Hf, (proj2 (Z.eqb_neq _ _) Hgc).

(** An exception record with any flag set (a non-continuable or an
    unwinding exception) is passed on: [jl_exception_handler] answers
    [EXCEPTION_CONTINUE_SEARCH] at once, whatever the code, without looking
    at the task and without touching the context record or any state. *)
Lemma jl_exception_handler_continue_search (ExceptionInfo : EXCEPTION_POINTERS) (h : Host) :
  ExceptionFlags (ExceptionRecord ExceptionInfo) <> 0 ->
  jl_exception_handler ExceptionInfo h =
    HRet (EXCEPTION_CONTINUE_SEARCH, ContextRecord ExceptionInfo) h.
Proof.
  intros Hflags. apply Z.eqb_neq in Hflags.
  unfold jl_exception_handler. cbv zeta. rewrite Hflags. reflexivity.
Qed.


(** X17: a stack overflow (no exception flag set) in a task whose thread
    is not waiting for the GC and which has a handler frame, with no restore
    point registered and a jump to the topmost frame that can be simulated,
    marks the thread for a reset of its guard page and is turned into a
    [StackOverflowError]; the floating-point state is not reset.  The
    backtrace is the fiber's, collected only once the fiber is set up. *)
Theorem jl_exception_handler_stack_overflow
    (ExceptionInfo : EXCEPTION_POINTERS) (h : Host) (t : jl_task_t) (f : tls_fault_state)
    (s : jl_tls_states_t) (hd : jl_handler_t) (rest : list jl_handler_t) :
  ExceptionFlags (ExceptionRecord ExceptionInfo) = 0 ->
  ExceptionCode (ExceptionRecord ExceptionInfo) = EXCEPTION_STACK_OVERFLOW ->
  EXCEPTION_STACK_OVERFLOW <> EXCEPTION_INT_DIVIDE_BY_ZERO ->
  jl_current_task h <> NULL ->
  task_heap (runtime h) !! jl_current_task h = Some t ->
  ptls t <> NULL ->
  tls_fault_heap h !! ptls t = Some f ->
  gc_state f <> JL_GC_STATE_WAITING ->
  tls_heap (runtime h) !! ptls t = Some s ->
  eh t = hd :: rest ->
  safe_restore (runtime h) = None ->
  jl_stackovf_exception <> NULL ->
  fst (jl_simulate_longjmp (eh_ctx hd) (ContextRecord ExceptionInfo)) <> 0 ->
  exists h',
    jl_exception_handler ExceptionInfo h =
      HRet (EXCEPTION_CONTINUE_EXECUTION,
            snd (jl_simulate_longjmp (eh_ctx hd) (ContextRecord ExceptionInfo))) h' /\
    tls_fault_heap h' = <[ptls t := mkTlsFault (gc_state f) 1]> (tls_fault_heap h) /\
    calls h' = calls h /\
    tls_heap (runtime h') =
      <[ptls t := injected_tls jl_stackovf_exception
                    (truthy (have_backtrace_fiber (fiber (runtime h))))
                    (rec_backtrace_ctx JL_MAX_BT_SIZE (ContextRecord ExceptionInfo) NULL)
                    s]> (tls_heap (runtime h)) /\
    trace (runtime h') =
      trace (runtime h) ++
      (if truthy (have_backtrace_fiber (fiber (runtime h))) then fiber_events else []).
Proof.
  intros Hflags Hcode Hdiff Hct Ht Hp Hf Hgc Hs Heh Hsafe Hex Hok.
  apply Z.eqb_neq in Hdiff.
  enter_exception_handler Hflags Hct Ht Hp Hf Hgc.
  rewrite Hcode, Hdiff, Z.eqb_refl, Heh.
  unfold update_tls_fault. unfold hbind at 1. cbn [tls_fault_heap with_runtime]. rewrite Hf.
  match goal with
  | |- context [hbind (lift _) _ ?h0] =>
      destruct (lift_jl_throw_in_ctx_handler (jl_current_task h) jl_stackovf_exception
                  (ContextRecord ExceptionInfo) h0 t s hd rest Hsafe Hct Hex Ht Hs Heh Hok)
        as (w' & Hrun & Hheap & Htrace & _)
  end.
  erewrite hbind_HRet; [|exact Hrun].
  rewrite Z.eqb_refl in Hheap, Htrace. simpl in Hheap, Htrace.
  eexists. split; [reflexivity|]. simpl.
  repeat split; assumption || reflexivity.
Qed.


(** X19: an access violation (no exception flag set) on the safepoint page,
    on the main thread, which is not waiting for the GC and does not defer
    signals, with an interrupt pending, no restore point registered, and a
    task with a handler frame the jump to which can be simulated: the
    interrupt is consumed, the override is cleared, and
    [InterruptException] is injected into the faulting context. *)
Theorem jl_exception_handler_safepoint_interrupt
    (ExceptionInfo : EXCEPTION_POINTERS) (h : Host) (t : jl_task_t) (f : tls_fault_state)
    (s : jl_tls_states_t) (addr : Z) (hd : jl_handler_t) (rest : list jl_handler_t) :
  ExceptionFlags (ExceptionRecord ExceptionInfo) = 0 ->
  ExceptionCode (ExceptionRecord ExceptionInfo) = EXCEPTION_ACCESS_VIOLATION ->
  EXCEPTION_ACCESS_VIOLATION <> EXCEPTION_INT_DIVIDE_BY_ZERO ->
  EXCEPTION_ACCESS_VIOLATION <> EXCEPTION_STACK_OVERFLOW ->
  jl_current_task h <> NULL ->
  task_heap (runtime h) !! jl_current_task h = Some t ->
  ptls t <> NULL ->
  tls_fault_heap h !! ptls t = Some f ->
  gc_state f <> JL_GC_STATE_WAITING ->
  tls_heap (runtime h) !! ptls t = Some s ->
  ExceptionInformation (ExceptionRecord ExceptionInfo) !! 1%nat = Some addr ->
  jl_addr_is_safepoint addr <> 0 ->
  tid s = 0 ->
  defer_signal s = 0 ->
  sigint_pending (safepoint (runtime h)) = true ->
  eh t = hd :: rest ->
  safe_restore (runtime h) = None ->
  jl_interrupt_exception <> NULL ->
  jl_interrupt_exception <> jl_stackovf_exception ->
  fst (jl_simulate_longjmp (eh_ctx hd) (ContextRecord ExceptionInfo)) <> 0 ->
  exists h',
    jl_exception_handler ExceptionInfo h =
      HRet (EXCEPTION_CONTINUE_EXECUTION,
            snd (jl_simulate_longjmp (eh_ctx hd) (ContextRecord ExceptionInfo))) h' /\
    safepoint (runtime h') = mkSafepoint false false /\
    tls_heap (runtime h') =
      <[ptls t := injected_tls jl_interrupt_exception true
                    (rec_backtrace_ctx JL_MAX_BT_SIZE (ContextRecord ExceptionInfo) (gcstack t))
                    s]> (tls_heap (runtime h)) /\
    trace (runtime h') = trace (runtime h) ++ [EvSafepointConsumeSigint; EvClearForceSigint] /\
    calls h' = calls h ++ [(length (trace (runtime h)), CallSetGcAndWait (jl_current_task h))].
Proof.
  intros Hflags Hcode Hd1 Hd2 Hct Ht Hp Hf Hgc Hs Hinfo Hsp Htid Hdefer Hpend Heh Hsafe
    Hex Hne Hok.
  apply Z.eqb_neq in Hd1, Hd2. pose proof Hne as Hne'. apply Z.eqb_neq in Hne'.
  enter_exception_handler Hflags Hct Ht Hp Hf Hgc.
  rewrite Hcode, Hd1, Hd2, Z.eqb_refl, Hinfo, (truthy_true _ Hsp).
  unfold jl_set_gc_and_wait, call, hmodify.
  unfold hbind at 1.
  erewrite hbind_HRet; [|apply lift_Ret; unfold load_tls; cbn; rewrite Hs; reflexivity].
  rewrite Htid, Hdefer. cbn [Z.eqb negb truthy].
  erewrite hbind_HRet; [|apply lift_Ret; reflexivity].
  cbn [sigint_pending safepoint with_trace runtime with_runtime with_calls].
  rewrite Hpend.
  erewrite hbind_HRet; [|apply lift_Ret; reflexivity].
  match goal with
  | |- context [hbind (lift _) _ ?h0] =>
      destruct (lift_jl_throw_in_ctx_handler (jl_current_task h) jl_interrupt_exception
                  (ContextRecord ExceptionInfo) h0 t s hd rest Hsafe Hct Hex Ht Hs Heh Hok)
        as (w' & Hrun & Hheap & Htrace & _ & Hsafepoint)
  end.
  erewrite hbind_HRet; [|exact Hrun].
  rewrite Hne' in Hheap, Htrace. cbn in Hheap, Htrace, Hsafepoint.
  rewrite app_nil_r, <- app_assoc in Htrace.
  eexists. split; [reflexivity|]. cbn.
  repeat split; assumption || reflexivity.
Qed.




(** X23: without a current task, without a thread state, or on a thread
    that waits for the GC, every fault is fatal: nothing is injected, even
    for a division by zero or a stack overflow in a task with handler
    frames. *)
Theorem jl_exception_handler_fatal_without_thread
    (ExceptionInfo : EXCEPTION_POINTERS) (h : Host) :
  ExceptionFlags (ExceptionRecord ExceptionInfo) = 0 ->
  jl_current_task h = NULL \/
  (exists t, task_heap (runtime h) !! jl_current_task h = Some t /\
             (ptls t = NULL \/
              exists f, tls_fault_heap h !! ptls t = Some f /\
                        gc_state f = JL_GC_STATE_WAITING)) ->
  reported_as_fatal ExceptionInfo h (jl_exception_handler ExceptionInfo h).
Proof.
  intros Hflags Hcase.
  unfold jl_exception_handler; cbv zeta; rewrite Hflags; cbn [Z.eqb negb].
  unfold jl_get_current_task, load_tls_fault.
  unfold hbind at 1, hget at 1.
  destruct (Z.eqb_spec (jl_current_task h) NULL) as [Hnull|Hct].
  - apply jl_exception_handler_report_leaves; reflexivity.
  - destruct Hcase as [Hnull|(t & Ht & Hcase)]; [contradiction|].
    erewrite hbind_HRet; [|apply lift_Ret; unfold load_task; rewrite Ht; reflexivity].
    destruct (Z.eqb_spec (ptls t) NULL) as [Hpnull|Hp].
    + apply jl_exception_handler_report_leaves; reflexivity.
    + destruct Hcase as [Hpnull|(f & Hf & Hgc)]; [contradiction|].
      unfold hbind at 1; cbn [tls_fault_heap with_runtime].
      rewrite Hf, Hgc, Z.eqb_refl.
      apply jl_exception_handler_report_leaves; reflexivity.
Qed.


Local Transparent jl_throw_in_ctx jl_exception_handler_report.

(** *** The handlers of the C runtime *)

(** X25: [crt_sig_handler] on [SIGFPE] never returns: it resets the
    floating-point state, installs itself again, and then throws
    [DivideError] for a zero divide and raises an error that carries the
    code for every other floating-point error. *)
Theorem crt_sig_handler_fpe (num : Z) (h : Host) :
  crt_sig_handler SIGFPE num h =
    HLeft (if num =? _FPE_ZERODIVIDE then ByThrow jl_diverror_exception
           else ByError "Unexpected FPE Error 0x%X" [num])
          (with_calls (calls h ++ [(length (trace (runtime h)), CallFpreset);
                                   (length (trace (runtime h)),
                                    CallSignal SIGFPE (signal_ret SIGFPE))]) h).
Proof.
  unfold crt_sig_handler, fpreset, signal, jl_throw, leave_by, call, hmodify.
  rewrite Z.eqb_refl.
  unfold hbind, hret; cbn. rewrite <- app_assoc.
  destruct (num =? _FPE_ZERODIVIDE); reflexivity.
Qed.

(** X26: [jl_try_throw_sigint] arms the pending interrupt and wakes the
    event loop; it then throws [InterruptException] from the handler, with
    the interrupt consumed and the override cleared, when the override is
    set or the current task's thread waits in I/O without deferring
    signals, and returns with the interrupt left pending otherwise. *)
Theorem jl_try_throw_sigint_outcome (h : Host) (t : jl_task_t) (s : jl_tls_states_t) :
  task_heap (runtime h) !! jl_current_task h = Some t ->
  tls_heap (runtime h) !! ptls t = Some s ->
  jl_try_throw_sigint h =
    if force_sigint (safepoint (runtime h)) ||
       (negb (truthy (defer_signal s)) && truthy (io_wait s))
    then HLeft (ByThrow jl_interrupt_exception)
           (with_runtime
              (with_trace
                 (trace (runtime h) ++
                  [EvSafepointEnableSigint; EvWakeLibuv; EvSafepointConsumeSigint] ++
                  (if force_sigint (safepoint (runtime h))
                   then [EvPrint "WARNING: Force throwing a SIGINT\n"] else []) ++
                  [EvClearForceSigint])
                 (with_safepoint (mkSafepoint false false) (runtime h))) h)
    else HRet tt
           (with_runtime
              (with_trace (trace (runtime h) ++ [EvSafepointEnableSigint; EvWakeLibuv])
                 (with_safepoint (mkSafepoint true false) (runtime h))) h).
Proof.
  intros Ht Hs.
  unfold jl_try_throw_sigint, jl_get_current_task, jl_throw, leave_by,
    jl_safepoint_enable_sigint, jl_wake_libuv, jl_check_force_sigint,
    jl_safepoint_consume_sigint, jl_clear_force_sigint, jl_safe_printf, load_task, load_tls,
    emit, modify.
  unfold hbind, hret, hget, lift, bind, ret, get; cbn.
  destruct (force_sigint (safepoint (runtime h))) eqn:Hforce; cbn.
  - rewrite <- !app_assoc. reflexivity.
  - rewrite Ht; cbn. rewrite Hs; cbn.
    destruct (negb (truthy (defer_signal s)) && truthy (io_wait s)); cbn;
      rewrite <- ?app_assoc; reflexivity.
Qed.

(** [crt_sig_handler] on [SIGINT] installs itself again first.  When
    interrupts are ignored it returns, and when [exit_on_sigint] is set it
    leaves through [jl_exit(130)]; in neither case is the interrupt armed or
    the event loop woken. *)
Lemma crt_sig_handler_sigint_not_thrown (num : Z) (h : Host) :
  SIGINT <> SIGFPE ->
  jl_ignore_sigint_ret <> 0 \/ exit_on_sigint h <> 0 ->
  crt_sig_handler SIGINT num h =
    (if truthy jl_ignore_sigint_ret then HRet tt else HLeft (ByJlExit 130))
      (with_calls (calls h ++ [(length (trace (runtime h)),
                                CallSignal SIGINT (signal_ret SIGINT))]) h).
Proof.
  intros Hd Hcase. apply Z.eqb_neq in Hd.
  unfold crt_sig_handler, signal, jl_ignore_sigint, jl_exit, leave_by, call, hmodify.
  rewrite Hd, Z.eqb_refl.
  unfold hbind, hret, hget; cbn.
  destruct (truthy jl_ignore_sigint_ret) eqn:Hign; cbn; [reflexivity|].
  destruct Hcase as [Hi|He]; [apply truthy_true in Hi; congruence|].
  rewrite (truthy_true _ He). reflexivity.
Qed.

(** [crt_sig_handler] on [SIGSEGV] while a fault-site restore point is
    registered installs itself again and jumps to the restore point with
    value 1; nothing is reported and the signal is not raised again. *)
Lemma crt_sig_handler_segv_restore_point (num : Z) (h : Host) (buf : jl_jmp_buf) :
  SIGSEGV <> SIGFPE ->
  SIGSEGV <> SIGINT ->
  safe_restore (runtime h) = Some buf ->
  crt_sig_handler SIGSEGV num h =
    HLeft (ByLongjmp buf 1)
          (with_calls (calls h ++ [(length (trace (runtime h)),
                                    CallSignal SIGSEGV (signal_ret SIGSEGV))]) h).
Proof.
  intros Hd1 Hd2 Hsafe. apply Z.eqb_neq in Hd1, Hd2.
  unfold crt_sig_handler, signal, jl_longjmp, leave_by, call, hmodify, jl_get_safe_restore.
  rewrite Hd1, Hd2, Z.eqb_refl.
  unfold hbind, hret, hget, lift, get; cbn. rewrite Hsafe.
  destruct h; reflexivity.
Qed.

(** X27: on every other signal, and on [SIGSEGV] without a restore point,
    [crt_sig_handler] captures its own context, reports the critical error
    for the current task (after the illegal-instruction dump for [SIGILL])
    and raises the signal again; it does not install itself again, and a
    restore point is consulted for [SIGSEGV] only. *)
Theorem crt_sig_handler_fatal (sig num : Z) (h : Host) :
  sig <> SIGFPE ->
  sig <> SIGINT ->
  sig <> SIGSEGV \/ safe_restore (runtime h) = None ->
  crt_sig_handler sig num h =
    HRet tt
      (with_calls
         (calls h ++
          [(length (trace (runtime h)), CallRtlCaptureContext)] ++
          (if sig =? SIGILL
           then [(length (trace (runtime h)),
                  CallShowSigill (RtlCaptureContext_ctx CONTEXT_zero))]
           else []) ++
          [(length (trace (runtime h)),
            CallCriticalError sig (RtlCaptureContext_ctx CONTEXT_zero) (jl_current_task h));
           (length (trace (runtime h)), CallRaise sig)]) h).
Proof.
  intros Hd1 Hd2 Hcase. apply Z.eqb_neq in Hd1, Hd2.
  unfold crt_sig_handler, jl_show_sigill, jl_critical_error, raise, jl_get_current_task,
    call, hmodify, jl_get_safe_restore.
  rewrite Hd1, Hd2.
  assert (Hnone : (if sig =? SIGSEGV then lift (get safe_restore) else hret None) h =
                  HRet None h).
  { destruct (Z.eqb_spec sig SIGSEGV) as [Heq|Hne'].
    - destruct Hcase as [Hne|Hsafe]; [contradiction|].
      unfold lift, get. rewrite Hsafe. destruct h; reflexivity.
    - reflexivity. }
  erewrite hbind_HRet; [|exact Hnone].
  unfold hbind, hret, hget; cbn.
  destruct (sig =? SIGILL); cbn; rewrite <- ?app_assoc; reflexivity.
Qed.

(** *** The console handler *)

(** X28: [sigint_handler] while interrupts are ignored reports the event
    handled and touches nothing; with [exit_on_sigint] set it leaves
    through [jl_exit] with 128 plus the signal number: [SIGINT] for
    Ctrl-C, [SIGTERM] for every other console event.  In neither case is
    the main thread suspended. *)
Theorem sigint_handler_not_delivered (wsig : Z) (h : Host) :
  jl_ignore_sigint_ret <> 0 \/ exit_on_sigint h <> 0 ->
  sigint_handler wsig h =
    if truthy jl_ignore_sigint_ret then HRet 1 h
    else HLeft (ByJlExit (128 + (if wsig =? CTRL_C_EVENT then SIGINT else SIGTERM))) h.
Proof.
  intros Hcase.
  unfold sigint_handler, jl_ignore_sigint, jl_exit, leave_by. cbv zeta.
  unfold hbind, hret, hget; cbn.
  destruct (truthy jl_ignore_sigint_ret) eqn:Hign; cbn; [reflexivity|].
  destruct Hcase as [Hi|He]; [apply truthy_true in Hi; congruence|].
  rewrite (truthy_true _ He). reflexivity.
Qed.

(** Unless [exit_on_sigint] is set, the kind of the console event
    makes no difference: every event, Ctrl-C or not, is handled as the
    interrupt is. *)
Lemma sigint_handler_any_event (wsig : Z) (h : Host) :
  exit_on_sigint h = 0 ->
  sigint_handler wsig h = sigint_handler CTRL_C_EVENT h.
Proof.
  intros He.
  unfold sigint_handler, jl_ignore_sigint, jl_exit, leave_by. cbv zeta.
  unfold hbind, hret, hget. cbv beta iota.
  destruct (truthy jl_ignore_sigint_ret); cbn [negb]; cbv beta iota; [reflexivity|].
  rewrite He. reflexivity.
Qed.

(** *** Installation *)

Lemma jl_install_default_signal_handlers_eq :
  jl_install_default_signal_handlers =
    install_signals default_signals (call CallSetUnhandledExceptionFilter).
Proof. reflexivity. Qed.

Lemma install_signals_app (pre sigs : list (Z * string)) (k : H unit) (h : Host) :
  Forall (fun p => signal_ret (fst p) <> SIG_ERR) pre ->
  install_signals (pre ++ sigs) k h =
    install_signals sigs k
      (with_calls (calls h ++ signal_calls (length (trace (runtime h))) pre) h).
Proof.
  intros Hok. revert h. induction Hok as [|[sig msg] pre Hsig Hpre IH]; intros h.
  - cbn. rewrite app_nil_r. destruct h; reflexivity.
  - cbn [app install_signals]. apply Z.eqb_neq in Hsig. cbn in Hsig.
    unfold install_signal at 1, signal, call, hmodify.
    unfold hbind at 1 2 3, hret. rewrite Hsig.
    rewrite IH. cbn. rewrite <- app_assoc. reflexivity.
Qed.

(** X29: [jl_install_default_signal_handlers] installs [crt_sig_handler]
    for [SIGFPE], [SIGILL], [SIGINT], [SIGSEGV], [SIGTERM] and [SIGABRT]
    in this order and stops at the first installation that fails, raising
    the error that names that signal: the signals after it are not
    installed and the unhandled-exception filter is not set. *)
Theorem jl_install_default_signal_handlers_first_failure
    (pre post : list (Z * string)) (sig : Z) (msg : string) (h : Host) :
  default_signals = pre ++ (sig, msg) :: post ->
  Forall (fun p => signal_ret (fst p) <> SIG_ERR) pre ->
  signal_ret sig = SIG_ERR ->
  jl_install_default_signal_handlers h =
    HLeft (ByError msg [])
          (with_calls (calls h ++
                       signal_calls (length (trace (runtime h))) (pre ++ [(sig, msg)])) h).
Proof.
  intros Hsplit Hok Hfail.
  rewrite jl_install_default_signal_handlers_eq, Hsplit.
  rewrite (install_signals_app pre _ _ h Hok).
  cbn [install_signals].
  unfold install_signal, signal, jl_error, leave_by, call, hmodify.
  unfold hbind, hret. cbn. rewrite Hfail, Z.eqb_refl.
  unfold signal_calls. rewrite map_app, <- app_assoc. cbn. rewrite Hfail. reflexivity.
Qed.

(** When all six installations succeed,
    [jl_install_default_signal_handlers] returns after setting the
    unhandled-exception filter as its last call. *)
Lemma jl_install_default_signal_handlers_all (h : Host) :
  Forall (fun p => signal_ret (fst p) <> SIG_ERR) default_signals ->
  jl_install_default_signal_handlers h =
    HRet tt
         (with_calls (calls h ++
                      signal_calls (length (trace (runtime h))) default_signals ++
                      [(length (trace (runtime h)), CallSetUnhandledExceptionFilter)]) h).
Proof.
  intros Hok.
  rewrite jl_install_default_signal_handlers_eq.
  rewrite <- (app_nil_r default_signals) at 1.
  rewrite (install_signals_app default_signals [] _ h Hok).
  cbn [install_signals]. unfold call, hmodify. cbn.
  rewrite <- !app_assoc. reflexivity.
Qed.

(** *** Signal names *)

(** X30: [strsignal] answers ["?"] exactly for the numbers that are none
    of the eight signals it names. *)
Theorem strsignal_unknown (sig : Z) :
  strsignal sig = "?" <-> ~ In sig named_signals.
Proof.
  unfold strsignal, named_signals.
  repeat (match goal with
          | |- context [?a =? ?b] => destruct (Z.eqb_spec a b)
          end);
    (split; [intros Hq; try discriminate Hq; cbn; intuition congruence
            |intros Hn; try reflexivity; exfalso; apply Hn; cbn; intuition congruence]).
Qed.

End HandlerProperties.

(** ** The further properties on the concrete platform *)

Section PlatformExamples.
#[local] Existing Instance demo_win32.
#[local] Existing Instance demo_rt.


Lemma profile_bt_loop_idle_witness :
  profile_bt_loop 3 demo_ctx demo_world =
    Ret Continue (with_trace [EvSleep 1; EvSleep 1; EvSleep 1] demo_world) /\
  1 <= profile_sleep_ms demo_world < 2 ^ 32.
Proof.
  refine (profile_bt_loop_idle 3 demo_ctx demo_world _).
  reflexivity.
Defined.

Lemma profile_bt_iteration_buffer_full_witness :
  exists w',
    profile_bt_iteration demo_ctx demo_world_buffer_full = Ret Continue w' /\
    trace w' = [EvSleep 1; EvLock bt_data_prof_lock; EvTimeEndPeriod 1;
                EvUnlock bt_data_prof_lock; EvSuspendThread 901 0] /\
    profile_running (prof w') = 0 /\
    profile_bt_data_prof (prof w') = replicate 16 99 /\
    profile_bt_size_cur (prof w') = 12.
Proof.
  refine (profile_bt_iteration_buffer_full demo_ctx demo_world_buffer_full _ _).
  - simpl; lia.
  - simpl; lia.
Defined.

Lemma profile_bt_iteration_sample_pairing_witness :
  exists w',
    profile_bt_iteration demo_ctx demo_world_profiling = Ret Continue w' /\
    trace w' = [EvSleep 1; EvLock jl_in_stackwalk; EvLock profile_lock;
                EvSuspendThread 77 0; EvGetThreadContext 77 1;
                EvUnlock profile_lock; EvUnlock jl_in_stackwalk;
                EvResumeThread 77 0; EvCheckProfileAutostop] /\
    tls_heap w' = tls_heap demo_world_profiling /\
    task_heap w' = task_heap demo_world_profiling /\
    profile_running (prof w') = 1 /\
    profile_all_tasks (prof w') = 0.
Proof.
  refine (profile_bt_iteration_sample_pairing demo_ctx demo_world_profiling 8192 demo_tls _ _ _ _ _ _ _ _ _ _ _ _ _).
  - simpl; lia.
  - reflexivity.
  - reflexivity.
  - reflexivity.
  - unfold NULL; lia.
  - reflexivity.
  - unfold NULL; simpl; lia.
  - vm_compute; lia.
  - simpl; lia.
  - vm_compute; lia.
  - simpl; lia.
  - unfold sampled_backtrace; simpl; lia.
  - simpl; lia.
Defined.

Lemma jl_try_deliver_sigint_delivers_witness :
  exists w',
    jl_try_deliver_sigint demo_world = Ret tt w' /\
    safepoint w' = mkSafepoint false false /\
    tls_heap w' =
      <[8192 := injected_tls jl_interrupt_exception true
                  (rec_backtrace_ctx JL_MAX_BT_SIZE (main_thread_context demo_world) 12288)
                  demo_tls]> (tls_heap demo_world) /\
    trace w' =
      [EvLock profile_lock; EvSafepointEnableSigint; EvWakeLibuv; EvSuspendThread 77 0;
       EvUnlock profile_lock; EvSafepointConsumeSigint; EvClearForceSigint;
       EvGetThreadContext 77 1;
       EvSetThreadContext 77 (mkCONTEXT 1048579 [1; 2; 3; 4]) 1;
       EvResumeThread 77 0].
Proof.
  refine (jl_try_deliver_sigint_delivers demo_world 8192 demo_tls demo_task demo_tls
           (mkHandler [1; 2; 3; 4]) [mkHandler [5; 6; 7; 8]] _ _ _ _ _ _ _ _ _ _ _ _ _ _).
  - reflexivity.
  - reflexivity.
  - vm_compute; lia.
  - reflexivity.
  - simpl; lia.
  - reflexivity.
  - unfold NULL; simpl; lia.
  - unfold NULL; simpl; lia.
  - simpl; lia.
  - reflexivity.
  - reflexivity.
  - reflexivity.
  - simpl; lia.
  - simpl; lia.
Defined.

Lemma jl_try_deliver_sigint_restore_point_witness :
  exists w',
    jl_try_deliver_sigint demo_world_safe_restore = Ret tt w' /\
    safepoint w' = mkSafepoint false false /\
    tls_heap w' = tls_heap demo_world_safe_restore /\
    task_heap w' = task_heap demo_world_safe_restore /\
    trace w' =
      [EvLock profile_lock; EvSafepointEnableSigint; EvWakeLibuv; EvSuspendThread 77 0;
       EvUnlock profile_lock; EvSafepointConsumeSigint; EvClearForceSigint;
       EvGetThreadContext 77 1;
       EvSetThreadContext 77 (mkCONTEXT 1048579 [9; 9; 9; 9]) 1;
       EvResumeThread 77 0].
Proof.
  refine (jl_try_deliver_sigint_restore_point demo_world_safe_restore 8192 demo_tls
           [9; 9; 9; 9] _ _ _ _ _ _ _ _).
  - reflexivity.
  - reflexivity.
  - vm_compute; lia.
  - reflexivity.
  - simpl; lia.
  - reflexivity.
  - simpl; lia.
  - simpl; lia.
Defined.


Lemma jl_install_thread_signal_handler_once_witness :
  exists w',
    jl_install_thread_signal_handler 8192 demo_world_no_fiber = Ret tt w' /\
    trace w' = [EvMallocStack 65536; EvMakeContext; EvMutexInit backtrace_lock] /\
    have_backtrace_fiber (fiber w') = 1 /\
    jl_install_thread_signal_handler 8200 w' = Ret tt w'.
Proof.
  refine (jl_install_thread_signal_handler_once 8192 8200 demo_world_no_fiber _ _).
  - reflexivity.
  - unfold NULL; simpl; lia.
Defined.

End PlatformExamples.

Section FailingPlatformExamples.
#[local] Existing Instance demo_rt.

Lemma jl_thread_suspend_and_get_state_resume_failure_aborts_witness :
  @jl_thread_suspend_and_get_state demo_os_no_read_no_resume 0 0 demo_ctx demo_world =
    Aborted (with_trace [EvSuspendThread 77 0; EvGetThreadContext 77 0;
                         EvResumeThread 77 demo_failed] demo_world).
Proof.
  refine (@jl_thread_suspend_and_get_state_resume_failure_aborts demo_os_no_read_no_resume
           0 0 demo_ctx demo_world 8192 demo_tls _ _ _ _ _ _ _ _).
  - lia.
  - reflexivity.
  - unfold NULL; lia.
  - reflexivity.
  - unfold NULL; simpl; lia.
  - vm_compute; lia.
  - reflexivity.
  - reflexivity.
Defined.

Lemma profile_bt_suspend_failure_witness :
  exists w',
    @profile_bt demo_os_no_suspend demo_rt 1 demo_ctx demo_world_profiling =
      Ret (Some 0) w' /\
    trace w' =
      [EvSleep 1; EvLock jl_in_stackwalk; EvLock profile_lock;
       EvSuspendThread 77 demo_failed;
       EvUnlock profile_lock; EvUnlock jl_in_stackwalk;
       EvPrint "failed to suspend main thread. aborting profiling.";
       EvLock bt_data_prof_lock; EvTimeEndPeriod 1; EvUnlock bt_data_prof_lock;
       EvUnlock jl_in_stackwalk;
       EvLock bt_data_prof_lock; EvUnlock bt_data_prof_lock] /\
    hBtThread (prof w') = NULL /\
    profile_running (prof w') = 0 /\
    profile_bt_data_prof (prof w') = replicate 16 99 /\
    profile_bt_size_cur (prof w') = 0.
Proof.
  refine (@profile_bt_suspend_failure demo_os_no_suspend demo_rt 0 demo_ctx
           demo_world_profiling 8192 demo_tls _ _ _ _ _ _ _ _).
  - simpl; lia.
  - reflexivity.
  - reflexivity.
  - reflexivity.
  - unfold NULL; lia.
  - reflexivity.
  - unfold NULL; simpl; lia.
  - reflexivity.
Defined.

Lemma jl_try_deliver_sigint_suspend_failure_witness :
  @jl_try_deliver_sigint demo_os_no_suspend demo_rt demo_world =
    Ret tt (with_trace
              [EvLock profile_lock; EvSafepointEnableSigint; EvWakeLibuv;
               EvSuspendThread 77 demo_failed;
               EvPrint "error: SuspendThread failed\n"; EvUnlock profile_lock]
              (with_safepoint (mkSafepoint true false) demo_world)).
Proof.
  refine (@jl_try_deliver_sigint_suspend_failure demo_os_no_suspend demo_rt demo_world 8192 _ _).
  - reflexivity.
  - reflexivity.
Defined.

Lemma jl_install_thread_signal_handler_no_stack_witness :
  @jl_install_thread_signal_handler demo_rt_no_stack 8192 demo_world_no_fiber =
    Raised "fatal error allocating signal stack: mmap: %s"
           (with_trace [EvMallocStack NULL] demo_world_no_fiber).
Proof.
  refine (@jl_install_thread_signal_handler_no_stack demo_rt_no_stack 8192
           demo_world_no_fiber _ _).
  - reflexivity.
  - reflexivity.
Defined.

End FailingPlatformExamples.

Section HandlerExamples.
#[local] Existing Instance demo_win32.
#[local] Existing Instance demo_rt.
#[local] Existing Instance demo_crt_handling.


Lemma jl_exception_handler_stack_overflow_witness :
  exists h',
    jl_exception_handler (demo_fault EXCEPTION_STACK_OVERFLOW []) (demo_host demo_world) =
      HRet (EXCEPTION_CONTINUE_EXECUTION, mkCONTEXT 1048579 [1; 2; 3; 4]) h' /\
    tls_fault_heap h' =
      <[8192 := mkTlsFault 0 1]> (tls_fault_heap (demo_host demo_world)) /\
    calls h' = [] /\
    tls_heap (runtime h') =
      <[8192 := injected_tls jl_stackovf_exception true
                  (rec_backtrace_ctx JL_MAX_BT_SIZE demo_ctx NULL) demo_tls]>
        (tls_heap demo_world) /\
    trace (runtime h') = fiber_events.
Proof.
  refine (jl_exception_handler_stack_overflow (demo_fault EXCEPTION_STACK_OVERFLOW [])
           (demo_host demo_world) demo_task (mkTlsFault 0 0) demo_tls
           (mkHandler [1; 2; 3; 4]) [mkHandler [5; 6; 7; 8]] _ _ _ _ _ _ _ _ _ _ _ _ _).
  - reflexivity.
  - reflexivity.
  - simpl; lia.
  - unfold NULL; simpl; lia.
  - reflexivity.
  - unfold NULL; simpl; lia.
  - reflexivity.
  - simpl; lia.
  - reflexivity.
  - reflexivity.
  - reflexivity.
  - unfold NULL; simpl; lia.
  - simpl; lia.
Defined.


Lemma jl_exception_handler_safepoint_interrupt_witness :
  exists h',
    jl_exception_handler (demo_fault EXCEPTION_ACCESS_VIOLATION [0; 65536])
        (demo_host demo_world_pending) =
      HRet (EXCEPTION_CONTINUE_EXECUTION, mkCONTEXT 1048579 [1; 2; 3; 4]) h' /\
    safepoint (runtime h') = mkSafepoint false false /\
    tls_heap (runtime h') =
      <[8192 := injected_tls jl_interrupt_exception true
                  (rec_backtrace_ctx JL_MAX_BT_SIZE demo_ctx 12288) demo_tls]>
        (tls_heap demo_world_pending) /\
    trace (runtime h') = [EvSafepointConsumeSigint; EvClearForceSigint] /\
    calls h' = [(0%nat, CallSetGcAndWait 4096)].
Proof.
  refine (jl_exception_handler_safepoint_interrupt
           (demo_fault EXCEPTION_ACCESS_VIOLATION [0; 65536])
           (demo_host demo_world_pending) demo_task (mkTlsFault 0 0) demo_tls 65536
           (mkHandler [1; 2; 3; 4]) [mkHandler [5; 6; 7; 8]] _ _ _ _ _ _ _ _ _ _ _ _ _ _ _ _ _ _ _ _).
  - reflexivity.
  - reflexivity.
  - simpl; lia.
  - simpl; lia.
  - unfold NULL; simpl; lia.
  - reflexivity.
  - unfold NULL; simpl; lia.
  - reflexivity.
  - simpl; lia.
  - reflexivity.
  - reflexivity.
  - simpl; lia.
  - reflexivity.
  - reflexivity.
  - reflexivity.
  - reflexivity.
  - reflexivity.
  - unfold NULL; simpl; lia.
  - simpl; lia.
  - simpl; lia.
Defined.




Lemma jl_exception_handler_fatal_without_thread_witness :
  reported_as_fatal (demo_fault EXCEPTION_INT_DIVIDE_BY_ZERO []) demo_host_gc_waiting
    (jl_exception_handler (demo_fault EXCEPTION_INT_DIVIDE_BY_ZERO []) demo_host_gc_waiting).
Proof.
  refine (jl_exception_handler_fatal_without_thread
           (demo_fault EXCEPTION_INT_DIVIDE_BY_ZERO []) demo_host_gc_waiting _ _).
  - reflexivity.
  - right. exists demo_task. split; [reflexivity|].
    right. exists (mkTlsFault 1 0). split; reflexivity.
Defined.


Lemma jl_try_throw_sigint_outcome_witness :
  jl_try_throw_sigint (demo_host demo_world) =
    HLeft (ByThrow jl_interrupt_exception)
          (with_runtime
             (with_trace [EvSafepointEnableSigint; EvWakeLibuv; EvSafepointConsumeSigint;
                          EvClearForceSigint]
                (with_safepoint (mkSafepoint false false) demo_world))
             (demo_host demo_world)).
Proof.
  refine (jl_try_throw_sigint_outcome (demo_host demo_world) demo_task demo_tls _ _).
  - reflexivity.
  - reflexivity.
Defined.

Lemma crt_sig_handler_fatal_witness :
  crt_sig_handler SIGILL 0 (demo_host demo_world_safe_restore) =
    HRet tt
      (with_calls
         [(0%nat, CallRtlCaptureContext);
          (0%nat, CallShowSigill (mkCONTEXT 1048587 [5; 4198400; 4198912; 9]));
          (0%nat, CallCriticalError 4 (mkCONTEXT 1048587 [5; 4198400; 4198912; 9]) 4096);
          (0%nat, CallRaise 4)]
         (demo_host demo_world_safe_restore)).
Proof.
  refine (crt_sig_handler_fatal SIGILL 0 (demo_host demo_world_safe_restore) _ _ _).
  - simpl; lia.
  - simpl; lia.
  - left; simpl; lia.
Defined.

Lemma sigint_handler_not_delivered_witness :
  sigint_handler 1 demo_host_exit_on_sigint = HLeft (ByJlExit 143) demo_host_exit_on_sigint.
Proof.
  refine (sigint_handler_not_delivered 1 demo_host_exit_on_sigint _).
  right; simpl; lia.
Defined.

Lemma jl_install_default_signal_handlers_first_failure_witness :
  jl_install_default_signal_handlers (demo_host demo_world) =
    HLeft (ByError "fatal error: Couldn't set SIGSEGV" [])
          (with_calls [(0%nat, CallSignal 8 0); (0%nat, CallSignal 4 0);
                       (0%nat, CallSignal 2 0); (0%nat, CallSignal 11 (-1))]
                      (demo_host demo_world)).
Proof.
  refine (jl_install_default_signal_handlers_first_failure
           [(SIGFPE, "fatal error: Couldn't set SIGFPE");
            (SIGILL, "fatal error: Couldn't set SIGILL");
            (SIGINT, "fatal error: Couldn't set SIGINT")]
           [(SIGTERM, "fatal error: Couldn't set SIGTERM");
            (SIGABRT, "fatal error: Couldn't set SIGABRT")]
           SIGSEGV "fatal error: Couldn't set SIGSEGV" (demo_host demo_world) _ _ _).
  - reflexivity.
  - repeat (constructor; [simpl; lia|]). constructor.
  - reflexivity.
Defined.

End HandlerExamples.
